(** * provider-pocket-id: reconciliation controllers and API client

    A shallow embedding of the Crossplane provider for Pocket ID:
    the REST client of package pocketid (users, groups, OIDC clients,
    membership bindings) and the managed-resource controllers (adminuser,
    group, oidcclient, clientgroupbinding), with the properties
    of their drift detectors and of their Observe/Create/Update/Delete
    methods.

    Go values are modelled as follows.
    - [string] is [string]; [[]string] is [list string] (a nil slice and an
      empty slice are both [[]]); [map[string]string] is [gmap string string]
      (a nil map and an empty map are both [∅]); [int] is [Z], with the
      64-bit wrap-around written out where the code does arithmetic.
    - A pointer that may be nil is an [option].
    - [(T, error)] is [error + T]; a bare [error] is [option error].
    - I/O is a call to the environment: a method is a tree of calls
      ([Prog]), whose replies an environment supplies. *)

From stdpp Require Import base numbers strings pretty gmap list.

Local Open Scope string_scope.
Local Open Scope Z_scope.
Local Open Scope list_scope.

(** ** Errors *)

(** The error values the code builds: [errors.New] and [fmt.Errorf] without
    [%w] give a leaf, [errors.Wrap(err, msg)] and [fmt.Errorf("msg: %w", err)]
    wrap a cause. *)
Inductive error : Type :=
| errorString (msg : string)
| wrapError (msg : string) (cause : error).

(** [errors.Cause]: the innermost error of a chain of wraps. *)
Fixpoint Cause (e : error) : error :=
  match e with
  | errorString _ => e
  | wrapError _ c => Cause c
  end.

Definition errMessage (e : error) : string :=
  match e with
  | errorString m => m
  | wrapError m _ => m
  end.

(** ** crossplane-runtime and apimachinery types the controllers touch *)

Module metav1.
Module ObjectMeta.
Record t := mk {
  Name : string;
  Annotations : gmap string string
}.
End ObjectMeta.
End metav1.

Module meta.
Definition AnnotationKeyExternalName : string := "crossplane.io/external-name".

(** [meta.GetExternalName]: the annotation, or the empty string. *)
Definition GetExternalName (o : metav1.ObjectMeta.t) : string :=
  default "" (metav1.ObjectMeta.Annotations o !! AnnotationKeyExternalName).

(** [meta.SetExternalName]: sets the annotation. *)
Definition SetExternalName (o : metav1.ObjectMeta.t) (name : string)
  : metav1.ObjectMeta.t :=
  metav1.ObjectMeta.mk (metav1.ObjectMeta.Name o)
    (<[AnnotationKeyExternalName := name]> (metav1.ObjectMeta.Annotations o)).
End meta.

Module xpv1.
Module Reference.
Record t := mk { Name : string }.
End Reference.

Module Selector.
Record t := mk {
  MatchLabels : gmap string string;
  MatchControllerRef : option bool
}.
End Selector.

Module Condition.
Record t := mk {
  Type_ : string;
  Status : string;
  Reason : string
}.
End Condition.

(** [xpv1.Available()]: Ready=True, reason Available. *)
Definition Available : Condition.t :=
  Condition.mk "Ready" "True" "Available".

(** [ConditionedStatus.SetConditions] for one condition: every condition
    of the same type is replaced by the new one; when there is none the new
    one is appended. (The transition time is not modelled, so a condition
    that is [Equal] to the new one and is kept is the new one.) *)
Definition SetConditions (cs : list Condition.t) (c : Condition.t)
  : list Condition.t :=
  let sameType (c0 : Condition.t) :=
    String.eqb (Condition.Type_ c0) (Condition.Type_ c) in
  if existsb sameType cs
  then map (λ c0, if sameType c0 then c else c0) cs
  else cs ++ [c].
End xpv1.

Module managed.
Module ExternalObservation.
Record t := mk {
  ResourceExists : bool;
  ResourceUpToDate : bool
}.
End ExternalObservation.

Module ExternalCreation.
Record t := mk { ConnectionDetails : gmap string string }.
End ExternalCreation.

Module ExternalUpdate.
Record t := mk { ConnectionDetails : gmap string string }.
End ExternalUpdate.

Module ExternalDelete.
Record t := mk { }.
End ExternalDelete.
End managed.

(** ** package v1alpha1: the managed resources *)

Module v1alpha1.
Module AdminUserParameters.
Record t := mk {
  Username : string;
  Email : string;
  FirstName : string;
  LastName : string;
  Locale : string;
  Disabled : bool;
  CustomClaims : gmap string string
}.
End AdminUserParameters.

Module AdminUserObservation.
Record t := mk {
  ID : string;
  Username : string;
  Email : string;
  FirstName : string;
  LastName : string;
  Locale : string;
  Disabled : bool;
  IsAdmin : bool;
  UserGroups : list string;
  CustomClaims : gmap string string
}.
Definition zero : t := mk "" "" "" "" "" "" false false [] ∅.
End AdminUserObservation.

(** [Spec.ForProvider], [Status.AtProvider] and [Status.Conditions] are
    flattened into the resource record. *)
Module AdminUser.
Record t := mk {
  ObjectMeta : metav1.ObjectMeta.t;
  ForProvider : AdminUserParameters.t;
  AtProvider : AdminUserObservation.t;
  Conditions : list xpv1.Condition.t
}.
End AdminUser.

Module GroupParameters.
Record t := mk {
  Name : string;
  FriendlyName : string;
  CustomClaims : gmap string string
}.
End GroupParameters.

Module GroupObservation.
Record t := mk {
  ID : string;
  Name : string;
  FriendlyName : string;
  CreatedAt : string;
  CustomClaims : gmap string string
}.
Definition zero : t := mk "" "" "" "" ∅.
End GroupObservation.

Module Group.
Record t := mk {
  ObjectMeta : metav1.ObjectMeta.t;
  ForProvider : GroupParameters.t;
  AtProvider : GroupObservation.t;
  Conditions : list xpv1.Condition.t
}.
End Group.

Module OIDCClientCredentialsFederatedIdentity.
Record t := mk {
  Issuer : string;
  Subject : string;
  Audience : string;
  JWKS : string
}.
End OIDCClientCredentialsFederatedIdentity.

Module OIDCClientCredentials.
Record t := mk {
  FederatedIdentities : list OIDCClientCredentialsFederatedIdentity.t
}.
End OIDCClientCredentials.

Module OIDCClientParameters.
Record t := mk {
  Name : string;
  ID : string;
  CallbackURLs : list string;
  LogoutCallbackURLs : list string;
  LaunchURL : string;
  IsPublic : bool;
  PkceEnabled : bool;
  RequiresReauthentication : bool;
  LogoURL : string;
  Credentials : OIDCClientCredentials.t
}.
End OIDCClientParameters.

Module OIDCClientObservation.
Record t := mk {
  ID : string;
  Name : string;
  CallbackURLs : list string;
  LogoutCallbackURLs : list string;
  LaunchURL : string;
  IsPublic : bool;
  PkceEnabled : bool;
  RequiresReauthentication : bool;
  LogoURL : string;
  HasLogo : bool;
  Credentials : OIDCClientCredentials.t
}.
Definition zero : t :=
  mk "" "" [] [] "" false false false "" false (OIDCClientCredentials.mk []).
End OIDCClientObservation.

Module OIDCClient.
Record t := mk {
  ObjectMeta : metav1.ObjectMeta.t;
  ForProvider : OIDCClientParameters.t;
  AtProvider : OIDCClientObservation.t;
  Conditions : list xpv1.Condition.t
}.
End OIDCClient.

Module OIDCClientGroupBindingParameters.
Record t := mk {
  ClientID : string;
  ClientIDRef : option xpv1.Reference.t;
  ClientIDSelector : option xpv1.Selector.t;
  GroupID : string;
  GroupIDRef : option xpv1.Reference.t;
  GroupIDSelector : option xpv1.Selector.t
}.
End OIDCClientGroupBindingParameters.

Module OIDCClientGroupBindingObservation.
Record t := mk {
  Client : OIDCClientObservation.t;
  Group : GroupObservation.t
}.
Definition zero : t := mk OIDCClientObservation.zero GroupObservation.zero.
End OIDCClientGroupBindingObservation.

Module OIDCClientGroupBinding.
Record t := mk {
  ObjectMeta : metav1.ObjectMeta.t;
  ForProvider : OIDCClientGroupBindingParameters.t;
  AtProvider : OIDCClientGroupBindingObservation.t;
  Conditions : list xpv1.Condition.t
}.
End OIDCClientGroupBinding.

Module UserObservation.
Record t := mk {
  ID : string;
  Username : string;
  Email : string;
  FirstName : string;
  LastName : string;
  Locale : string;
  Disabled : bool;
  IsAdmin : bool;
  UserGroups : list string;
  CustomClaims : gmap string string
}.
Definition zero : t := mk "" "" "" "" "" "" false false [] ∅.
End UserObservation.

(** Only the status of a User resource is read by this development (it is
    what a binding's [UserIDRef] resolves against). *)
Module User.
Record t := mk {
  ObjectMeta : metav1.ObjectMeta.t;
  AtProvider : UserObservation.t;
  Conditions : list xpv1.Condition.t
}.
End User.

Module UserGroupBindingParameters.
Record t := mk {
  UserID : string;
  UserIDRef : option xpv1.Reference.t;
  UserIDSelector : option xpv1.Selector.t;
  GroupID : string;
  GroupIDRef : option xpv1.Reference.t;
  GroupIDSelector : option xpv1.Selector.t
}.
End UserGroupBindingParameters.

Module UserGroupBindingObservation.
Record t := mk {
  User : UserObservation.t;
  Group : GroupObservation.t
}.
Definition zero : t := mk UserObservation.zero GroupObservation.zero.
End UserGroupBindingObservation.

Module UserGroupBinding.
Record t := mk {
  ObjectMeta : metav1.ObjectMeta.t;
  ForProvider : UserGroupBindingParameters.t;
  AtProvider : UserGroupBindingObservation.t;
  Conditions : list xpv1.Condition.t
}.
End UserGroupBinding.
End v1alpha1.

(** ** package pocketid: API types *)

Module pocketid.
Module User.
Record t := mk {
  ID : string;
  Username : string;
  Email : string;
  FirstName : string;
  LastName : string;
  Locale : string;
  Disabled : bool;
  IsAdmin : bool;
  UserGroups : list string;
  CustomClaims : gmap string string
}.
End User.

Module CreateUserRequest.
Record t := mk {
  Username : string;
  Email : string;
  FirstName : string;
  LastName : string;
  Locale : string;
  Disabled : bool;
  IsAdmin : bool;
  CustomClaims : gmap string string
}.
End CreateUserRequest.

Module UpdateUserRequest.
Record t := mk {
  Username : string;
  Email : string;
  FirstName : string;
  LastName : string;
  Locale : string;
  Disabled : bool;
  CustomClaims : gmap string string
}.
End UpdateUserRequest.

Module Group.
Record t := mk {
  ID : string;
  GroupName : string;
  FriendlyName : string;
  CustomClaims : gmap string string
}.
End Group.

Module CreateGroupRequest.
Record t := mk {
  GroupName : string;
  FriendlyName : string;
  CustomClaims : gmap string string
}.
End CreateGroupRequest.

Module UpdateGroupRequest.
Record t := mk {
  GroupName : string;
  FriendlyName : string;
  CustomClaims : gmap string string
}.
End UpdateGroupRequest.

Module OIDCClient.
Record t := mk {
  ID : string;
  ClientName : string;
  ClientSecret : string;
  RedirectURIs : list string;
  PostLogoutURIs : list string;
  LaunchURL : string;
  IsPublic : bool;
  RequirePKCE : bool;
  HasLogo : bool;
  GroupClaims : list string;
  CustomClaims : gmap string string;
  AllowedScopes : list string;
  AccessTokenTTL : Z;
  RefreshTokenTTL : Z;
  IDTokenTTL : Z;
  GroupNames : list string
}.
End OIDCClient.

Module CreateOIDCClientRequest.
Record t := mk {
  ClientName : string;
  RedirectURIs : list string;
  PostLogoutURIs : list string;
  LaunchURL : string;
  IsPublic : bool;
  RequirePKCE : bool;
  GroupClaims : list string;
  CustomClaims : gmap string string;
  AllowedScopes : list string;
  AccessTokenTTL : Z;
  RefreshTokenTTL : Z;
  IDTokenTTL : Z
}.
End CreateOIDCClientRequest.

Module UpdateOIDCClientRequest.
Record t := mk {
  ClientName : string;
  RedirectURIs : list string;
  PostLogoutURIs : list string;
  LaunchURL : string;
  IsPublic : bool;
  RequirePKCE : bool;
  GroupClaims : list string;
  CustomClaims : gmap string string;
  AllowedScopes : list string;
  AccessTokenTTL : Z;
  RefreshTokenTTL : Z;
  IDTokenTTL : Z
}.
End UpdateOIDCClientRequest.

(** The [body interface{}] handed to [makeRequest]: nil, or one of the
    request structs (which [json.Marshal] always encodes). *)
Inductive RequestBody : Type :=
| NoBody
| CreateUserBody (req : CreateUserRequest.t)
| UpdateUserBody (req : UpdateUserRequest.t)
| CreateGroupBody (req : CreateGroupRequest.t)
| UpdateGroupBody (req : UpdateGroupRequest.t)
| CreateOIDCClientBody (req : CreateOIDCClientRequest.t)
| UpdateOIDCClientBody (req : UpdateOIDCClientRequest.t).

(** The bytes of a response body, with what [json.Unmarshal] makes of them
    for each type the client decodes into. *)
Module Body.
Record t := mk {
  raw : string;
  asUser : error + User.t;
  asUsers : error + list User.t;
  asGroup : error + Group.t;
  asGroups : error + list Group.t;
  asOIDCClient : error + OIDCClient.t;
  asOIDCClients : error + list OIDCClient.t
}.
End Body.

(** [*http.Response]: the status code, and what [io.ReadAll(resp.Body)]
    returns. *)
Module Response.
Record t := mk {
  StatusCode : Z;
  Body : error + Body.t
}.
End Response.

Definition StatusOK : Z := 200.
Definition StatusNotFound : Z := 404.
End pocketid.

(** ** Calls to the environment *)

(** The I/O the client and the controllers perform. The three transport
    helpers of client.go ([makeRequest], [uploadFile], [downloadFile]) are
    calls to the remote system; [c.kube.Get] reads a managed resource of the
    cluster by name. *)
Inductive Call : Type :=
| makeRequest (method path : string) (body : pocketid.RequestBody)
| uploadFile (path : string) (fileData : list Byte.byte) (filename : string)
| downloadFile (fileURL : string)
| kubeGetOIDCClient (name : string)
| kubeGetGroup (name : string)
| kubeGetUser (name : string).

Definition Reply (c : Call) : Type :=
  match c with
  | makeRequest _ _ _ => error + pocketid.Response.t
  | uploadFile _ _ _ => error + pocketid.Response.t
  | downloadFile _ => error + (list Byte.byte * string)
  | kubeGetOIDCClient _ => error + v1alpha1.OIDCClient.t
  | kubeGetGroup _ => error + v1alpha1.Group.t
  | kubeGetUser _ => error + v1alpha1.User.t
  end.

(** A call to the Pocket ID API (as opposed to a read of the cluster). *)
Definition isRemote (c : Call) : bool :=
  match c with
  | makeRequest _ _ _ | uploadFile _ _ _ | downloadFile _ => true
  | _ => false
  end.

(** A method body: it returns, panics (a nil pointer is dereferenced), or
    makes a call and goes on with the reply. *)
Inductive Prog (A : Type) : Type :=
| Ret (a : A)
| Panic
| Vis (c : Call) (k : Reply c → Prog A).

Arguments Ret {A} a.
Arguments Panic {A}.
Arguments Vis {A} c k.

Fixpoint bind {A B} (p : Prog A) (f : A → Prog B) : Prog B :=
  match p with
  | Ret a => f a
  | Panic => Panic
  | Vis c k => Vis c (λ r, bind (k r) f)
  end.

Definition call (c : Call) : Prog (Reply c) := Vis c Ret.

Notation "'let*' x := p 'in' q" := (bind p (λ x, q))
  (at level 10, x name, p at level 100, q at level 200, only parsing).

(** An environment answers every call, from a state of its own. *)
Record Env : Type := {
  World : Type;
  respond : ∀ c : Call, World → Reply c * World
}.

Inductive Outcome (A : Type) : Type :=
| Returned (a : A)
| Panicked.

Arguments Returned {A} a.
Arguments Panicked {A}.

(** Running a method in an environment: its outcome, the environment's
    final state, and the calls made, in order. *)
Fixpoint run {A} (E : Env) (p : Prog A) (w : World E)
  : Outcome A * World E * list Call :=
  match p with
  | Ret a => (Returned a, w, [])
  | Panic => (Panicked, w, [])
  | Vis c k =>
      let '(r, w1) := respond E c w in
      let '(o, w2, t) := run E (k r) w1 in
      (o, w2, c :: t)
  end.

Definition outcome {A} (E : Env) (p : Prog A) (w : World E) : Outcome A :=
  (run E p w).1.1.
Definition final {A} (E : Env) (p : Prog A) (w : World E) : World E :=
  (run E p w).1.2.
Definition calls {A} (E : Env) (p : Prog A) (w : World E) : list Call :=
  (run E p w).2.

(** ** package pocketid: the methods of Client *)

Module Client.
Import pocketid.

(** [strings.HasSuffix]. *)
Definition HasSuffix (s suffix : string) : bool :=
  let n := String.length s in
  let m := String.length suffix in
  if (m <=? n)%nat then String.eqb (String.substring (n - m) m s) suffix else false.

(** [fmt.Sprintf("%d", n)]. *)
Definition fmt_d (n : Z) : string := pretty n.

(** client.go: [checkResponse]. *)
Definition checkResponse (resp : Response.t) : error + Body.t :=
  match Response.Body resp with
  | inl err => inl (wrapError "failed to read response body" err)
  | inr body =>
      if Response.StatusCode resp >=? 400
      then inl (errorString ("API error: HTTP " +:+
                 fmt_d (Response.StatusCode resp) +:+ " - " +:+ Body.raw body))
      else inr body
  end.

(** The tail shared by the methods that return a bare [error]:
    [_, err = checkResponse(resp); return err]. *)
Definition checkResponse_err (resp : Response.t) : option error :=
  match checkResponse resp with
  | inl err => Some err
  | inr _ => None
  end.

(** *** Users *)

Definition GetUser (userID : string) : Prog (error + option User.t) :=
  let* r := call (makeRequest "GET" ("/api/users/" +:+ userID) NoBody) in
  match r with
  | inl err => Ret (inl (wrapError "failed to get user" err))
  | inr resp =>
      if Z.eqb (Response.StatusCode resp) StatusNotFound then Ret (inr None)
      else
        match checkResponse resp with
        | inl err => Ret (inl err)
        | inr body =>
            match Body.asUser body with
            | inl err =>
                Ret (inl (wrapError "failed to unmarshal user response" err))
            | inr user => Ret (inr (Some user))
            end
        end
  end.

Definition ListUsers : Prog (error + list User.t) :=
  let* r := call (makeRequest "GET" "/api/users" NoBody) in
  match r with
  | inl err => Ret (inl (wrapError "failed to list users" err))
  | inr resp =>
      match checkResponse resp with
      | inl err => Ret (inl err)
      | inr body =>
          match Body.asUsers body with
          | inl err =>
              Ret (inl (wrapError "failed to unmarshal users response" err))
          | inr users => Ret (inr users)
          end
      end
  end.

(** The loop returns the first user whose name matches. *)
Definition GetUserByExternalName (username : string)
  : Prog (error + option User.t) :=
  let* r := ListUsers in
  match r with
  | inl err => Ret (inl err)
  | inr users =>
      Ret (inr (List.find (λ user, String.eqb (User.Username user) username)
                  users))
  end.

Definition CreateUser (req : CreateUserRequest.t)
  : Prog (error + option User.t) :=
  let* r := call (makeRequest "POST" "/api/users" (CreateUserBody req)) in
  match r with
  | inl err => Ret (inl (wrapError "failed to create user" err))
  | inr resp =>
      match checkResponse resp with
      | inl err => Ret (inl err)
      | inr body =>
          match Body.asUser body with
          | inl err =>
              Ret (inl (wrapError "failed to unmarshal user response" err))
          | inr user => Ret (inr (Some user))
          end
      end
  end.

Definition UpdateUser (userID : string) (req : UpdateUserRequest.t)
  : Prog (error + option User.t) :=
  let* r := call (makeRequest "PUT" ("/api/users/" +:+ userID)
                    (UpdateUserBody req)) in
  match r with
  | inl err => Ret (inl (wrapError "failed to update user" err))
  | inr resp =>
      match checkResponse resp with
      | inl err => Ret (inl err)
      | inr body =>
          match Body.asUser body with
          | inl err =>
              Ret (inl (wrapError "failed to unmarshal user response" err))
          | inr user => Ret (inr (Some user))
          end
      end
  end.

Definition DeleteUser (userID : string) : Prog (option error) :=
  let* r := call (makeRequest "DELETE" ("/api/users/" +:+ userID) NoBody) in
  match r with
  | inl err => Ret (Some (wrapError "failed to delete user" err))
  | inr resp =>
      if Z.eqb (Response.StatusCode resp) StatusNotFound then Ret None
      else Ret (checkResponse_err resp)
  end.

(** *** Groups *)

Definition GetGroup (groupID : string) : Prog (error + option Group.t) :=
  let* r := call (makeRequest "GET" ("/api/groups/" +:+ groupID) NoBody) in
  match r with
  | inl err => Ret (inl (wrapError "failed to get group" err))
  | inr resp =>
      if Z.eqb (Response.StatusCode resp) StatusNotFound then Ret (inr None)
      else
        match checkResponse resp with
        | inl err => Ret (inl err)
        | inr body =>
            match Body.asGroup body with
            | inl err =>
                Ret (inl (wrapError "failed to unmarshal group response" err))
            | inr group => Ret (inr (Some group))
            end
        end
  end.

Definition ListGroups : Prog (error + list Group.t) :=
  let* r := call (makeRequest "GET" "/api/groups" NoBody) in
  match r with
  | inl err => Ret (inl (wrapError "failed to list groups" err))
  | inr resp =>
      match checkResponse resp with
      | inl err => Ret (inl err)
      | inr body =>
          match Body.asGroups body with
          | inl err =>
              Ret (inl (wrapError "failed to unmarshal groups response" err))
          | inr groups => Ret (inr groups)
          end
      end
  end.

Definition GetGroupByExternalName (groupName : string)
  : Prog (error + option Group.t) :=
  let* r := ListGroups in
  match r with
  | inl err => Ret (inl err)
  | inr groups =>
      Ret (inr (List.find (λ group, String.eqb (Group.GroupName group) groupName)
                  groups))
  end.

Definition CreateGroup (req : CreateGroupRequest.t)
  : Prog (error + option Group.t) :=
  let* r := call (makeRequest "POST" "/api/groups" (CreateGroupBody req)) in
  match r with
  | inl err => Ret (inl (wrapError "failed to create group" err))
  | inr resp =>
      match checkResponse resp with
      | inl err => Ret (inl err)
      | inr body =>
          match Body.asGroup body with
          | inl err =>
              Ret (inl (wrapError "failed to unmarshal group response" err))
          | inr group => Ret (inr (Some group))
          end
      end
  end.

Definition UpdateGroup (groupID : string) (req : UpdateGroupRequest.t)
  : Prog (error + option Group.t) :=
  let* r := call (makeRequest "PUT" ("/api/groups/" +:+ groupID)
                    (UpdateGroupBody req)) in
  match r with
  | inl err => Ret (inl (wrapError "failed to update group" err))
  | inr resp =>
      match checkResponse resp with
      | inl err => Ret (inl err)
      | inr body =>
          match Body.asGroup body with
          | inl err =>
              Ret (inl (wrapError "failed to unmarshal group response" err))
          | inr group => Ret (inr (Some group))
          end
      end
  end.

Definition DeleteGroup (groupID : string) : Prog (option error) :=
  let* r := call (makeRequest "DELETE" ("/api/groups/" +:+ groupID) NoBody) in
  match r with
  | inl err => Ret (Some (wrapError "failed to delete group" err))
  | inr resp =>
      if Z.eqb (Response.StatusCode resp) StatusNotFound then Ret None
      else Ret (checkResponse_err resp)
  end.

(** *** OIDC clients (oidcclients.go) *)

Definition GetOIDCClient (clientID : string)
  : Prog (error + option OIDCClient.t) :=
  let* r := call (makeRequest "GET" ("/api/oidc/clients/" +:+ clientID)
                    NoBody) in
  match r with
  | inl err => Ret (inl (wrapError "failed to get OIDC client" err))
  | inr resp =>
      if Z.eqb (Response.StatusCode resp) StatusNotFound then Ret (inr None)
      else
        match checkResponse resp with
        | inl err => Ret (inl err)
        | inr body =>
            match Body.asOIDCClient body with
            | inl err =>
                Ret (inl (wrapError
                            "failed to unmarshal OIDC client response" err))
            | inr client => Ret (inr (Some client))
            end
        end
  end.

Definition ListOIDCClients : Prog (error + list OIDCClient.t) :=
  let* r := call (makeRequest "GET" "/api/oidc/clients" NoBody) in
  match r with
  | inl err => Ret (inl (wrapError "failed to list OIDC clients" err))
  | inr resp =>
      match checkResponse resp with
      | inl err => Ret (inl err)
      | inr body =>
          match Body.asOIDCClients body with
          | inl err =>
              Ret (inl (wrapError
                          "failed to unmarshal OIDC clients response" err))
          | inr clients => Ret (inr clients)
          end
      end
  end.

Definition GetOIDCClientByExternalName (clientName : string)
  : Prog (error + option OIDCClient.t) :=
  let* r := ListOIDCClients in
  match r with
  | inl err => Ret (inl err)
  | inr clients =>
      Ret (inr (List.find
                  (λ client, String.eqb (OIDCClient.ClientName client) clientName)
                  clients))
  end.

Definition CreateOIDCClient (req : CreateOIDCClientRequest.t)
  : Prog (error + option OIDCClient.t) :=
  let* r := call (makeRequest "POST" "/api/oidc/clients"
                    (CreateOIDCClientBody req)) in
  match r with
  | inl err => Ret (inl (wrapError "failed to create OIDC client" err))
  | inr resp =>
      match checkResponse resp with
      | inl err => Ret (inl err)
      | inr body =>
          match Body.asOIDCClient body with
          | inl err =>
              Ret (inl (wrapError
                          "failed to unmarshal OIDC client response" err))
          | inr client => Ret (inr (Some client))
          end
      end
  end.

Definition UpdateOIDCClient (clientID : string)
    (req : UpdateOIDCClientRequest.t)
  : Prog (error + option OIDCClient.t) :=
  let* r := call (makeRequest "PUT" ("/api/oidc/clients/" +:+ clientID)
                    (UpdateOIDCClientBody req)) in
  match r with
  | inl err => Ret (inl (wrapError "failed to update OIDC client" err))
  | inr resp =>
      match checkResponse resp with
      | inl err => Ret (inl err)
      | inr body =>
          match Body.asOIDCClient body with
          | inl err =>
              Ret (inl (wrapError
                          "failed to unmarshal OIDC client response" err))
          | inr client => Ret (inr (Some client))
          end
      end
  end.

Definition DeleteOIDCClient (clientID : string) : Prog (option error) :=
  let* r := call (makeRequest "DELETE" ("/api/oidc/clients/" +:+ clientID)
                    NoBody) in
  match r with
  | inl err => Ret (Some (wrapError "failed to delete OIDC client" err))
  | inr resp =>
      if Z.eqb (Response.StatusCode resp) StatusNotFound then Ret None
      else Ret (checkResponse_err resp)
  end.

Section Logo.
(** [strings.ToLower] of the Go library, over UTF-8 text. *)
Variable ToLower : string → string.

Definition validExtensions : list string :=
  [".png"; ".jpeg"; ".jpg"; ".gif"; ".svg"].

Definition isValidImageExtension (url : string) : bool :=
  let url := ToLower url in
  existsb (λ ext, HasSuffix url ext) validExtensions.

Definition UploadOIDCClientLogo (clientID logoURL : string)
  : Prog (option error) :=
  if String.eqb logoURL "" then Ret None
  else
    let* d := call (downloadFile logoURL) in
    match d with
    | inl err => Ret (Some (wrapError "failed to download logo" err))
    | inr (logoData, filename) =>
        if Z.of_nat (length logoData) >? 2 * 1024 * 1024
        then Ret (Some (errorString "logo file size exceeds 2MB limit"))
        else if negb (isValidImageExtension logoURL)
        then Ret (Some (errorString
          "invalid image format. Supported formats: PNG, JPEG, JPG, GIF, SVG"))
        else
          let* r := call (uploadFile
                            ("/api/oidc/clients/" +:+ clientID +:+ "/logo")
                            logoData filename) in
          match r with
          | inl err => Ret (Some (wrapError "failed to upload logo" err))
          | inr resp => Ret (checkResponse_err resp)
          end
    end.
End Logo.

(** *** Membership bindings *)

Definition AddUserToGroup (userID groupID : string) : Prog (option error) :=
  let* r := call (makeRequest "POST"
                    ("/api/users/" +:+ userID +:+ "/groups/" +:+ groupID)
                    NoBody) in
  match r with
  | inl err => Ret (Some (wrapError "failed to add user to group" err))
  | inr resp => Ret (checkResponse_err resp)
  end.

Definition RemoveUserFromGroup (userID groupID : string)
  : Prog (option error) :=
  let* r := call (makeRequest "DELETE"
                    ("/api/users/" +:+ userID +:+ "/groups/" +:+ groupID)
                    NoBody) in
  match r with
  | inl err => Ret (Some (wrapError "failed to remove user from group" err))
  | inr resp =>
      if Z.eqb (Response.StatusCode resp) StatusNotFound then Ret None
      else Ret (checkResponse_err resp)
  end.

(** [slices.Contains] on strings. *)
Definition Contains (s : list string) (v : string) : bool :=
  existsb (String.eqb v) s.

Definition IsUserInGroup (userID groupID : string) : Prog (error + bool) :=
  let* ru := GetUser userID in
  match ru with
  | inl err => Ret (inl err)
  | inr None => Ret (inr false)
  | inr (Some user) =>
      let* rg := GetGroup groupID in
      match rg with
      | inl err => Ret (inl err)
      | inr None => Ret (inr false)
      | inr (Some group) =>
          Ret (inr (Contains (User.UserGroups user) (Group.GroupName group)))
      end
  end.

Definition AddClientToGroup (clientID groupID : string)
  : Prog (option error) :=
  let* r := call (makeRequest "POST"
                    ("/api/oidc/clients/" +:+ clientID +:+ "/groups/" +:+ groupID)
                    NoBody) in
  match r with
  | inl err => Ret (Some (wrapError "failed to add client to group" err))
  | inr resp => Ret (checkResponse_err resp)
  end.

Definition RemoveClientFromGroup (clientID groupID : string)
  : Prog (option error) :=
  let* r := call (makeRequest "DELETE"
                    ("/api/oidc/clients/" +:+ clientID +:+ "/groups/" +:+ groupID)
                    NoBody) in
  match r with
  | inl err => Ret (Some (wrapError "failed to remove client from group" err))
  | inr resp =>
      if Z.eqb (Response.StatusCode resp) StatusNotFound then Ret None
      else Ret (checkResponse_err resp)
  end.

Definition IsClientInGroup (clientID groupID : string)
  : Prog (error + bool) :=
  let* rc := GetOIDCClient clientID in
  match rc with
  | inl err => Ret (inl err)
  | inr None => Ret (inr false)
  | inr (Some client) =>
      let* rg := GetGroup groupID in
      match rg with
      | inl err => Ret (inl err)
      | inr None => Ret (inr false)
      | inr (Some group) =>
          Ret (inr (Contains (OIDCClient.GroupNames client)
                      (Group.GroupName group)))
      end
  end.
End Client.

(** ** resource.Managed *)

(** The interface value handed to a controller: a managed resource of one of
    the kinds of this provider. A controller's type assertion on [mg] is a
    match on it. *)
Inductive Managed : Type :=
| AdminUserMR (cr : v1alpha1.AdminUser.t)
| UserMR (cr : v1alpha1.User.t)
| GroupMR (cr : v1alpha1.Group.t)
| OIDCClientMR (cr : v1alpha1.OIDCClient.t)
| OIDCClientGroupBindingMR (cr : v1alpha1.OIDCClientGroupBinding.t)
| UserGroupBindingMR (cr : v1alpha1.UserGroupBinding.t).

(** [for k, v := range m { if !body(k, v) { return false } }; return true]:
    whatever order the keys come in, the loop returns true exactly when the
    body holds of every entry. *)
Definition rangeAll {V} (m : gmap string V) (body : string → V → bool) : bool :=
  forallb (λ kv, body kv.1 kv.2) (map_to_list m).

(** Go's [int], 64 bits wide, two's complement. *)
Definition wrap_int (z : Z) : Z := (z + 2 ^ 63) mod 2 ^ 64 - 2 ^ 63.

(** ** package adminuser: the AdminUser controller *)

Module adminuser.
Import managed.
Module P := v1alpha1.AdminUserParameters.
Module U := pocketid.User.

Definition errNotAdminUser : string :=
  "managed resource is not a AdminUser custom resource".

Definition isAdminUserUpToDate (spec : P.t) (user : U.t) : bool :=
  if negb (String.eqb (P.Username spec) (U.Username user)) then false
  else if negb (String.eqb (P.Email spec) (U.Email user)) then false
  else if negb (String.eqb (P.FirstName spec) (U.FirstName user)) then false
  else if negb (String.eqb (P.LastName spec) (U.LastName user)) then false
  else if negb (String.eqb (P.Locale spec) (U.Locale user)) then false
  else if negb (Bool.eqb (P.Disabled spec) (U.Disabled user)) then false
  else if negb (Nat.eqb (size (P.CustomClaims spec))
                  (size (U.CustomClaims user))) then false
  else
    rangeAll (P.CustomClaims spec) (λ k v,
      match U.CustomClaims user !! k with
      | Some userVal => String.eqb userVal v
      | None => false
      end).

Definition Observe (mg : Managed)
  : Prog (Managed * (error + ExternalObservation.t)) :=
  match mg with
  | AdminUserMR cr =>
      let externalName := meta.GetExternalName (v1alpha1.AdminUser.ObjectMeta cr) in
      let externalName :=
        if String.eqb externalName ""
        then P.Username (v1alpha1.AdminUser.ForProvider cr)
        else externalName in
      let* r := Client.GetUserByExternalName externalName in
      match r with
      | inl err => Ret (mg, inl (wrapError "failed to get admin user" err))
      | inr None => Ret (mg, inr (ExternalObservation.mk false false))
      | inr (Some user) =>
          if negb (U.IsAdmin user)
          then Ret (mg, inl (errorString "user exists but is not an admin user"))
          else
            let atProvider :=
              v1alpha1.AdminUserObservation.mk
                (U.ID user) (U.Username user) (U.Email user)
                (U.FirstName user) (U.LastName user) (U.Locale user)
                (U.Disabled user) (U.IsAdmin user) (U.UserGroups user)
                (U.CustomClaims user) in
            let om := v1alpha1.AdminUser.ObjectMeta cr in
            let om :=
              if String.eqb (meta.GetExternalName om) ""
              then meta.SetExternalName om (U.Username user)
              else om in
            let upToDate :=
              isAdminUserUpToDate (v1alpha1.AdminUser.ForProvider cr) user in
            let conds :=
              xpv1.SetConditions (v1alpha1.AdminUser.Conditions cr)
                xpv1.Available in
            Ret (AdminUserMR
                   (v1alpha1.AdminUser.mk om
                      (v1alpha1.AdminUser.ForProvider cr) atProvider conds),
                 inr (ExternalObservation.mk true upToDate))
      end
  | _ => Ret (mg, inl (errorString errNotAdminUser))
  end.

Definition Create (mg : Managed)
  : Prog (Managed * (error + ExternalCreation.t)) :=
  match mg with
  | AdminUserMR cr =>
      let spec := v1alpha1.AdminUser.ForProvider cr in
      let req :=
        pocketid.CreateUserRequest.mk
          (P.Username spec) (P.Email spec) (P.FirstName spec)
          (P.LastName spec) (P.Locale spec) (P.Disabled spec)
          true (P.CustomClaims spec) in
      let* r := Client.CreateUser req in
      match r with
      | inl err => Ret (mg, inl (wrapError "failed to create admin user" err))
      | inr None => Panic
      | inr (Some user) =>
          Ret (AdminUserMR
                 (v1alpha1.AdminUser.mk
                    (meta.SetExternalName (v1alpha1.AdminUser.ObjectMeta cr)
                       (U.Username user))
                    spec (v1alpha1.AdminUser.AtProvider cr)
                    (v1alpha1.AdminUser.Conditions cr)),
               inr (ExternalCreation.mk ∅))
      end
  | _ => Ret (mg, inl (errorString errNotAdminUser))
  end.

Definition Update (mg : Managed)
  : Prog (Managed * (error + ExternalUpdate.t)) :=
  match mg with
  | AdminUserMR cr =>
      let id := v1alpha1.AdminUserObservation.ID (v1alpha1.AdminUser.AtProvider cr) in
      if String.eqb id ""
      then Ret (mg, inl (errorString "admin user ID not found in status"))
      else
        let spec := v1alpha1.AdminUser.ForProvider cr in
        let req :=
          pocketid.UpdateUserRequest.mk
            (P.Username spec) (P.Email spec) (P.FirstName spec)
            (P.LastName spec) (P.Locale spec) (P.Disabled spec)
            (P.CustomClaims spec) in
        let* r := Client.UpdateUser id req in
        match r with
        | inl err => Ret (mg, inl (wrapError "failed to update admin user" err))
        | inr _ => Ret (mg, inr (ExternalUpdate.mk ∅))
        end
  | _ => Ret (mg, inl (errorString errNotAdminUser))
  end.

Definition Delete (mg : Managed)
  : Prog (Managed * (error + ExternalDelete.t)) :=
  match mg with
  | AdminUserMR cr =>
      let id := v1alpha1.AdminUserObservation.ID (v1alpha1.AdminUser.AtProvider cr) in
      if negb (String.eqb id "")
      then
        let* err := Client.DeleteUser id in
        match err with
        | Some err => Ret (mg, inl (wrapError "failed to delete admin user" err))
        | None => Ret (mg, inr ExternalDelete.mk)
        end
      else Ret (mg, inr ExternalDelete.mk)
  | _ => Ret (mg, inl (errorString errNotAdminUser))
  end.
End adminuser.

(** ** package group: the Group controller *)

Module group.
Import managed.
Module P := v1alpha1.GroupParameters.
Module G := pocketid.Group.

Definition errNotGroup : string :=
  "managed resource is not a Group custom resource".

(** [b[k]] on a Go map: the value, or the zero value of a missing key. *)
Definition equalStringMaps (a b : gmap string string) : bool :=
  if negb (Nat.eqb (size a) (size b)) then false
  else rangeAll a (λ k v, String.eqb (default "" (b !! k)) v).

Definition isGroupUpToDate (spec : P.t) (group : G.t) : bool :=
  if negb (String.eqb (P.Name spec) (G.GroupName group)) then false
  else if negb (String.eqb (P.FriendlyName spec) (G.FriendlyName group))
  then false
  else if negb (equalStringMaps (P.CustomClaims spec) (G.CustomClaims group))
  then false
  else true.

Definition Observe (mg : Managed)
  : Prog (Managed * (error + ExternalObservation.t)) :=
  match mg with
  | GroupMR cr =>
      let externalName := meta.GetExternalName (v1alpha1.Group.ObjectMeta cr) in
      let externalName :=
        if String.eqb externalName ""
        then P.Name (v1alpha1.Group.ForProvider cr)
        else externalName in
      let* r := Client.GetGroupByExternalName externalName in
      match r with
      | inl err => Ret (mg, inl (wrapError "failed to get group" err))
      | inr None => Ret (mg, inr (ExternalObservation.mk false false))
      | inr (Some group) =>
          let atProvider :=
            v1alpha1.GroupObservation.mk
              (G.ID group) (G.GroupName group) (G.FriendlyName group)
              "" (G.CustomClaims group) in
          let om := v1alpha1.Group.ObjectMeta cr in
          let om :=
            if String.eqb (meta.GetExternalName om) ""
            then meta.SetExternalName om (G.GroupName group)
            else om in
          let upToDate :=
            isGroupUpToDate (v1alpha1.Group.ForProvider cr) group in
          let conds :=
            xpv1.SetConditions (v1alpha1.Group.Conditions cr) xpv1.Available in
          Ret (GroupMR
                 (v1alpha1.Group.mk om (v1alpha1.Group.ForProvider cr)
                    atProvider conds),
               inr (ExternalObservation.mk true upToDate))
      end
  | _ => Ret (mg, inl (errorString errNotGroup))
  end.

Definition Create (mg : Managed)
  : Prog (Managed * (error + ExternalCreation.t)) :=
  match mg with
  | GroupMR cr =>
      let spec := v1alpha1.Group.ForProvider cr in
      let req :=
        pocketid.CreateGroupRequest.mk
          (P.Name spec) (P.FriendlyName spec) (P.CustomClaims spec) in
      let* r := Client.CreateGroup req in
      match r with
      | inl err => Ret (mg, inl (wrapError "failed to create group" err))
      | inr None => Panic
      | inr (Some group) =>
          Ret (GroupMR
                 (v1alpha1.Group.mk
                    (meta.SetExternalName (v1alpha1.Group.ObjectMeta cr)
                       (G.GroupName group))
                    spec (v1alpha1.Group.AtProvider cr)
                    (v1alpha1.Group.Conditions cr)),
               inr (ExternalCreation.mk ∅))
      end
  | _ => Ret (mg, inl (errorString errNotGroup))
  end.

Definition Update (mg : Managed)
  : Prog (Managed * (error + ExternalUpdate.t)) :=
  match mg with
  | GroupMR cr =>
      let id := v1alpha1.GroupObservation.ID (v1alpha1.Group.AtProvider cr) in
      if String.eqb id ""
      then Ret (mg, inl (errorString "group ID not found in status"))
      else
        let spec := v1alpha1.Group.ForProvider cr in
        let req :=
          pocketid.UpdateGroupRequest.mk
            (P.Name spec) (P.FriendlyName spec) (P.CustomClaims spec) in
        let* r := Client.UpdateGroup id req in
        match r with
        | inl err => Ret (mg, inl (wrapError "failed to update group" err))
        | inr _ => Ret (mg, inr (ExternalUpdate.mk ∅))
        end
  | _ => Ret (mg, inl (errorString errNotGroup))
  end.

Definition Delete (mg : Managed)
  : Prog (Managed * (error + ExternalDelete.t)) :=
  match mg with
  | GroupMR cr =>
      let id := v1alpha1.GroupObservation.ID (v1alpha1.Group.AtProvider cr) in
      if negb (String.eqb id "")
      then
        let* err := Client.DeleteGroup id in
        match err with
        | Some err => Ret (mg, inl (wrapError "failed to delete group" err))
        | None => Ret (mg, inr ExternalDelete.mk)
        end
      else Ret (mg, inr ExternalDelete.mk)
  | _ => Ret (mg, inl (errorString errNotGroup))
  end.
End group.

(** ** package oidcclient: the OIDCClient controller *)

Module oidcclient.
Import managed.
Module P := v1alpha1.OIDCClientParameters.
Module C := pocketid.OIDCClient.

Definition errNotOIDCClient : string :=
  "managed resource is not an OIDCClient custom resource".

(** [countX[item]++] for each item, from an empty map. *)
Definition countItems (l : list string) : gmap string Z :=
  fold_left
    (λ count item, <[item := wrap_int (default 0 (count !! item) + 1)]> count)
    l ∅.

Definition equalStringSlices (a b : list string) : bool :=
  if negb (Nat.eqb (length a) (length b)) then false
  else
    let countA := countItems a in
    let countB := countItems b in
    rangeAll countA (λ k v, Z.eqb (default 0 (countB !! k)) v).

Definition isOIDCClientUpToDate (spec : P.t) (client : C.t) : bool :=
  if negb (String.eqb (P.Name spec) (C.ClientName client)) then false
  else if negb (String.eqb (P.LaunchURL spec) (C.LaunchURL client)) then false
  else if negb (Bool.eqb (P.IsPublic spec) (C.IsPublic client)) then false
  else if negb (Bool.eqb (P.PkceEnabled spec) (C.RequirePKCE client)) then false
  else if negb (equalStringSlices (P.CallbackURLs spec) (C.RedirectURIs client))
  then false
  else if negb (equalStringSlices (P.LogoutCallbackURLs spec)
                  (C.PostLogoutURIs client))
  then false
  else true.

Definition Observe (mg : Managed)
  : Prog (Managed * (error + ExternalObservation.t)) :=
  match mg with
  | OIDCClientMR cr =>
      let externalName :=
        meta.GetExternalName (v1alpha1.OIDCClient.ObjectMeta cr) in
      let externalName :=
        if String.eqb externalName ""
        then P.Name (v1alpha1.OIDCClient.ForProvider cr)
        else externalName in
      let* r := Client.GetOIDCClientByExternalName externalName in
      match r with
      | inl err => Ret (mg, inl (wrapError "failed to get OIDC client" err))
      | inr None => Ret (mg, inr (ExternalObservation.mk false false))
      | inr (Some client) =>
          let atProvider :=
            v1alpha1.OIDCClientObservation.mk
              (C.ID client) (C.ClientName client) (C.RedirectURIs client)
              (C.PostLogoutURIs client) (C.LaunchURL client)
              (C.IsPublic client) (C.RequirePKCE client) false ""
              (C.HasLogo client) (v1alpha1.OIDCClientCredentials.mk []) in
          let om := v1alpha1.OIDCClient.ObjectMeta cr in
          let om :=
            if String.eqb (meta.GetExternalName om) ""
            then meta.SetExternalName om (C.ClientName client)
            else om in
          let upToDate :=
            isOIDCClientUpToDate (v1alpha1.OIDCClient.ForProvider cr) client in
          let conds :=
            xpv1.SetConditions (v1alpha1.OIDCClient.Conditions cr)
              xpv1.Available in
          Ret (OIDCClientMR
                 (v1alpha1.OIDCClient.mk om
                    (v1alpha1.OIDCClient.ForProvider cr) atProvider conds),
               inr (ExternalObservation.mk true upToDate))
      end
  | _ => Ret (mg, inl (errorString errNotOIDCClient))
  end.

Section WithToLower.
Variable ToLower : string → string.

Definition Create (mg : Managed)
  : Prog (Managed * (error + ExternalCreation.t)) :=
  match mg with
  | OIDCClientMR cr =>
      let spec := v1alpha1.OIDCClient.ForProvider cr in
      let req :=
        pocketid.CreateOIDCClientRequest.mk
          (P.Name spec) (P.CallbackURLs spec) (P.LogoutCallbackURLs spec)
          (P.LaunchURL spec) (P.IsPublic spec) (P.PkceEnabled spec)
          [] ∅ [] 0 0 0 in
      let* r := Client.CreateOIDCClient req in
      match r with
      | inl err => Ret (mg, inl (wrapError "failed to create OIDC client" err))
      | inr None => Panic
      | inr (Some client) =>
          let cr' :=
            v1alpha1.OIDCClient.mk
              (meta.SetExternalName (v1alpha1.OIDCClient.ObjectMeta cr)
                 (C.ClientName client))
              spec (v1alpha1.OIDCClient.AtProvider cr)
              (v1alpha1.OIDCClient.Conditions cr) in
          let connectionDetails : gmap string string :=
            if negb (C.IsPublic client)
               && negb (String.eqb (C.ClientSecret client) "")
            then <["clientSecret" := C.ClientSecret client]> ∅
            else ∅ in
          if negb (String.eqb (P.LogoURL spec) "")
          then
            (* the error of the upload is dropped *)
            let* _ := Client.UploadOIDCClientLogo ToLower (C.ID client)
                        (P.LogoURL spec) in
            Ret (OIDCClientMR cr', inr (ExternalCreation.mk connectionDetails))
          else
            Ret (OIDCClientMR cr', inr (ExternalCreation.mk connectionDetails))
      end
  | _ => Ret (mg, inl (errorString errNotOIDCClient))
  end.

Definition Update (mg : Managed)
  : Prog (Managed * (error + ExternalUpdate.t)) :=
  match mg with
  | OIDCClientMR cr =>
      let id :=
        v1alpha1.OIDCClientObservation.ID (v1alpha1.OIDCClient.AtProvider cr) in
      if String.eqb id ""
      then Ret (mg, inl (errorString "OIDC client ID not found in status"))
      else
        let spec := v1alpha1.OIDCClient.ForProvider cr in
        let req :=
          pocketid.UpdateOIDCClientRequest.mk
            (P.Name spec) (P.CallbackURLs spec) (P.LogoutCallbackURLs spec)
            (P.LaunchURL spec) (P.IsPublic spec) (P.PkceEnabled spec)
            [] ∅ [] 0 0 0 in
        let* r := Client.UpdateOIDCClient id req in
        match r with
        | inl err =>
            Ret (mg, inl (wrapError "failed to update OIDC client" err))
        | inr _ =>
            if negb (String.eqb (P.LogoURL spec) "")
            then
              (* the error of the upload is dropped *)
              let* _ := Client.UploadOIDCClientLogo ToLower id
                          (P.LogoURL spec) in
              Ret (mg, inr (ExternalUpdate.mk ∅))
            else Ret (mg, inr (ExternalUpdate.mk ∅))
        end
  | _ => Ret (mg, inl (errorString errNotOIDCClient))
  end.
End WithToLower.

Definition Delete (mg : Managed)
  : Prog (Managed * (error + ExternalDelete.t)) :=
  match mg with
  | OIDCClientMR cr =>
      let id :=
        v1alpha1.OIDCClientObservation.ID (v1alpha1.OIDCClient.AtProvider cr) in
      if negb (String.eqb id "")
      then
        let* err := Client.DeleteOIDCClient id in
        match err with
        | Some err => Ret (mg, inl (wrapError "failed to delete OIDC client" err))
        | None => Ret (mg, inr ExternalDelete.mk)
        end
      else Ret (mg, inr ExternalDelete.mk)
  | _ => Ret (mg, inl (errorString errNotOIDCClient))
  end.
End oidcclient.

(** ** package clientgroupbinding: the OIDCClientGroupBinding controller *)

Module clientgroupbinding.
Import managed.
Module P := v1alpha1.OIDCClientGroupBindingParameters.
Module B := v1alpha1.OIDCClientGroupBinding.

Definition errNotClientGroupBinding : string :=
  "managed resource is not a OIDCClientGroupBinding custom resource".
Definition errResolveClientID : string := "cannot resolve client ID".
Definition errResolveGroupID : string := "cannot resolve group ID".

Definition resolveClientID (cr : B.t) : Prog (error + string) :=
  let spec := B.ForProvider cr in
  if negb (String.eqb (P.ClientID spec) "") then Ret (inr (P.ClientID spec))
  else
    match P.ClientIDRef spec with
    | Some ref =>
        let* r := call (kubeGetOIDCClient (xpv1.Reference.Name ref)) in
        match r with
        | inl err =>
            Ret (inl (wrapError "failed to get referenced OIDC client" err))
        | inr oidcClient =>
            let id := v1alpha1.OIDCClientObservation.ID
                        (v1alpha1.OIDCClient.AtProvider oidcClient) in
            if String.eqb id ""
            then Ret (inl (errorString
                             "referenced OIDC client ID is not available"))
            else Ret (inr id)
        end
    | None =>
        Ret (inl (errorString
                    "client ID, clientIdRef, or clientIdSelector must be specified"))
    end.

Definition resolveGroupID (cr : B.t) : Prog (error + string) :=
  let spec := B.ForProvider cr in
  if negb (String.eqb (P.GroupID spec) "") then Ret (inr (P.GroupID spec))
  else
    match P.GroupIDRef spec with
    | Some ref =>
        let* r := call (kubeGetGroup (xpv1.Reference.Name ref)) in
        match r with
        | inl err => Ret (inl (wrapError "failed to get referenced group" err))
        | inr group =>
            let id := v1alpha1.GroupObservation.ID
                        (v1alpha1.Group.AtProvider group) in
            if String.eqb id ""
            then Ret (inl (errorString "referenced group ID is not available"))
            else Ret (inr id)
        end
    | None =>
        Ret (inl (errorString
                    "group ID, groupIdRef, or groupIdSelector must be specified"))
    end.

Definition Observe (mg : Managed)
  : Prog (Managed * (error + ExternalObservation.t)) :=
  match mg with
  | OIDCClientGroupBindingMR cr =>
      let* rc := resolveClientID cr in
      match rc with
      | inl err => Ret (mg, inl (wrapError errResolveClientID err))
      | inr clientID =>
      let* rg := resolveGroupID cr in
      match rg with
      | inl err => Ret (mg, inl (wrapError errResolveGroupID err))
      | inr groupID =>
      let* re := Client.IsClientInGroup clientID groupID in
      match re with
      | inl err =>
          Ret (mg, inl (wrapError "failed to check client group binding" err))
      | inr false => Ret (mg, inr (ExternalObservation.mk false false))
      | inr true =>
      let* r1 := Client.GetOIDCClient clientID in
      match r1 with
      | inl err => Ret (mg, inl (wrapError "failed to get OIDC client" err))
      | inr client =>
      let* r2 := Client.GetGroup groupID in
      match r2 with
      | inl err => Ret (mg, inl (wrapError "failed to get group" err))
      | inr group =>
          (* client.ID and group.ID are read through the pointers *)
          match client, group with
          | Some client, Some group =>
              let atProvider :=
                v1alpha1.OIDCClientGroupBindingObservation.mk
                  (v1alpha1.OIDCClientObservation.mk
                     (pocketid.OIDCClient.ID client)
                     (pocketid.OIDCClient.ClientName client)
                     (pocketid.OIDCClient.RedirectURIs client)
                     (pocketid.OIDCClient.PostLogoutURIs client)
                     (pocketid.OIDCClient.LaunchURL client)
                     (pocketid.OIDCClient.IsPublic client)
                     (pocketid.OIDCClient.RequirePKCE client)
                     false ""
                     (pocketid.OIDCClient.HasLogo client)
                     (v1alpha1.OIDCClientCredentials.mk []))
                  (v1alpha1.GroupObservation.mk
                     (pocketid.Group.ID group)
                     (pocketid.Group.GroupName group)
                     (pocketid.Group.FriendlyName group)
                     ""
                     (pocketid.Group.CustomClaims group)) in
              let om := B.ObjectMeta cr in
              let om :=
                if String.eqb (meta.GetExternalName om) ""
                then meta.SetExternalName om (clientID +:+ ":" +:+ groupID)
                else om in
              let conds := xpv1.SetConditions (B.Conditions cr) xpv1.Available in
              Ret (OIDCClientGroupBindingMR
                     (B.mk om (B.ForProvider cr) atProvider conds),
                   inr (ExternalObservation.mk true true))
          | _, _ => Panic
          end
      end end end end end
  | _ => Ret (mg, inl (errorString errNotClientGroupBinding))
  end.

Definition Create (mg : Managed)
  : Prog (Managed * (error + ExternalCreation.t)) :=
  match mg with
  | OIDCClientGroupBindingMR cr =>
      let* rc := resolveClientID cr in
      match rc with
      | inl err => Ret (mg, inl (wrapError errResolveClientID err))
      | inr clientID =>
      let* rg := resolveGroupID cr in
      match rg with
      | inl err => Ret (mg, inl (wrapError errResolveGroupID err))
      | inr groupID =>
      let* err := Client.AddClientToGroup clientID groupID in
      match err with
      | Some err =>
          Ret (mg, inl (wrapError "failed to create client group binding" err))
      | None =>
          Ret (OIDCClientGroupBindingMR
                 (B.mk (meta.SetExternalName (B.ObjectMeta cr)
                          (clientID +:+ ":" +:+ groupID))
                    (B.ForProvider cr) (B.AtProvider cr) (B.Conditions cr)),
               inr (ExternalCreation.mk ∅))
      end end end
  | _ => Ret (mg, inl (errorString errNotClientGroupBinding))
  end.

(** Update does not look at its argument. *)
Definition Update (mg : Managed)
  : Prog (Managed * (error + ExternalUpdate.t)) :=
  Ret (mg, inr (ExternalUpdate.mk ∅)).

Definition Delete (mg : Managed)
  : Prog (Managed * (error + ExternalDelete.t)) :=
  match mg with
  | OIDCClientGroupBindingMR cr =>
      let* rc := resolveClientID cr in
      match rc with
      | inl err => Ret (mg, inl (wrapError errResolveClientID err))
      | inr clientID =>
      let* rg := resolveGroupID cr in
      match rg with
      | inl err => Ret (mg, inl (wrapError errResolveGroupID err))
      | inr groupID =>
      let* err := Client.RemoveClientFromGroup clientID groupID in
      match err with
      | Some err =>
          Ret (mg, inl (wrapError "failed to delete client group binding" err))
      | None => Ret (mg, inr ExternalDelete.mk)
      end end end
  | _ => Ret (mg, inl (errorString errNotClientGroupBinding))
  end.
End clientgroupbinding.

(** ** The UserGroupBinding controller *)

Module usergroupbinding.
Import managed.
Module P := v1alpha1.UserGroupBindingParameters.
Module B := v1alpha1.UserGroupBinding.

Definition errNotUserGroupBinding : string :=
  "managed resource is not a UserGroupBinding custom resource".
Definition errResolveUserID : string := "cannot resolve user ID".
Definition errResolveGroupID : string := "cannot resolve group ID".

(** Modelled from the spec: the source of the UserGroupBinding controller
    is not among the files; only its resource types and the client's
    [IsUserInGroup], [AddUserToGroup] and [RemoveUserFromGroup] are. The
    identity resolver of section 4.1: a literal is returned unchanged,
    without a call; a pointer fetches the declared resource and fails when
    its observed identity is empty; a selector is not supported. *)
Definition resolveUserID (cr : B.t) : Prog (error + string) :=
  let spec := B.ForProvider cr in
  if negb (String.eqb (P.UserID spec) "") then Ret (inr (P.UserID spec))
  else
    match P.UserIDRef spec with
    | Some ref =>
        let* r := call (kubeGetUser (xpv1.Reference.Name ref)) in
        match r with
        | inl err => Ret (inl (wrapError "failed to get referenced user" err))
        | inr user =>
            let id := v1alpha1.UserObservation.ID
                        (v1alpha1.User.AtProvider user) in
            if String.eqb id ""
            then Ret (inl (errorString "referenced user ID is not available"))
            else Ret (inr id)
        end
    | None =>
        Ret (inl (errorString
                    "user ID, userIdRef, or userIdSelector must be specified"))
    end.

(** Modelled from the spec: the same resolver, for the container. *)
Definition resolveGroupID (cr : B.t) : Prog (error + string) :=
  let spec := B.ForProvider cr in
  if negb (String.eqb (P.GroupID spec) "") then Ret (inr (P.GroupID spec))
  else
    match P.GroupIDRef spec with
    | Some ref =>
        let* r := call (kubeGetGroup (xpv1.Reference.Name ref)) in
        match r with
        | inl err => Ret (inl (wrapError "failed to get referenced group" err))
        | inr group =>
            let id := v1alpha1.GroupObservation.ID
                        (v1alpha1.Group.AtProvider group) in
            if String.eqb id ""
            then Ret (inl (errorString "referenced group ID is not available"))
            else Ret (inr id)
        end
    | None =>
        Ret (inl (errorString
                    "group ID, groupIdRef, or groupIdSelector must be specified"))
    end.

(** Modelled from the spec: the binding variant of section 4.4. Member and
    container are resolved first, and both resolutions must succeed before
    the membership query; existence is the answer of the query. Once it is
    confirmed, the member and the container are fetched by their resolved
    identities and their observed fields are written to the status (sections
    3 and 4.3, step 6), the Available condition is set, and the binding is
    up to date; an object that is absent at that fetch makes the binding
    absent (section 4.3, step 2). *)
Definition Observe (mg : Managed)
  : Prog (Managed * (error + ExternalObservation.t)) :=
  match mg with
  | UserGroupBindingMR cr =>
      let* ru := resolveUserID cr in
      match ru with
      | inl err => Ret (mg, inl (wrapError errResolveUserID err))
      | inr userID =>
      let* rg := resolveGroupID cr in
      match rg with
      | inl err => Ret (mg, inl (wrapError errResolveGroupID err))
      | inr groupID =>
      let* re := Client.IsUserInGroup userID groupID in
      match re with
      | inl err =>
          Ret (mg, inl (wrapError "failed to check user group binding" err))
      | inr false => Ret (mg, inr (ExternalObservation.mk false false))
      | inr true =>
      let* r1 := Client.GetUser userID in
      match r1 with
      | inl err => Ret (mg, inl (wrapError "failed to get user" err))
      | inr None => Ret (mg, inr (ExternalObservation.mk false false))
      | inr (Some user) =>
      let* r2 := Client.GetGroup groupID in
      match r2 with
      | inl err => Ret (mg, inl (wrapError "failed to get group" err))
      | inr None => Ret (mg, inr (ExternalObservation.mk false false))
      | inr (Some group) =>
          let atProvider :=
            v1alpha1.UserGroupBindingObservation.mk
              (v1alpha1.UserObservation.mk
                 (pocketid.User.ID user)
                 (pocketid.User.Username user)
                 (pocketid.User.Email user)
                 (pocketid.User.FirstName user)
                 (pocketid.User.LastName user)
                 (pocketid.User.Locale user)
                 (pocketid.User.Disabled user)
                 (pocketid.User.IsAdmin user)
                 (pocketid.User.UserGroups user)
                 (pocketid.User.CustomClaims user))
              (v1alpha1.GroupObservation.mk
                 (pocketid.Group.ID group)
                 (pocketid.Group.GroupName group)
                 (pocketid.Group.FriendlyName group)
                 ""
                 (pocketid.Group.CustomClaims group)) in
          let om := B.ObjectMeta cr in
          let om :=
            if String.eqb (meta.GetExternalName om) ""
            then meta.SetExternalName om (userID +:+ ":" +:+ groupID)
            else om in
          let conds := xpv1.SetConditions (B.Conditions cr) xpv1.Available in
          Ret (UserGroupBindingMR (B.mk om (B.ForProvider cr) atProvider conds),
               inr (ExternalObservation.mk true true))
      end end end end end
  | _ => Ret (mg, inl (errorString errNotUserGroupBinding))
  end.

(** Modelled from the spec: Create issues the association call. *)
Definition Create (mg : Managed)
  : Prog (Managed * (error + ExternalCreation.t)) :=
  match mg with
  | UserGroupBindingMR cr =>
      let* ru := resolveUserID cr in
      match ru with
      | inl err => Ret (mg, inl (wrapError errResolveUserID err))
      | inr userID =>
      let* rg := resolveGroupID cr in
      match rg with
      | inl err => Ret (mg, inl (wrapError errResolveGroupID err))
      | inr groupID =>
      let* err := Client.AddUserToGroup userID groupID in
      match err with
      | Some err =>
          Ret (mg, inl (wrapError "failed to create user group binding" err))
      | None =>
          Ret (UserGroupBindingMR
                 (B.mk (meta.SetExternalName (B.ObjectMeta cr)
                          (userID +:+ ":" +:+ groupID))
                    (B.ForProvider cr) (B.AtProvider cr) (B.Conditions cr)),
               inr (ExternalCreation.mk ∅))
      end end end
  | _ => Ret (mg, inl (errorString errNotUserGroupBinding))
  end.

(** Modelled from the spec: Delete issues the dissociation call. *)
Definition Delete (mg : Managed)
  : Prog (Managed * (error + ExternalDelete.t)) :=
  match mg with
  | UserGroupBindingMR cr =>
      let* ru := resolveUserID cr in
      match ru with
      | inl err => Ret (mg, inl (wrapError errResolveUserID err))
      | inr userID =>
      let* rg := resolveGroupID cr in
      match rg with
      | inl err => Ret (mg, inl (wrapError errResolveGroupID err))
      | inr groupID =>
      let* err := Client.RemoveUserFromGroup userID groupID in
      match err with
      | Some err =>
          Ret (mg, inl (wrapError "failed to delete user group binding" err))
      | None => Ret (mg, inr ExternalDelete.mk)
      end end end
  | _ => Ret (mg, inl (errorString errNotUserGroupBinding))
  end.
End usergroupbinding.

(** ** The health conditions of the design *)

(** Specification side. The design names four health conditions, where a
    controller method reports its failures as error values (which the
    managed reconciler of crossplane-runtime publishes, with their message,
    on the resource). [Health] reads the condition of the design off the
    result of a method, by the cause of the error:
    - a referenced resource whose observed ID is empty is [Unresolved];
    - a discovered user that is not an admin is [InvariantViolated];
    - any other error, and confirmed absence, is [Unavailable];
    - confirmed presence is [Available]. *)
Module Health.
Inductive t : Type := Available | Unavailable | InvariantViolated | Unresolved.

Definition unresolvedCauses : list string :=
  ["referenced OIDC client ID is not available";
   "referenced group ID is not available";
   "referenced user ID is not available"].

Definition invariantCauses : list string :=
  ["user exists but is not an admin user"].

Definition ofError (err : error) : t :=
  let msg := errMessage (Cause err) in
  if existsb (String.eqb msg) unresolvedCauses then Unresolved
  else if existsb (String.eqb msg) invariantCauses then InvariantViolated
  else Unavailable.

Definition ofObservation (r : error + managed.ExternalObservation.t) : t :=
  match r with
  | inl err => ofError err
  | inr obs =>
      if managed.ExternalObservation.ResourceExists obs
      then Available else Unavailable
  end.

(** For Create, Update and Delete: the condition of a failure. *)
Definition ofFailure {A} (r : error + A) : option t :=
  match r with
  | inl err => Some (ofError err)
  | inr _ => None
  end.
End Health.

(** ** Reasoning about programs *)

(** What holds of the calls and of the outcome of a program whatever the
    environment replies. *)
Fixpoint wp {A} (p : Prog A) (Q : list Call → Outcome A → Prop) : Prop :=
  match p with
  | Ret a => Q [] (Returned a)
  | Panic => Q [] Panicked
  | Vis c k => ∀ r : Reply c, wp (k r) (λ t o, Q (c :: t) o)
  end.

(** The environment's reply to a request without a body, in a given state,
    is a response with status 404. *)
Definition repliesNotFound (E : Env) (w : World E) (method path : string)
  : Prop :=
  ∃ resp : pocketid.Response.t,
    (respond E (makeRequest method path pocketid.NoBody) w).1 = inr resp ∧
    pocketid.Response.StatusCode resp = pocketid.StatusNotFound.

(** ** Example environments and resources *)

Module Examples.
Import pocketid.

Definition noBody : Body.t :=
  Body.mk ""
    (inl (errorString "unexpected end of JSON input"))
    (inl (errorString "unexpected end of JSON input"))
    (inl (errorString "unexpected end of JSON input"))
    (inl (errorString "unexpected end of JSON input"))
    (inl (errorString "unexpected end of JSON input"))
    (inl (errorString "unexpected end of JSON input")).

Definition zeroMeta : metav1.ObjectMeta.t := metav1.ObjectMeta.mk "" ∅.

Definition zeroOIDCClientCR : v1alpha1.OIDCClient.t :=
  v1alpha1.OIDCClient.mk zeroMeta
    (v1alpha1.OIDCClientParameters.mk "" "" [] [] "" false false false ""
       (v1alpha1.OIDCClientCredentials.mk []))
    v1alpha1.OIDCClientObservation.zero [].

Definition zeroGroupCR : v1alpha1.Group.t :=
  v1alpha1.Group.mk zeroMeta (v1alpha1.GroupParameters.mk "" "" ∅)
    v1alpha1.GroupObservation.zero [].

Definition zeroUserCR : v1alpha1.User.t :=
  v1alpha1.User.mk zeroMeta v1alpha1.UserObservation.zero [].

Definition zeroAdminUserCR : v1alpha1.AdminUser.t :=
  v1alpha1.AdminUser.mk zeroMeta
    (v1alpha1.AdminUserParameters.mk "" "" "" "" "" false ∅)
    v1alpha1.AdminUserObservation.zero [].

(** A remote system on which nothing exists: every request is answered
    404, downloads fail, and the cluster holds resources that have not been
    observed yet. *)
Definition emptyRemote : Env :=
  {| World := unit;
     respond := λ c,
       match c as c0 return unit → Reply c0 * unit with
       | makeRequest _ _ _ => λ w, (inr (Response.mk 404 (inr noBody)), w)
       | uploadFile _ _ _ => λ w, (inr (Response.mk 404 (inr noBody)), w)
       | downloadFile _ => λ w, (inl (errorString "connection refused"), w)
       | kubeGetOIDCClient _ => λ w, (inr zeroOIDCClientCR, w)
       | kubeGetGroup _ => λ w, (inr zeroGroupCR, w)
       | kubeGetUser _ => λ w, (inr zeroUserCR, w)
       end |}.

Definition jsonError {A} : error + A :=
  inl (errorString "json: cannot unmarshal").

(** A remote system that answers every request with the same status and
    body. *)
Definition fixedRemote (code : Z) (body : Body.t) : Env :=
  {| World := unit;
     respond := λ c,
       match c as c0 return unit → Reply c0 * unit with
       | makeRequest _ _ _ => λ w, (inr (Response.mk code (inr body)), w)
       | uploadFile _ _ _ => λ w, (inr (Response.mk code (inr body)), w)
       | downloadFile _ => λ w, (inl (errorString "connection refused"), w)
       | kubeGetOIDCClient _ => λ w, (inr zeroOIDCClientCR, w)
       | kubeGetGroup _ => λ w, (inr zeroGroupCR, w)
       | kubeGetUser _ => λ w, (inr zeroUserCR, w)
       end |}.

Definition usersBody (users : list User.t) : Body.t :=
  Body.mk "[...]" jsonError (inr users) jsonError jsonError jsonError jsonError.

(** A remote user named root, and the same without the admin flag. *)
Definition rootUser : User.t :=
  User.mk "u-1" "root" "root@example.org" "Root" "" "" false true [] ∅.
Definition plainRoot : User.t :=
  User.mk "u-1" "root" "root@example.org" "Root" "" "" false false [] ∅.

(** An AdminUser declared as root, never observed. *)
Definition rootCR : v1alpha1.AdminUser.t :=
  v1alpha1.AdminUser.mk zeroMeta
    (v1alpha1.AdminUserParameters.mk "root" "root@example.org" "Root" "" ""
       false ∅)
    v1alpha1.AdminUserObservation.zero [].

(** The same resource once observed, then renamed in its spec. *)
Definition renamedCR : v1alpha1.AdminUser.t :=
  v1alpha1.AdminUser.mk
    (meta.SetExternalName zeroMeta "root")
    (v1alpha1.AdminUserParameters.mk "superuser" "root@example.org" "Root" ""
       "" false ∅)
    (v1alpha1.AdminUserObservation.mk "u-1" "root" "root@example.org" "Root"
       "" "" false true [] ∅)
    [xpv1.Available].

Definition engGroup : Group.t := Group.mk "g-123" "eng" "Engineering" ∅.

Definition appClient : OIDCClient.t :=
  OIDCClient.mk "c-1" "app" "" [] [] "" false true false [] ∅ [] 0 0 0 ["eng"].

(** One body that decodes as the client and as the group. *)
Definition clientAndGroupBody : Body.t :=
  Body.mk "{...}" jsonError jsonError (inr engGroup) jsonError
    (inr appClient) jsonError.

(** A binding of client c-1 to group g-123, both given literally. *)
Definition literalBinding : v1alpha1.OIDCClientGroupBinding.t :=
  v1alpha1.OIDCClientGroupBinding.mk zeroMeta
    (v1alpha1.OIDCClientGroupBindingParameters.mk "c-1" None None
       "g-123" None None)
    v1alpha1.OIDCClientGroupBindingObservation.zero [].

(** A binding whose client is given by reference. *)
Definition referringBinding : v1alpha1.OIDCClientGroupBinding.t :=
  v1alpha1.OIDCClientGroupBinding.mk zeroMeta
    (v1alpha1.OIDCClientGroupBindingParameters.mk ""
       (Some (xpv1.Reference.mk "app")) None "g-123" None None)
    v1alpha1.OIDCClientGroupBindingObservation.zero [].

(** A user binding whose user is given by reference. *)
Definition referringUserBinding : v1alpha1.UserGroupBinding.t :=
  v1alpha1.UserGroupBinding.mk zeroMeta
    (v1alpha1.UserGroupBindingParameters.mk ""
       (Some (xpv1.Reference.mk "alice")) None "g-123" None None)
    v1alpha1.UserGroupBindingObservation.zero [].

(** A remote system that answers its first [n] requests with status 200
    and the given body, and every later request with 404: the objects vanish
    after [n] requests. The state counts the requests answered. *)
Definition vanishingRemote (n : nat) (body : Body.t) : Env :=
  {| World := nat;
     respond := λ c,
       match c as c0 return nat → Reply c0 * nat with
       | makeRequest _ _ _ => λ w,
           (inr (Response.mk (if (w <? n)%nat then 200 else 404) (inr body)),
            S w)
       | uploadFile _ _ _ => λ w, (inr (Response.mk 404 (inr body)), w)
       | downloadFile _ => λ w, (inl (errorString "connection refused"), w)
       | kubeGetOIDCClient _ => λ w, (inr zeroOIDCClientCR, w)
       | kubeGetGroup _ => λ w, (inr zeroGroupCR, w)
       | kubeGetUser _ => λ w, (inr zeroUserCR, w)
       end |}.

(** An OIDCClient with a logo, observed as c-1. *)
Definition logoCR : v1alpha1.OIDCClient.t :=
  v1alpha1.OIDCClient.mk (meta.SetExternalName zeroMeta "app")
    (v1alpha1.OIDCClientParameters.mk "app" "" [] [] "" false true false
       "https://app.example/logo.png" (v1alpha1.OIDCClientCredentials.mk []))
    (v1alpha1.OIDCClientObservation.mk "c-1" "app" [] [] "" false true false
       "" false (v1alpha1.OIDCClientCredentials.mk []))
    [xpv1.Available].

Definition urlsAB : list string :=
  ["https://app.example/a"; "https://app.example/b"].
Definition urlsBA : list string :=
  ["https://app.example/b"; "https://app.example/a"].

Definition specAB : v1alpha1.OIDCClientParameters.t :=
  v1alpha1.OIDCClientParameters.mk "app" "" urlsAB [] "" false true false ""
    (v1alpha1.OIDCClientCredentials.mk []).

Definition clientAB : OIDCClient.t :=
  OIDCClient.mk "c-1" "app" "" urlsAB [] "" false true false [] ∅ [] 0 0 0 [].
End Examples.

(** ** Record updates used in the statements *)

Definition withCallbackURLs (spec : v1alpha1.OIDCClientParameters.t)
    (urls : list string) : v1alpha1.OIDCClientParameters.t :=
  let 'v1alpha1.OIDCClientParameters.mk name id _ lo la pu pk rr lg cr := spec in
  v1alpha1.OIDCClientParameters.mk name id urls lo la pu pk rr lg cr.


Definition withRedirectURIs (client : pocketid.OIDCClient.t)
    (uris : list string) : pocketid.OIDCClient.t :=
  let 'pocketid.OIDCClient.mk id n s _ po la pu pk hl gc cc sc at_ rt it gn :=
    client in
  pocketid.OIDCClient.mk id n s uris po la pu pk hl gc cc sc at_ rt it gn.


(** The number of times [x] occurs in [l]. *)
Definition occurrences (l : list string) (x : string) : nat :=
  count_occ String.string_dec l x.

(** A Go slice has an [int] length. *)
Definition MaxInt : Z := 2 ^ 63 - 1.

(** ** package pocketid: construction of the client (client.go) *)

Module pocketid_client.
(** [strings.TrimSuffix]. *)
Definition TrimSuffix (s suffix : string) : string :=
  if Client.HasSuffix s suffix
  then String.substring 0 (String.length s - String.length suffix) s
  else s.

(** [time.Duration] counts nanoseconds. *)
Definition Second : Z := 1000000000.
Definition DefaultTimeout : Z := 30 * Second.

Module Config.
Record t := mk {
  Endpoint : string;
  APIKey : string;
  Timeout : Z
}.
End Config.

(** [Client]: the configuration, and the timeout of its [http.Client]. *)
Module ClientT.
Record t := mk {
  config : Config.t;
  httpClientTimeout : Z
}.
End ClientT.

Definition NewClient (config : Config.t) : ClientT.t :=
  let config :=
    if Z.eqb (Config.Timeout config) 0
    then Config.mk (Config.Endpoint config) (Config.APIKey config) DefaultTimeout
    else config in
  ClientT.mk config (Config.Timeout config).

Definition NewClientFromCredentials (endpoint apiKey : string)
  : error + ClientT.t :=
  if String.eqb endpoint "" then inl (errorString "endpoint is required")
  else if String.eqb apiKey ""
  then inl (errorString "apiKey is required in credentials")
  else inr (NewClient (Config.mk (TrimSuffix endpoint "/") apiKey 0)).
End pocketid_client.

(** ** Kinds of calls *)

(** A call that only reads: a GET request without a body, or a read of the
    cluster. *)
Definition isRead (c : Call) : bool :=
  match c with
  | makeRequest method _ pocketid.NoBody => String.eqb method "GET"
  | makeRequest _ _ _ => false
  | uploadFile _ _ _ => false
  | downloadFile _ => false
  | kubeGetOIDCClient _ | kubeGetGroup _ | kubeGetUser _ => true
  end.

(** The kind of a managed resource. *)
Definition isAdminUser (mg : Managed) : bool :=
  match mg with AdminUserMR _ => true | _ => false end.
Definition isGroup (mg : Managed) : bool :=
  match mg with GroupMR _ => true | _ => false end.
Definition isOIDCClient (mg : Managed) : bool :=
  match mg with OIDCClientMR _ => true | _ => false end.
Definition isOIDCClientGroupBinding (mg : Managed) : bool :=
  match mg with OIDCClientGroupBindingMR _ => true | _ => false end.

(** ** Further example resources and environments *)

Module MoreExamples.
Import pocketid.

Definition engSpec : v1alpha1.GroupParameters.t :=
  v1alpha1.GroupParameters.mk "eng" "Engineering" {["team" := "core"]}.

Definition engRemote : Group.t :=
  Group.mk "g-123" "eng" "Engineering" {["team" := "core"]}.

(** A confidential client, as the remote system returns it on creation. *)
Definition secretClient : OIDCClient.t :=
  OIDCClient.mk "c-9" "app" "s3cr3t" [] [] "" false true false [] ∅ [] 0 0 0 [].

Definition secretClientBody : Body.t :=
  Body.mk "{...}" Examples.jsonError Examples.jsonError Examples.jsonError
    Examples.jsonError (inr secretClient) Examples.jsonError.

(** A remote system that stores user names in upper case returns the root
    user so. *)
Definition upperRoot : User.t :=
  User.mk "u-1" "ROOT" "root@example.org" "Root" "" "" false true [] ∅.

Definition userBody (u : User.t) : Body.t :=
  Body.mk "{...}" (inr u) Examples.jsonError Examples.jsonError
    Examples.jsonError Examples.jsonError Examples.jsonError.
End MoreExamples.

(** ** The requests the controllers build *)

(** The request struct literal of [adminuser.Update]. *)
Definition adminUserUpdateRequest (spec : v1alpha1.AdminUserParameters.t)
  : pocketid.UpdateUserRequest.t :=
  pocketid.UpdateUserRequest.mk
    (v1alpha1.AdminUserParameters.Username spec)
    (v1alpha1.AdminUserParameters.Email spec)
    (v1alpha1.AdminUserParameters.FirstName spec)
    (v1alpha1.AdminUserParameters.LastName spec)
    (v1alpha1.AdminUserParameters.Locale spec)
    (v1alpha1.AdminUserParameters.Disabled spec)
    (v1alpha1.AdminUserParameters.CustomClaims spec).

(** The request struct literal of [adminuser.Create]. *)
Definition adminUserCreateRequest (spec : v1alpha1.AdminUserParameters.t)
  : pocketid.CreateUserRequest.t :=
  pocketid.CreateUserRequest.mk
    (v1alpha1.AdminUserParameters.Username spec)
    (v1alpha1.AdminUserParameters.Email spec)
    (v1alpha1.AdminUserParameters.FirstName spec)
    (v1alpha1.AdminUserParameters.LastName spec)
    (v1alpha1.AdminUserParameters.Locale spec)
    (v1alpha1.AdminUserParameters.Disabled spec)
    true
    (v1alpha1.AdminUserParameters.CustomClaims spec).

(** The request struct literals of [group.Create] and [group.Update]. *)
Definition groupCreateRequest (spec : v1alpha1.GroupParameters.t)
  : pocketid.CreateGroupRequest.t :=
  pocketid.CreateGroupRequest.mk
    (v1alpha1.GroupParameters.Name spec)
    (v1alpha1.GroupParameters.FriendlyName spec)
    (v1alpha1.GroupParameters.CustomClaims spec).

Definition groupUpdateRequest (spec : v1alpha1.GroupParameters.t)
  : pocketid.UpdateGroupRequest.t :=
  pocketid.UpdateGroupRequest.mk
    (v1alpha1.GroupParameters.Name spec)
    (v1alpha1.GroupParameters.FriendlyName spec)
    (v1alpha1.GroupParameters.CustomClaims spec).

(** The request struct literals of [oidcclient.Create] and
    [oidcclient.Update]: the fields the spec does not carry are zero. *)
Definition oidcClientCreateRequest (spec : v1alpha1.OIDCClientParameters.t)
  : pocketid.CreateOIDCClientRequest.t :=
  pocketid.CreateOIDCClientRequest.mk
    (v1alpha1.OIDCClientParameters.Name spec)
    (v1alpha1.OIDCClientParameters.CallbackURLs spec)
    (v1alpha1.OIDCClientParameters.LogoutCallbackURLs spec)
    (v1alpha1.OIDCClientParameters.LaunchURL spec)
    (v1alpha1.OIDCClientParameters.IsPublic spec)
    (v1alpha1.OIDCClientParameters.PkceEnabled spec)
    [] ∅ [] 0 0 0.

Definition oidcClientUpdateRequest (spec : v1alpha1.OIDCClientParameters.t)
  : pocketid.UpdateOIDCClientRequest.t :=
  pocketid.UpdateOIDCClientRequest.mk
    (v1alpha1.OIDCClientParameters.Name spec)
    (v1alpha1.OIDCClientParameters.CallbackURLs spec)
    (v1alpha1.OIDCClientParameters.LogoutCallbackURLs spec)
    (v1alpha1.OIDCClientParameters.LaunchURL spec)
    (v1alpha1.OIDCClientParameters.IsPublic spec)
    (v1alpha1.OIDCClientParameters.PkceEnabled spec)
    [] ∅ [] 0 0 0.

(** * Properties *)

(** ** Running programs *)

Lemma run_bind {A B} (E : Env) (p : Prog A) (f : A → Prog B) (w : World E) :
  run E (bind p f) w =
    match run E p w with
    | (Returned a, w1, t1) =>
        let '(o, w2, t2) := run E (f a) w1 in (o, w2, t1 ++ t2)
    | (Panicked, w1, t1) => (Panicked, w1, t1)
    end.
Proof.
  revert w; induction p as [a| |c k IH]; intros w; simpl.
  - by destruct (run E (f a) w) as [[o w2] t2].
  - done.
  - destruct (respond E c w) as [r w1]. rewrite IH.
    destruct (run E (k r) w1) as [[[a|] w2] t1]; [|done].
    by destruct (run E (f a) w2) as [[o w3] t2].
Qed.

Lemma run_call (E : Env) (c : Call) (w : World E) :
  run E (call c) w =
    (Returned (respond E c w).1, (respond E c w).2, [c]).
Proof. unfold call; simpl. by destruct (respond E c w). Qed.

Lemma wp_run {A} (p : Prog A) (Q : list Call → Outcome A → Prop) :
  wp p Q → ∀ (E : Env) (w : World E), Q (calls E p w) (outcome E p w).
Proof.
  unfold calls, outcome.
  revert Q; induction p as [a| |c k IH]; intros Q Hwp E w; simpl in *; try done.
  destruct (respond E c w) as [r w1].
  specialize (IH r _ (Hwp r) E w1).
  by destruct (run E (k r) w1) as [[o w2] t].
Qed.

Lemma wp_mono {A} (p : Prog A) (Q Q' : list Call → Outcome A → Prop) :
  (∀ t o, Q t o → Q' t o) → wp p Q → wp p Q'.
Proof.
  revert Q Q'; induction p as [a| |c k IH]; intros Q Q' HQ; simpl; auto.
  intros Hwp r. eapply IH; [|apply Hwp]. simpl; auto.
Qed.

Lemma wp_bind {A B} (p : Prog A) (f : A → Prog B)
    (Q : list Call → Outcome B → Prop) :
  wp p (λ t o,
    match o with
    | Returned a => wp (f a) (λ t' o', Q (t ++ t') o')
    | Panicked => Q t Panicked
    end) →
  wp (bind p f) Q.
Proof.
  revert Q; induction p as [a| |c k IH]; intros Q; simpl; auto.
Qed.

(** ** Idempotent delete *)

Lemma checked_not_found (resp : pocketid.Response.t) :
  pocketid.Response.StatusCode resp = pocketid.StatusNotFound →
  Z.eqb (pocketid.Response.StatusCode resp) pocketid.StatusNotFound = true.
Proof. intros ->. done. Qed.

Ltac run_one_request H :=
  let resp := fresh "resp" in
  let Hr := fresh "Hr" in
  let Hcode := fresh "Hcode" in
  let Hresp := fresh "Hresp" in
  let r := fresh "r" in
  let w1 := fresh "w" in
  destruct H as (resp & Hr & Hcode);
  unfold outcome, Client.DeleteUser, Client.DeleteGroup,
    Client.DeleteOIDCClient, Client.RemoveUserFromGroup,
    Client.RemoveClientFromGroup;
  cbn [run bind call];
  match goal with
  | |- context [respond ?E ?c ?w] =>
      destruct (respond E c w) as [r w1] eqn:Hresp
  end;
  cbn [fst] in Hr; subst r; cbn [run fst];
  rewrite (checked_not_found _ Hcode); reflexivity.

Lemma DeleteUser_not_found (E : Env) (w : World E) (userID : string) :
  repliesNotFound E w "DELETE" ("/api/users/" +:+ userID) →
  outcome E (Client.DeleteUser userID) w = Returned None.
Proof. intros H. run_one_request H. Qed.

Lemma DeleteGroup_not_found (E : Env) (w : World E) (groupID : string) :
  repliesNotFound E w "DELETE" ("/api/groups/" +:+ groupID) →
  outcome E (Client.DeleteGroup groupID) w = Returned None.
Proof. intros H. run_one_request H. Qed.

Lemma DeleteOIDCClient_not_found (E : Env) (w : World E) (clientID : string) :
  repliesNotFound E w "DELETE" ("/api/oidc/clients/" +:+ clientID) →
  outcome E (Client.DeleteOIDCClient clientID) w = Returned None.
Proof. intros H. run_one_request H. Qed.

Lemma RemoveUserFromGroup_not_found (E : Env) (w : World E)
    (userID groupID : string) :
  repliesNotFound E w "DELETE"
    ("/api/users/" +:+ userID +:+ "/groups/" +:+ groupID) →
  outcome E (Client.RemoveUserFromGroup userID groupID) w = Returned None.
Proof. intros H. run_one_request H. Qed.

Lemma RemoveClientFromGroup_not_found (E : Env) (w : World E)
    (clientID groupID : string) :
  repliesNotFound E w "DELETE"
    ("/api/oidc/clients/" +:+ clientID +:+ "/groups/" +:+ groupID) →
  outcome E (Client.RemoveClientFromGroup clientID groupID) w = Returned None.
Proof. intros H. run_one_request H. Qed.

(** C3. For users, groups, OIDC clients and both kinds of membership, the
    client's delete or dissociate method returns nil (no error) whenever the
    remote system answers its DELETE request with 404 Not Found. *)
Theorem delete_absent_is_success (E : Env) (w : World E) :
  (∀ userID,
     repliesNotFound E w "DELETE" ("/api/users/" +:+ userID) →
     outcome E (Client.DeleteUser userID) w = Returned None) ∧
  (∀ groupID,
     repliesNotFound E w "DELETE" ("/api/groups/" +:+ groupID) →
     outcome E (Client.DeleteGroup groupID) w = Returned None) ∧
  (∀ clientID,
     repliesNotFound E w "DELETE" ("/api/oidc/clients/" +:+ clientID) →
     outcome E (Client.DeleteOIDCClient clientID) w = Returned None) ∧
  (∀ userID groupID,
     repliesNotFound E w "DELETE"
       ("/api/users/" +:+ userID +:+ "/groups/" +:+ groupID) →
     outcome E (Client.RemoveUserFromGroup userID groupID) w = Returned None) ∧
  (∀ clientID groupID,
     repliesNotFound E w "DELETE"
       ("/api/oidc/clients/" +:+ clientID +:+ "/groups/" +:+ groupID) →
     outcome E (Client.RemoveClientFromGroup clientID groupID) w
     = Returned None).
Proof.
  split_and!; intros.
  - by apply DeleteUser_not_found.
  - by apply DeleteGroup_not_found.
  - by apply DeleteOIDCClient_not_found.
  - by apply RemoveUserFromGroup_not_found.
  - by apply RemoveClientFromGroup_not_found.
Qed.

Lemma emptyRemote_not_found (method path : string) :
  repliesNotFound Examples.emptyRemote () method path.
Proof. eexists; split; reflexivity. Qed.

Lemma delete_absent_is_success_witness :
  outcome Examples.emptyRemote (Client.DeleteUser "u-1") () = Returned None ∧
  outcome Examples.emptyRemote (Client.DeleteGroup "g-1") () = Returned None ∧
  outcome Examples.emptyRemote (Client.DeleteOIDCClient "c-1") ()
  = Returned None ∧
  outcome Examples.emptyRemote (Client.RemoveUserFromGroup "u-1" "g-1") ()
  = Returned None ∧
  outcome Examples.emptyRemote (Client.RemoveClientFromGroup "c-1" "g-1") ()
  = Returned None.
Proof.
  destruct (delete_absent_is_success Examples.emptyRemote ())
    as (Hu & Hg & Hc & Hug & Hcg).
  exact (conj (Hu _ (emptyRemote_not_found _ _))
          (conj (Hg _ (emptyRemote_not_found _ _))
             (conj (Hc _ (emptyRemote_not_found _ _))
                (conj (Hug _ _ (emptyRemote_not_found _ _))
                   (Hcg _ _ (emptyRemote_not_found _ _)))))).
Defined.

(** ** Resources that were never observed *)

(** C9. For an AdminUser, a Group or an OIDCClient whose Status.AtProvider.ID
    is empty, Delete makes no call at all and returns success, leaving the
    resource and the environment as they were; Update returns an error,
    also without a call. *)
Theorem empty_id_delete_update
    (au : v1alpha1.AdminUser.t) (g : v1alpha1.Group.t)
    (oc : v1alpha1.OIDCClient.t) :
  v1alpha1.AdminUserObservation.ID (v1alpha1.AdminUser.AtProvider au) = "" →
  v1alpha1.GroupObservation.ID (v1alpha1.Group.AtProvider g) = "" →
  v1alpha1.OIDCClientObservation.ID (v1alpha1.OIDCClient.AtProvider oc) = "" →
  ∀ (ToLower : string → string) (E : Env) (w : World E),
    run E (adminuser.Delete (AdminUserMR au)) w
    = (Returned (AdminUserMR au, inr managed.ExternalDelete.mk), w, []) ∧
    run E (group.Delete (GroupMR g)) w
    = (Returned (GroupMR g, inr managed.ExternalDelete.mk), w, []) ∧
    run E (oidcclient.Delete (OIDCClientMR oc)) w
    = (Returned (OIDCClientMR oc, inr managed.ExternalDelete.mk), w, []) ∧
    run E (adminuser.Update (AdminUserMR au)) w
    = (Returned (AdminUserMR au,
                 inl (errorString "admin user ID not found in status")), w, []) ∧
    run E (group.Update (GroupMR g)) w
    = (Returned (GroupMR g,
                 inl (errorString "group ID not found in status")), w, []) ∧
    run E (oidcclient.Update ToLower (OIDCClientMR oc)) w
    = (Returned (OIDCClientMR oc,
                 inl (errorString "OIDC client ID not found in status")), w, []).
Proof.
  intros Hau Hg Hoc ToLower E w.
  unfold adminuser.Delete, group.Delete, oidcclient.Delete,
    adminuser.Update, group.Update, oidcclient.Update.
  rewrite Hau, Hg, Hoc. cbn. done.
Qed.

Lemma empty_id_delete_update_witness :
  run Examples.emptyRemote
    (adminuser.Delete (AdminUserMR Examples.zeroAdminUserCR)) ()
  = (Returned (AdminUserMR Examples.zeroAdminUserCR,
               inr managed.ExternalDelete.mk), (), []) ∧
  run Examples.emptyRemote
    (adminuser.Update (AdminUserMR Examples.zeroAdminUserCR)) ()
  = (Returned (AdminUserMR Examples.zeroAdminUserCR,
               inl (errorString "admin user ID not found in status")), (), []).
Proof.
  destruct (empty_id_delete_update Examples.zeroAdminUserCR
              Examples.zeroGroupCR Examples.zeroOIDCClientCR
              eq_refl eq_refl eq_refl id Examples.emptyRemote ())
    as (Hd & _ & _ & Hu & _).
  exact (conj Hd Hu).
Defined.

(** ** Creating an admin user *)

(** C10. Whatever the spec of an AdminUser says, Create sends exactly one
    request, POST /api/users, whose body has IsAdmin set; the other fields
    of the body are those of the spec. *)
Theorem create_admin_user_is_admin
    (cr : v1alpha1.AdminUser.t) (E : Env) (w : World E) :
  let spec := v1alpha1.AdminUser.ForProvider cr in
  ∃ req : pocketid.CreateUserRequest.t,
    calls E (adminuser.Create (AdminUserMR cr)) w
    = [makeRequest "POST" "/api/users" (pocketid.CreateUserBody req)] ∧
    pocketid.CreateUserRequest.IsAdmin req = true ∧
    req = pocketid.CreateUserRequest.mk
            (v1alpha1.AdminUserParameters.Username spec)
            (v1alpha1.AdminUserParameters.Email spec)
            (v1alpha1.AdminUserParameters.FirstName spec)
            (v1alpha1.AdminUserParameters.LastName spec)
            (v1alpha1.AdminUserParameters.Locale spec)
            (v1alpha1.AdminUserParameters.Disabled spec)
            true
            (v1alpha1.AdminUserParameters.CustomClaims spec).
Proof.
  intros spec. eexists. split.
  - unfold calls, adminuser.Create, Client.CreateUser. cbn [run bind call].
    destruct (respond E _ w) as [[err|resp] w1]; cbn [run bind];
      [reflexivity|].
    destruct (Client.checkResponse resp) as [err|body]; cbn [run bind];
      [reflexivity|].
    destruct (pocketid.Body.asUser body) as [err|user]; reflexivity.
  - split; reflexivity.
Qed.

(** ** Deleting what is already gone, at the controllers *)

Lemma controllers_delete_what_is_gone (E : Env) (w : World E) :
  (∀ cr : v1alpha1.AdminUser.t,
     let id := v1alpha1.AdminUserObservation.ID
                 (v1alpha1.AdminUser.AtProvider cr) in
     id ≠ "" →
     repliesNotFound E w "DELETE" ("/api/users/" +:+ id) →
     outcome E (adminuser.Delete (AdminUserMR cr)) w
     = Returned (AdminUserMR cr, inr managed.ExternalDelete.mk)) ∧
  (∀ cr : v1alpha1.Group.t,
     let id := v1alpha1.GroupObservation.ID (v1alpha1.Group.AtProvider cr) in
     id ≠ "" →
     repliesNotFound E w "DELETE" ("/api/groups/" +:+ id) →
     outcome E (group.Delete (GroupMR cr)) w
     = Returned (GroupMR cr, inr managed.ExternalDelete.mk)) ∧
  (∀ cr : v1alpha1.OIDCClient.t,
     let id := v1alpha1.OIDCClientObservation.ID
                 (v1alpha1.OIDCClient.AtProvider cr) in
     id ≠ "" →
     repliesNotFound E w "DELETE" ("/api/oidc/clients/" +:+ id) →
     outcome E (oidcclient.Delete (OIDCClientMR cr)) w
     = Returned (OIDCClientMR cr, inr managed.ExternalDelete.mk)) ∧
  (∀ cr : v1alpha1.OIDCClientGroupBinding.t,
     let spec := v1alpha1.OIDCClientGroupBinding.ForProvider cr in
     let clientID := v1alpha1.OIDCClientGroupBindingParameters.ClientID spec in
     let groupID := v1alpha1.OIDCClientGroupBindingParameters.GroupID spec in
     clientID ≠ "" → groupID ≠ "" →
     repliesNotFound E w "DELETE"
       ("/api/oidc/clients/" +:+ clientID +:+ "/groups/" +:+ groupID) →
     outcome E (clientgroupbinding.Delete (OIDCClientGroupBindingMR cr)) w
     = Returned (OIDCClientGroupBindingMR cr, inr managed.ExternalDelete.mk)).
Proof.
  pose proof (DeleteUser_not_found E w) as Hu.
  pose proof (DeleteGroup_not_found E w) as Hg.
  pose proof (DeleteOIDCClient_not_found E w) as Hc.
  pose proof (RemoveClientFromGroup_not_found E w) as Hcg.
  unfold outcome in *. split_and!.
  - intros cr Hid H%Hu. apply String.eqb_neq in Hid.
    unfold adminuser.Delete. cbv zeta. rewrite Hid. cbn [negb].
    rewrite run_bind.
    destruct (run E (Client.DeleteUser _) w) as [[o w1] t].
    cbn in H. by subst o.
  - intros cr Hid H%Hg. apply String.eqb_neq in Hid.
    unfold group.Delete. cbv zeta. rewrite Hid. cbn [negb].
    rewrite run_bind.
    destruct (run E (Client.DeleteGroup _) w) as [[o w1] t].
    cbn in H. by subst o.
  - intros cr Hid H%Hc. apply String.eqb_neq in Hid.
    unfold oidcclient.Delete. cbv zeta. rewrite Hid. cbn [negb].
    rewrite run_bind.
    destruct (run E (Client.DeleteOIDCClient _) w) as [[o w1] t].
    cbn in H. by subst o.
  - intros cr Hc' Hg' H%Hcg.
    apply String.eqb_neq in Hc', Hg'.
    unfold clientgroupbinding.Delete, clientgroupbinding.resolveClientID,
      clientgroupbinding.resolveGroupID.
    cbv zeta. rewrite Hc', Hg'. cbn [negb bind]. rewrite run_bind.
    destruct (run E (Client.RemoveClientFromGroup _ _) w) as [[o w1] t].
    cbn in H. by subst o.
Qed.

(** ** Loops over maps *)

Lemma rangeAll_true {V} (m : gmap string V) (body : string → V → bool) :
  rangeAll m body = true ↔ ∀ k v, m !! k = Some v → body k v = true.
Proof.
  unfold rangeAll. rewrite forallb_forall. split.
  - intros H k v Hkv. apply (H (k, v)), list_elem_of_In.
    by apply elem_of_map_to_list.
  - intros H [k v] Hin. apply H, elem_of_map_to_list.
    by apply list_elem_of_In.
Qed.

(** ** Drift detection on custom claims (group) *)

Lemma equalStringMaps_true (a b : gmap string string) :
  group.equalStringMaps a b = true ↔
  size a = size b ∧ ∀ k v, a !! k = Some v → default "" (b !! k) = v.
Proof.
  unfold group.equalStringMaps.
  destruct (Nat.eqb_spec (size a) (size b)) as [Hs|Hs]; cbn [negb].
  - rewrite rangeAll_true. split.
    + intros H; split; [done|]. intros k v Hkv. by apply String.eqb_eq, H.
    + intros [_ H] k v Hkv. by apply String.eqb_eq, H.
  - split; [done|]. by intros [? _].
Qed.

(** Equal maps are always reported equal. *)
Lemma equalStringMaps_refl (a : gmap string string) :
  group.equalStringMaps a a = true.
Proof.
  apply equalStringMaps_true; split; [done|]. by intros k v ->.
Qed.

(** When no declared claim has the empty string as its value, the answer
    is right. *)
Lemma equalStringMaps_no_empty_value (a b : gmap string string) :
  (∀ k, a !! k ≠ Some "") →
  group.equalStringMaps a b = true ↔ a = b.
Proof.
  intros Hne. split; [|intros ->; apply equalStringMaps_refl].
  intros [Hs H]%equalStringMaps_true.
  apply map_subseteq_size_eq; [|lia].
  apply map_subseteq_spec. intros k v Hkv.
  specialize (H k v Hkv). destruct (b !! k) as [v'|]; cbn in H; subst; [done|].
  by destruct (Hne k).
Qed.

(** C2. Two claim maps of the same size over different keys, the values
    being empty strings: the comparison answers true, and so does the drift
    detector of the group controller. *)
Theorem equalStringMaps_missing_key :
  let a : gmap string string := {["team" := ""]} in
  let b : gmap string string := {["tier" := ""]} in
  size a = size b ∧
  a !! "team" = Some "" ∧ b !! "team" = None ∧
  group.equalStringMaps a b = true ∧
  group.isGroupUpToDate
    (v1alpha1.GroupParameters.mk "eng" "Engineering" a)
    (pocketid.Group.mk "g-123" "eng" "Engineering" b) = true.
Proof. vm_compute. done. Qed.

(** The sibling comparison of the admin user controller tells the two maps
    apart. *)
Lemma isAdminUserUpToDate_missing_key :
  adminuser.isAdminUserUpToDate
    (v1alpha1.AdminUserParameters.mk "root" "" "" "" "" false {["team" := ""]})
    (pocketid.User.mk "u-1" "root" "" "" "" "" false true [] {["tier" := ""]})
  = false.
Proof. vm_compute. done. Qed.

(** ** Drift detection on URL lists (OIDC client) *)

Lemma wrap_int_small (z : Z) : - MaxInt - 1 ≤ z ≤ MaxInt → wrap_int z = z.
Proof. unfold MaxInt, wrap_int. intros H. rewrite Z.mod_small; lia. Qed.

Lemma occurrences_snoc (l : list string) (x k : string) :
  occurrences (l ++ [x]) k
  = (occurrences l k + if decide (x = k) then 1 else 0)%nat.
Proof.
  unfold occurrences. rewrite count_occ_app. cbn.
  destruct (String.string_dec x k), (decide (x = k)); congruence.
Qed.

Lemma occurrences_le_length (l : list string) (k : string) :
  (occurrences l k ≤ length l)%nat.
Proof. apply count_occ_bound. Qed.

(** The counting loop never wraps: a key is in the map when it occurs, and
    its count is its number of occurrences. *)
Lemma countItems_lookup (l : list string) (k : string) :
  Z.of_nat (length l) ≤ MaxInt →
  oidcclient.countItems l !! k
  = if decide (occurrences l k = 0%nat) then None
    else Some (Z.of_nat (occurrences l k)).
Proof.
  unfold oidcclient.countItems.
  assert (0 ≤ MaxInt) as Hmax by done.
  induction l as [|x l IH] using rev_ind; intros Hlen.
  - cbn. by rewrite lookup_empty.
  - rewrite length_app in Hlen; cbn [length] in Hlen.
    rewrite fold_left_app; cbn [fold_left].
    rewrite occurrences_snoc.
    pose proof (occurrences_le_length l x) as Hx.
    destruct (decide (x = k)) as [->|Hne].
    + rewrite lookup_insert_eq, IH by lia.
      rewrite (decide_False (P := (occurrences l k + 1 = 0)%nat)) by lia.
      f_equal. destruct (decide (occurrences l k = 0%nat)) as [->|_]; cbn;
        rewrite wrap_int_small; lia.
    + rewrite lookup_insert_ne, IH by (done || lia).
      by rewrite Nat.add_0_r.
Qed.

Lemma countItems_default (l : list string) (k : string) :
  Z.of_nat (length l) ≤ MaxInt →
  default 0 (oidcclient.countItems l !! k) = Z.of_nat (occurrences l k).
Proof.
  intros Hlen. rewrite countItems_lookup by done.
  destruct (decide (occurrences l k = 0%nat)) as [->|_]; done.
Qed.

Lemma equalStringSlices_true (a b : list string) :
  Z.of_nat (length a) ≤ MaxInt → Z.of_nat (length b) ≤ MaxInt →
  oidcclient.equalStringSlices a b = true ↔
  length a = length b ∧
  ∀ k, occurrences a k ≠ 0%nat → occurrences b k = occurrences a k.
Proof.
  intros Ha Hb. unfold oidcclient.equalStringSlices.
  destruct (Nat.eqb_spec (length a) (length b)) as [Hl|Hl]; cbn [negb].
  - rewrite rangeAll_true. split.
    + intros H; split; [done|]. intros k Hk.
      specialize (H k (Z.of_nat (occurrences a k))).
      rewrite countItems_lookup, decide_False in H by done.
      specialize (H eq_refl). rewrite countItems_default in H by done.
      apply Z.eqb_eq in H. lia.
    + intros [_ H] k v Hkv.
      rewrite countItems_lookup in Hkv by done.
      destruct (decide (occurrences a k = 0%nat)) as [|Hk]; [done|].
      injection Hkv as <-. rewrite countItems_default by done.
      apply Z.eqb_eq. by rewrite H.
  - split; [done|]. by intros [? _].
Qed.

(** Equal lengths, and every element of [a] as often in [b] as in [a]:
    then [b] is [a] rearranged. *)
Lemma same_counts_permutation (a b : list string) :
  length a = length b →
  (∀ k, occurrences a k ≠ 0%nat → occurrences b k = occurrences a k) →
  a ≡ₚ b.
Proof.
  revert b; induction a as [|x a IH]; intros b Hl H.
  - destruct b; [done|discriminate].
  - assert (x ∈ b) as (b1 & b2 & ->)%list_elem_of_split.
    { apply list_elem_of_In, (count_occ_In String.string_dec).
      specialize (H x). unfold occurrences in H.
      rewrite count_occ_cons_eq in H by done. lia. }
    rewrite <- Permutation_middle. constructor. apply IH.
    + rewrite !length_app in *. cbn in *. lia.
    + intros k Hk. specialize (H k). unfold occurrences in *.
      rewrite count_occ_app in *. cbn in *.
      destruct (String.string_dec x k); lia.
Qed.

Lemma permutation_same_counts (a b : list string) :
  a ≡ₚ b → ∀ k, occurrences a k = occurrences b k.
Proof. intros H k. by apply Permutation_count_occ. Qed.

Lemma equalStringSlices_permutation (a b : list string) :
  Z.of_nat (length a) ≤ MaxInt → Z.of_nat (length b) ≤ MaxInt →
  oidcclient.equalStringSlices a b = true ↔ a ≡ₚ b.
Proof.
  intros Ha Hb. rewrite equalStringSlices_true by done. split.
  - intros [Hl H]. by apply same_counts_permutation.
  - intros H. split; [by apply Permutation_length|].
    intros k _. symmetry. by apply permutation_same_counts.
Qed.

Lemma equalStringSlices_proper (a b a' b' : list string) :
  Z.of_nat (length a) ≤ MaxInt → Z.of_nat (length b) ≤ MaxInt →
  a ≡ₚ a' → b ≡ₚ b' →
  oidcclient.equalStringSlices a' b' = oidcclient.equalStringSlices a b.
Proof.
  intros Ha Hb Haa Hbb.
  assert (Z.of_nat (length a') ≤ MaxInt) by by rewrite <- Haa.
  assert (Z.of_nat (length b') ≤ MaxInt) by by rewrite <- Hbb.
  apply eq_true_iff_eq. rewrite !equalStringSlices_permutation by done.
  by rewrite Haa, Hbb.
Qed.

Lemma isOIDCClientUpToDate_proper
    (spec : v1alpha1.OIDCClientParameters.t) (client : pocketid.OIDCClient.t)
    (a' b' : list string) :
  Z.of_nat (length (v1alpha1.OIDCClientParameters.CallbackURLs spec)) ≤ MaxInt →
  Z.of_nat (length (pocketid.OIDCClient.RedirectURIs client)) ≤ MaxInt →
  v1alpha1.OIDCClientParameters.CallbackURLs spec ≡ₚ a' →
  pocketid.OIDCClient.RedirectURIs client ≡ₚ b' →
  oidcclient.isOIDCClientUpToDate
    (withCallbackURLs spec a') (withRedirectURIs client b')
  = oidcclient.isOIDCClientUpToDate spec client.
Proof.
  intros Ha Hb Haa Hbb. destruct spec, client. cbn in *.
  unfold oidcclient.isOIDCClientUpToDate; cbn.
  by rewrite (equalStringSlices_proper _ _ a' b' Ha Hb Haa Hbb).
Qed.

(** C4. On slices (whose lengths are Go ints), the comparison of the OIDC
    client drift detector answers true exactly when the two slices have the
    same length and every string occurs as often in the one as in the other,
    that is, when the one is a rearrangement of the other; so the drift
    detector gives the same answer when the declared callback URLs or the
    observed redirect URIs are permuted. *)
Theorem equalStringSlices_multiset (a b : list string) :
  Z.of_nat (length a) ≤ MaxInt → Z.of_nat (length b) ≤ MaxInt →
  (oidcclient.equalStringSlices a b = true ↔
     length a = length b ∧ ∀ x, occurrences a x = occurrences b x) ∧
  (oidcclient.equalStringSlices a b = true ↔ a ≡ₚ b) ∧
  (∀ spec client a' b',
     v1alpha1.OIDCClientParameters.CallbackURLs spec = a →
     pocketid.OIDCClient.RedirectURIs client = b →
     a ≡ₚ a' → b ≡ₚ b' →
     oidcclient.isOIDCClientUpToDate
       (withCallbackURLs spec a') (withRedirectURIs client b')
     = oidcclient.isOIDCClientUpToDate spec client).
Proof.
  intros Ha Hb. split; [|split].
  - rewrite equalStringSlices_permutation by done. split.
    + intros H. split; [by apply Permutation_length|].
      by apply permutation_same_counts.
    + intros [Hl H]. apply same_counts_permutation; [done|].
      intros k _. symmetry. apply H.
  - by apply equalStringSlices_permutation.
  - intros spec client a' b' <- <- Haa Hbb.
    by apply isOIDCClientUpToDate_proper.
Qed.

Lemma equalStringSlices_multiset_witness :
  oidcclient.equalStringSlices Examples.urlsAB Examples.urlsBA = true ∧
  oidcclient.isOIDCClientUpToDate Examples.specAB
    (withRedirectURIs Examples.clientAB Examples.urlsBA) = true.
Proof.
  assert (Z.of_nat (length Examples.urlsAB) ≤ MaxInt) as Ha by done.
  assert (Z.of_nat (length Examples.urlsBA) ≤ MaxInt) as Hb by done.
  assert (Examples.urlsAB ≡ₚ Examples.urlsBA) as Hp by apply perm_swap.
  split.
  - apply (proj1 (proj2 (equalStringSlices_multiset _ _ Ha Hb))), Hp.
  - exact (proj2 (proj2 (equalStringSlices_multiset _ _ Ha Ha))
             Examples.specAB Examples.clientAB Examples.urlsAB Examples.urlsBA
             eq_refl eq_refl (reflexivity _) Hp).
Defined.

(** ** Discovery of an admin user *)

(** The lookup by name lists the users, once, and returns: an error, or the
    first user of that name, or nil. *)
Lemma GetUserByExternalName_wp (username : string) :
  wp (Client.GetUserByExternalName username) (λ t o,
    t = [makeRequest "GET" "/api/users" pocketid.NoBody] ∧
    ∃ r, o = Returned r ∧
      ∀ user, r = inr (Some user) → pocketid.User.Username user = username).
Proof.
  unfold Client.GetUserByExternalName, Client.ListUsers.
  cbn [bind call wp]. intros [err|resp]; cbn [bind wp].
  { split; [done|]. eexists; split; [done|]. intros; simplify_eq. }
  destruct (Client.checkResponse resp) as [err|body]; cbn [bind wp].
  { split; [done|]. eexists; split; [done|]. intros; simplify_eq. }
  destruct (pocketid.Body.asUsers body) as [err|users]; cbn [bind wp].
  { split; [done|]. eexists; split; [done|]. intros; simplify_eq. }
  split; [done|]. eexists; split; [done|].
  intros user [= Hfind]. apply find_some in Hfind as [_ Heq].
  by apply String.eqb_eq in Heq.
Qed.

Lemma GetUserByExternalName_run (username : string) (E : Env) (w : World E) :
  ∃ r w1,
    run E (Client.GetUserByExternalName username) w
    = (Returned r, w1, [makeRequest "GET" "/api/users" pocketid.NoBody]) ∧
    ∀ user, r = inr (Some user) → pocketid.User.Username user = username.
Proof.
  pose proof (wp_run _ _ (GetUserByExternalName_wp username) E w) as H.
  unfold calls, outcome in H.
  destruct (run E (Client.GetUserByExternalName username) w) as [[o w1] t].
  cbn in H. destruct H as (-> & r & -> & Hr). eauto.
Qed.

(** C6. When the discovery of an AdminUser finds a remote user whose IsAdmin
    flag is unset, Observe fails with the error "user exists but is not an
    admin user" (the InvariantViolated condition): the resource is left as
    it was, and the only request made is the listing of the users; no update
    is sent. *)
Theorem observe_non_admin_is_invariant_violation
    (cr : v1alpha1.AdminUser.t) (key : string) (user : pocketid.User.t)
    (E : Env) (w w1 : World E) (t : list Call) :
  key = (if String.eqb (meta.GetExternalName (v1alpha1.AdminUser.ObjectMeta cr)) ""
         then v1alpha1.AdminUserParameters.Username
                (v1alpha1.AdminUser.ForProvider cr)
         else meta.GetExternalName (v1alpha1.AdminUser.ObjectMeta cr)) →
  run E (Client.GetUserByExternalName key) w
  = (Returned (inr (Some user)), w1, t) →
  pocketid.User.IsAdmin user = false →
  let err := errorString "user exists but is not an admin user" in
  run E (adminuser.Observe (AdminUserMR cr)) w
  = (Returned (AdminUserMR cr, inl err), w1, t) ∧
  t = [makeRequest "GET" "/api/users" pocketid.NoBody] ∧
  Health.ofObservation (inl err) = Health.InvariantViolated.
Proof.
  intros Hkey Hrun Hadmin err. split; [|split; [|done]].
  - unfold adminuser.Observe. cbv zeta. rewrite <- Hkey.
    rewrite run_bind, Hrun. rewrite Hadmin. cbn. by rewrite app_nil_r.
  - destruct (GetUserByExternalName_run key E w) as (r & w' & Hrun' & _).
    congruence.
Qed.

Lemma observe_non_admin_is_invariant_violation_witness :
  run (Examples.fixedRemote 200 (Examples.usersBody [Examples.plainRoot]))
    (adminuser.Observe (AdminUserMR Examples.rootCR)) ()
  = (Returned (AdminUserMR Examples.rootCR,
               inl (errorString "user exists but is not an admin user")),
     (), [makeRequest "GET" "/api/users" pocketid.NoBody]).
Proof.
  exact (proj1 (observe_non_admin_is_invariant_violation
                  Examples.rootCR "root" Examples.plainRoot
                  (Examples.fixedRemote 200
                     (Examples.usersBody [Examples.plainRoot]))
                  () () _ eq_refl eq_refl eq_refl)).
Defined.

(** ** The external name of an admin user *)

Lemma isAdminUserUpToDate_username
    (spec : v1alpha1.AdminUserParameters.t) (user : pocketid.User.t) :
  v1alpha1.AdminUserParameters.Username spec ≠ pocketid.User.Username user →
  adminuser.isAdminUserUpToDate spec user = false.
Proof.
  intros Hne. unfold adminuser.isAdminUserUpToDate.
  by destruct (String.eqb_spec (v1alpha1.AdminUserParameters.Username spec)
                 (pocketid.User.Username user)).
Qed.

(** C5. Once the external name of an AdminUser is set, a different
    Spec.ForProvider.Username changes nothing in the lookup: Observe lists
    the users and looks for the external name, and leaves the metadata of
    the resource, the external name with it, and the spec as they are. When
    no user of that name is listed the resource is reported absent; when
    one is found, it bears the external name, the drift detector answers
    false on it, and Observe (the user being an admin) records it in the
    status and reports the resource as present and not up to date. *)
Theorem external_name_stays_lookup_key
    (cr : v1alpha1.AdminUser.t) (n : string) (E : Env) (w : World E) :
  meta.GetExternalName (v1alpha1.AdminUser.ObjectMeta cr) = n →
  n ≠ "" →
  v1alpha1.AdminUserParameters.Username (v1alpha1.AdminUser.ForProvider cr) ≠ n →
  ∃ lookup w1 cr1 r,
    run E (Client.GetUserByExternalName n) w
    = (Returned lookup, w1, [makeRequest "GET" "/api/users" pocketid.NoBody]) ∧
    run E (adminuser.Observe (AdminUserMR cr)) w
    = (Returned (AdminUserMR cr1, r), w1,
       [makeRequest "GET" "/api/users" pocketid.NoBody]) ∧
    v1alpha1.AdminUser.ObjectMeta cr1 = v1alpha1.AdminUser.ObjectMeta cr ∧
    meta.GetExternalName (v1alpha1.AdminUser.ObjectMeta cr1) = n ∧
    v1alpha1.AdminUser.ForProvider cr1 = v1alpha1.AdminUser.ForProvider cr ∧
    (lookup = inr None →
     r = inr (managed.ExternalObservation.mk false false) ∧ cr1 = cr) ∧
    (∀ err, lookup = inl err →
       r = inl (wrapError "failed to get admin user" err) ∧ cr1 = cr) ∧
    (∀ user, lookup = inr (Some user) →
       pocketid.User.Username user = n ∧
       adminuser.isAdminUserUpToDate (v1alpha1.AdminUser.ForProvider cr) user
       = false ∧
       (pocketid.User.IsAdmin user = true →
        r = inr (managed.ExternalObservation.mk true false) ∧
        v1alpha1.AdminUser.AtProvider cr1
        = v1alpha1.AdminUserObservation.mk
            (pocketid.User.ID user) (pocketid.User.Username user)
            (pocketid.User.Email user) (pocketid.User.FirstName user)
            (pocketid.User.LastName user) (pocketid.User.Locale user)
            (pocketid.User.Disabled user) true
            (pocketid.User.UserGroups user) (pocketid.User.CustomClaims user) ∧
        v1alpha1.AdminUser.Conditions cr1
        = xpv1.SetConditions (v1alpha1.AdminUser.Conditions cr) xpv1.Available) ∧
       (pocketid.User.IsAdmin user = false →
        r = inl (errorString "user exists but is not an admin user") ∧
        cr1 = cr)) ∧
    (∀ obs, r = inr obs →
       managed.ExternalObservation.ResourceExists obs = true →
       managed.ExternalObservation.ResourceUpToDate obs = false ∧
       v1alpha1.AdminUserObservation.Username (v1alpha1.AdminUser.AtProvider cr1)
       = n).
Proof.
  intros Hext Hn Hne.
  destruct (GetUserByExternalName_run n E w) as (lookup & w1 & Hrun & Hname).
  assert (String.eqb n "" = false) as Hnb by by apply String.eqb_neq.
  exists lookup, w1.
  unfold adminuser.Observe. cbv zeta. rewrite Hext, Hnb, run_bind, Hrun.
  destruct lookup as [err|[user|]]; cbn [run app].
  - exists cr, (inl (wrapError "failed to get admin user" err)).
    split_and!; try done. by intros err' [= <-].
  - specialize (Hname user eq_refl).
    assert (adminuser.isAdminUserUpToDate (v1alpha1.AdminUser.ForProvider cr)
              user = false) as Hdrift.
    { apply isAdminUserUpToDate_username. by rewrite Hname. }
    destruct (pocketid.User.IsAdmin user) eqn:Hadmin; cbn [negb run app].
    + eexists _, _. split; [done|]. split; [reflexivity|]. rewrite Hdrift.
      cbn [v1alpha1.AdminUser.ObjectMeta v1alpha1.AdminUser.ForProvider
             v1alpha1.AdminUser.AtProvider v1alpha1.AdminUser.Conditions
             v1alpha1.AdminUserObservation.Username].
      split_and!; try done.
      * intros user' [= <-]. split_and!; try done. intros; congruence.
      * by intros obs [= <-] _.
    + exists cr, (inl (errorString "user exists but is not an admin user")).
      split_and!; try done.
      intros user' [= <-]. split_and!; try done. intros; congruence.
  - exists cr, (inr (managed.ExternalObservation.mk false false)).
    split_and!; try done. by intros obs [= <-].
Qed.

Lemma external_name_stays_lookup_key_witness :
  let E := Examples.fixedRemote 200 (Examples.usersBody [Examples.rootUser]) in
  let cr := Examples.renamedCR in
  let n := "root" in
  ∃ lookup w1 cr1 r,
    run E (Client.GetUserByExternalName n) ()
    = (Returned lookup, w1, [makeRequest "GET" "/api/users" pocketid.NoBody]) ∧
    run E (adminuser.Observe (AdminUserMR cr)) ()
    = (Returned (AdminUserMR cr1, r), w1,
       [makeRequest "GET" "/api/users" pocketid.NoBody]) ∧
    v1alpha1.AdminUser.ObjectMeta cr1 = v1alpha1.AdminUser.ObjectMeta cr ∧
    meta.GetExternalName (v1alpha1.AdminUser.ObjectMeta cr1) = n ∧
    v1alpha1.AdminUser.ForProvider cr1 = v1alpha1.AdminUser.ForProvider cr ∧
    (lookup = inr None →
     r = inr (managed.ExternalObservation.mk false false) ∧ cr1 = cr) ∧
    (∀ err, lookup = inl err →
       r = inl (wrapError "failed to get admin user" err) ∧ cr1 = cr) ∧
    (∀ user, lookup = inr (Some user) →
       pocketid.User.Username user = n ∧
       adminuser.isAdminUserUpToDate (v1alpha1.AdminUser.ForProvider cr) user
       = false ∧
       (pocketid.User.IsAdmin user = true →
        r = inr (managed.ExternalObservation.mk true false) ∧
        v1alpha1.AdminUser.AtProvider cr1
        = v1alpha1.AdminUserObservation.mk
            (pocketid.User.ID user) (pocketid.User.Username user)
            (pocketid.User.Email user) (pocketid.User.FirstName user)
            (pocketid.User.LastName user) (pocketid.User.Locale user)
            (pocketid.User.Disabled user) true
            (pocketid.User.UserGroups user) (pocketid.User.CustomClaims user) ∧
        v1alpha1.AdminUser.Conditions cr1
        = xpv1.SetConditions (v1alpha1.AdminUser.Conditions cr) xpv1.Available) ∧
       (pocketid.User.IsAdmin user = false →
        r = inl (errorString "user exists but is not an admin user") ∧
        cr1 = cr)) ∧
    (∀ obs, r = inr obs →
       managed.ExternalObservation.ResourceExists obs = true →
       managed.ExternalObservation.ResourceUpToDate obs = false ∧
       v1alpha1.AdminUserObservation.Username (v1alpha1.AdminUser.AtProvider cr1)
       = n).
Proof.
  intros E cr n.
  apply (external_name_stays_lookup_key cr n E ()).
  - reflexivity.
  - discriminate.
  - discriminate.
Defined.

(** The renamed resource is indeed observed as present and drifted. *)
Lemma renamed_admin_user_drifts :
  outcome (Examples.fixedRemote 200 (Examples.usersBody [Examples.rootUser]))
    (adminuser.Observe (AdminUserMR Examples.renamedCR)) ()
  = Returned (AdminUserMR Examples.renamedCR,
              inr (managed.ExternalObservation.mk true false)).
Proof. vm_compute. done. Qed.

(** ** Bindings *)

Ltac wp_cases :=
  repeat first
    [ progress cbn [bind wp call]
    | progress intros
    | case_match ].

(** C7. Whenever Observe of an OIDCClientGroupBinding reports that the
    binding exists, it reports it up to date; and Update returns success at
    once, for every argument, without a call and without touching the
    resource. *)
Theorem binding_exists_is_up_to_date (cr : v1alpha1.OIDCClientGroupBinding.t) :
  (∀ (E : Env) (w : World E) mg obs,
     outcome E (clientgroupbinding.Observe (OIDCClientGroupBindingMR cr)) w
     = Returned (mg, inr obs) →
     managed.ExternalObservation.ResourceExists obs = true →
     managed.ExternalObservation.ResourceUpToDate obs = true) ∧
  (∀ (mg : Managed) (E : Env) (w : World E),
     run E (clientgroupbinding.Update mg) w
     = (Returned (mg, inr (managed.ExternalUpdate.mk ∅)), w, [])).
Proof.
  split; [|done].
  intros E w.
  apply (wp_run _ (λ _ o, ∀ mg obs, o = Returned (mg, inr obs) →
           managed.ExternalObservation.ResourceExists obs = true →
           managed.ExternalObservation.ResourceUpToDate obs = true)).
  unfold clientgroupbinding.Observe, clientgroupbinding.resolveClientID,
    clientgroupbinding.resolveGroupID, Client.IsClientInGroup,
    Client.GetOIDCClient, Client.GetGroup.
  wp_cases; simplify_eq; done.
Qed.

Lemma binding_exists_is_up_to_date_witness :
  let E := Examples.fixedRemote 200 Examples.clientAndGroupBody in
  ∃ mg obs,
    outcome E
      (clientgroupbinding.Observe
         (OIDCClientGroupBindingMR Examples.literalBinding)) ()
    = Returned (mg, inr obs) ∧
    managed.ExternalObservation.ResourceExists obs = true ∧
    managed.ExternalObservation.ResourceUpToDate obs = true.
Proof.
  intros E. eexists _, (managed.ExternalObservation.mk true true).
  assert (outcome E
            (clientgroupbinding.Observe
               (OIDCClientGroupBindingMR Examples.literalBinding)) ()
          = Returned (_, inr (managed.ExternalObservation.mk true true)))
    as Hrun by (vm_compute; reflexivity).
  split; [exact Hrun|]. split; [reflexivity|].
  exact (proj1 (binding_exists_is_up_to_date Examples.literalBinding)
           E () _ _ Hrun eq_refl).
Defined.

(** The membership is confirmed, and the client is gone when Observe
    fetches it again for the status: the nil client is dereferenced. *)
Lemma observe_panics_when_client_vanishes :
  run (Examples.vanishingRemote 2 Examples.clientAndGroupBody)
    (clientgroupbinding.Observe
       (OIDCClientGroupBindingMR Examples.literalBinding)) 0%nat
  = (Panicked, 4%nat,
     [makeRequest "GET" "/api/oidc/clients/c-1" pocketid.NoBody;
      makeRequest "GET" "/api/groups/g-123" pocketid.NoBody;
      makeRequest "GET" "/api/oidc/clients/c-1" pocketid.NoBody;
      makeRequest "GET" "/api/groups/g-123" pocketid.NoBody]).
Proof. vm_compute. done. Qed.

(** C1. A binding whose client (for a UserGroupBinding: user) is given by
    reference, not literally, to a resource whose Status.AtProvider.ID is
    empty: Observe, Create and Delete read the referenced resource and fail
    with the error of the Unresolved condition. They make no other call (no
    membership query, no association, no dissociation) and leave the binding
    as it was. *)
Theorem unresolved_reference_gates_membership (E : Env) (w w1 : World E) :
  (∀ (cr : v1alpha1.OIDCClientGroupBinding.t) (ref : xpv1.Reference.t)
     (oc : v1alpha1.OIDCClient.t),
     let spec := v1alpha1.OIDCClientGroupBinding.ForProvider cr in
     v1alpha1.OIDCClientGroupBindingParameters.ClientID spec = "" →
     v1alpha1.OIDCClientGroupBindingParameters.ClientIDRef spec = Some ref →
     respond E (kubeGetOIDCClient (xpv1.Reference.Name ref)) w = (inr oc, w1) →
     v1alpha1.OIDCClientObservation.ID (v1alpha1.OIDCClient.AtProvider oc) = "" →
     let mg := OIDCClientGroupBindingMR cr in
     let err := wrapError clientgroupbinding.errResolveClientID
                  (errorString "referenced OIDC client ID is not available") in
     let t := [kubeGetOIDCClient (xpv1.Reference.Name ref)] in
     run E (clientgroupbinding.Observe mg) w = (Returned (mg, inl err), w1, t) ∧
     run E (clientgroupbinding.Create mg) w = (Returned (mg, inl err), w1, t) ∧
     run E (clientgroupbinding.Delete mg) w = (Returned (mg, inl err), w1, t) ∧
     filter (λ c, isRemote c = true) t = [] ∧
     Health.ofError err = Health.Unresolved) ∧
  (∀ (cr : v1alpha1.UserGroupBinding.t) (ref : xpv1.Reference.t)
     (u : v1alpha1.User.t),
     let spec := v1alpha1.UserGroupBinding.ForProvider cr in
     v1alpha1.UserGroupBindingParameters.UserID spec = "" →
     v1alpha1.UserGroupBindingParameters.UserIDRef spec = Some ref →
     respond E (kubeGetUser (xpv1.Reference.Name ref)) w = (inr u, w1) →
     v1alpha1.UserObservation.ID (v1alpha1.User.AtProvider u) = "" →
     let mg := UserGroupBindingMR cr in
     let err := wrapError usergroupbinding.errResolveUserID
                  (errorString "referenced user ID is not available") in
     let t := [kubeGetUser (xpv1.Reference.Name ref)] in
     run E (usergroupbinding.Observe mg) w = (Returned (mg, inl err), w1, t) ∧
     run E (usergroupbinding.Create mg) w = (Returned (mg, inl err), w1, t) ∧
     run E (usergroupbinding.Delete mg) w = (Returned (mg, inl err), w1, t) ∧
     filter (λ c, isRemote c = true) t = [] ∧
     Health.ofError err = Health.Unresolved).
Proof.
  split.
  - intros cr ref oc spec Hlit Href Hget Hid mg err t.
    unfold clientgroupbinding.Observe, clientgroupbinding.Create,
      clientgroupbinding.Delete, clientgroupbinding.resolveClientID.
    subst spec mg. cbv beta iota zeta. rewrite Hlit, Href.
    cbn [String.eqb negb bind call run].
    rewrite Hget. cbn [run bind]. rewrite Hid. cbn. done.
  - intros cr ref u spec Hlit Href Hget Hid mg err t.
    unfold usergroupbinding.Observe, usergroupbinding.Create,
      usergroupbinding.Delete, usergroupbinding.resolveUserID.
    subst spec mg. cbv beta iota zeta. rewrite Hlit, Href.
    cbn [String.eqb negb bind call run].
    rewrite Hget. cbn [run bind]. rewrite Hid. cbn. done.
Qed.

Lemma unresolved_reference_gates_membership_witness :
  let E := Examples.emptyRemote in
  let mg := OIDCClientGroupBindingMR Examples.referringBinding in
  let umg := UserGroupBindingMR Examples.referringUserBinding in
  run E (clientgroupbinding.Observe mg) ()
  = (Returned (mg, inl (wrapError clientgroupbinding.errResolveClientID
                          (errorString
                             "referenced OIDC client ID is not available"))),
     (), [kubeGetOIDCClient "app"]) ∧
  run E (usergroupbinding.Observe umg) ()
  = (Returned (umg, inl (wrapError usergroupbinding.errResolveUserID
                           (errorString "referenced user ID is not available"))),
     (), [kubeGetUser "alice"]).
Proof.
  intros E mg umg.
  destruct (unresolved_reference_gates_membership E () ()) as [Hc Hu].
  split.
  - exact (proj1 (Hc Examples.referringBinding (xpv1.Reference.mk "app")
                    Examples.zeroOIDCClientCR eq_refl eq_refl eq_refl eq_refl)).
  - exact (proj1 (Hu Examples.referringUserBinding (xpv1.Reference.mk "alice")
                    Examples.zeroUserCR eq_refl eq_refl eq_refl eq_refl)).
Defined.

(** The same gate on the group of an OIDCClientGroupBinding, once the
    client is resolved. *)
Lemma unresolved_group_gates_membership
    (cr : v1alpha1.OIDCClientGroupBinding.t) (ref : xpv1.Reference.t)
    (g : v1alpha1.Group.t) (clientID : string)
    (E : Env) (w w1 w2 : World E) (t1 : list Call) :
  let spec := v1alpha1.OIDCClientGroupBinding.ForProvider cr in
  run E (clientgroupbinding.resolveClientID cr) w
  = (Returned (inr clientID), w1, t1) →
  v1alpha1.OIDCClientGroupBindingParameters.GroupID spec = "" →
  v1alpha1.OIDCClientGroupBindingParameters.GroupIDRef spec = Some ref →
  respond E (kubeGetGroup (xpv1.Reference.Name ref)) w1 = (inr g, w2) →
  v1alpha1.GroupObservation.ID (v1alpha1.Group.AtProvider g) = "" →
  let mg := OIDCClientGroupBindingMR cr in
  let err := wrapError clientgroupbinding.errResolveGroupID
               (errorString "referenced group ID is not available") in
  let t := t1 ++ [kubeGetGroup (xpv1.Reference.Name ref)] in
  run E (clientgroupbinding.Observe mg) w = (Returned (mg, inl err), w2, t) ∧
  run E (clientgroupbinding.Create mg) w = (Returned (mg, inl err), w2, t) ∧
  run E (clientgroupbinding.Delete mg) w = (Returned (mg, inl err), w2, t) ∧
  Health.ofError err = Health.Unresolved.
Proof.
  intros spec Hc Hlit Href Hget Hid mg err t.
  unfold clientgroupbinding.Observe, clientgroupbinding.Create,
    clientgroupbinding.Delete.
  subst spec mg. cbv beta iota zeta. rewrite !run_bind, Hc.
  unfold clientgroupbinding.resolveGroupID. cbv beta iota zeta.
  rewrite Hlit, Href. cbn [String.eqb negb bind call run].
  rewrite Hget. cbn [run bind]. rewrite Hid. cbn. done.
Qed.

(** A literal ID takes precedence over a reference: it is returned without
    a call. *)
Lemma resolveClientID_literal (cr : v1alpha1.OIDCClientGroupBinding.t) :
  let spec := v1alpha1.OIDCClientGroupBinding.ForProvider cr in
  v1alpha1.OIDCClientGroupBindingParameters.ClientID spec ≠ "" →
  clientgroupbinding.resolveClientID cr
  = Ret (inr (v1alpha1.OIDCClientGroupBindingParameters.ClientID spec)).
Proof.
  intros spec Hne. subst spec.
  unfold clientgroupbinding.resolveClientID. cbv zeta.
  by apply String.eqb_neq in Hne as ->.
Qed.

(** ** The logo of an OIDC client *)



(** A run in which the download of the logo fails: the upload reports the
    error, and Create and Update return success all the same. *)
Lemma upload_fails_create_update_succeed :
  let E := Examples.fixedRemote 200 Examples.clientAndGroupBody in
  let mg := OIDCClientMR Examples.logoCR in
  outcome E
    (Client.UploadOIDCClientLogo id "c-1" "https://app.example/logo.png") ()
  = Returned (Some (wrapError "failed to download logo"
                      (errorString "connection refused"))) ∧
  outcome E (oidcclient.Create id mg) ()
  = Returned (mg, inr (managed.ExternalCreation.mk ∅)) ∧
  outcome E (oidcclient.Update id mg) ()
  = Returned (mg, inr (managed.ExternalUpdate.mk ∅)) ∧
  calls E (oidcclient.Update id mg) ()
  = [makeRequest "PUT" "/api/oidc/clients/c-1"
       (pocketid.UpdateOIDCClientBody
          (pocketid.UpdateOIDCClientRequest.mk "app" [] [] "" false true
             [] ∅ [] 0 0 0));
     downloadFile "https://app.example/logo.png"].
Proof. vm_compute. done. Qed.

(** * Further properties *)

(** ** Drift detectors *)

Ltac differ := split; [done|]; intros ?; destruct_and!; done.

Lemma same_entries_same_map (a b : gmap string string) :
  size a = size b →
  (∀ k v, a !! k = Some v → b !! k = Some v) →
  a = b.
Proof.
  intros Hs H. apply map_subseteq_size_eq; [|lia].
  by apply map_subseteq_spec.
Qed.

(** X1. The drift detector of the admin user controller answers true
    exactly when the six declared scalar fields equal the observed ones and
    the declared custom claims are the observed custom claims, as maps. *)
Theorem isAdminUserUpToDate_iff
    (spec : v1alpha1.AdminUserParameters.t) (user : pocketid.User.t) :
  adminuser.isAdminUserUpToDate spec user = true ↔
  v1alpha1.AdminUserParameters.Username spec = pocketid.User.Username user ∧
  v1alpha1.AdminUserParameters.Email spec = pocketid.User.Email user ∧
  v1alpha1.AdminUserParameters.FirstName spec = pocketid.User.FirstName user ∧
  v1alpha1.AdminUserParameters.LastName spec = pocketid.User.LastName user ∧
  v1alpha1.AdminUserParameters.Locale spec = pocketid.User.Locale user ∧
  v1alpha1.AdminUserParameters.Disabled spec = pocketid.User.Disabled user ∧
  v1alpha1.AdminUserParameters.CustomClaims spec
  = pocketid.User.CustomClaims user.
Proof.
  unfold adminuser.isAdminUserUpToDate.
  destruct (String.eqb_spec (v1alpha1.AdminUserParameters.Username spec)
              (pocketid.User.Username user)); cbn [negb]; [|differ].
  destruct (String.eqb_spec (v1alpha1.AdminUserParameters.Email spec)
              (pocketid.User.Email user)); cbn [negb]; [|differ].
  destruct (String.eqb_spec (v1alpha1.AdminUserParameters.FirstName spec)
              (pocketid.User.FirstName user)); cbn [negb]; [|differ].
  destruct (String.eqb_spec (v1alpha1.AdminUserParameters.LastName spec)
              (pocketid.User.LastName user)); cbn [negb]; [|differ].
  destruct (String.eqb_spec (v1alpha1.AdminUserParameters.Locale spec)
              (pocketid.User.Locale user)); cbn [negb]; [|differ].
  destruct (Bool.eqb_spec (v1alpha1.AdminUserParameters.Disabled spec)
              (pocketid.User.Disabled user)); cbn [negb]; [|differ].
  destruct (Nat.eqb_spec (size (v1alpha1.AdminUserParameters.CustomClaims spec))
              (size (pocketid.User.CustomClaims user))) as [Hs|Hs]; cbn [negb].
  - rewrite rangeAll_true. split.
    + intros H. split_and!; try done.
      apply same_entries_same_map; [done|]. intros k v Hkv.
      specialize (H k v Hkv).
      destruct (pocketid.User.CustomClaims user !! k) as [v'|]; [|done].
      by apply String.eqb_eq in H as ->.
    + intros (_ & _ & _ & _ & _ & _ & Heq) k v Hkv.
      rewrite <- Heq, Hkv. apply String.eqb_refl.
  - split; [done|]. intros (_ & _ & _ & _ & _ & _ & Heq).
    by rewrite Heq in Hs.
Qed.

(** X2. The drift detector of the group controller never reports drift
    when the declared name, friendly name and custom claims are the observed
    ones; and when no declared claim has the empty string as its value, it
    reports no drift only then. *)
Theorem isGroupUpToDate_sound
    (spec : v1alpha1.GroupParameters.t) (group : pocketid.Group.t) :
  let same :=
    v1alpha1.GroupParameters.Name spec = pocketid.Group.GroupName group ∧
    v1alpha1.GroupParameters.FriendlyName spec
    = pocketid.Group.FriendlyName group ∧
    v1alpha1.GroupParameters.CustomClaims spec
    = pocketid.Group.CustomClaims group in
  (same → group.isGroupUpToDate spec group = true) ∧
  ((∀ k, v1alpha1.GroupParameters.CustomClaims spec !! k ≠ Some "") →
   group.isGroupUpToDate spec group = true → same).
Proof.
  intros same. subst same. unfold group.isGroupUpToDate. split.
  - intros (-> & -> & ->).
    by rewrite !String.eqb_refl, equalStringMaps_refl.
  - intros Hne.
    destruct (String.eqb_spec (v1alpha1.GroupParameters.Name spec)
                (pocketid.Group.GroupName group)); cbn [negb]; [|done].
    destruct (String.eqb_spec (v1alpha1.GroupParameters.FriendlyName spec)
                (pocketid.Group.FriendlyName group)); cbn [negb]; [|done].
    destruct (group.equalStringMaps (v1alpha1.GroupParameters.CustomClaims spec)
                (pocketid.Group.CustomClaims group)) eqn:Hm; cbn [negb];
      [|done].
    intros _. split_and!; try done.
    by apply equalStringMaps_no_empty_value.
Qed.

Lemma isGroupUpToDate_sound_witness :
  v1alpha1.GroupParameters.Name MoreExamples.engSpec
  = pocketid.Group.GroupName MoreExamples.engRemote ∧
  v1alpha1.GroupParameters.FriendlyName MoreExamples.engSpec
  = pocketid.Group.FriendlyName MoreExamples.engRemote ∧
  v1alpha1.GroupParameters.CustomClaims MoreExamples.engSpec
  = pocketid.Group.CustomClaims MoreExamples.engRemote.
Proof.
  apply (proj2 (isGroupUpToDate_sound MoreExamples.engSpec
                  MoreExamples.engRemote)).
  - intros k. cbn. destruct (decide (k = "team")) as [->|Hne].
    + rewrite lookup_singleton_eq. discriminate.
    + rewrite lookup_singleton_ne by done. discriminate.
  - vm_compute. reflexivity.
Defined.

(** X3. On URL lists whose lengths are Go ints, the drift detector of the
    OIDC client controller answers true exactly when the name, the launch
    URL, the public flag and the PKCE flag are the observed ones, the
    declared callback URLs are a rearrangement of the observed redirect
    URIs, and the declared logout callback URLs are a rearrangement of the
    observed post-logout URIs. *)
Theorem isOIDCClientUpToDate_iff
    (spec : v1alpha1.OIDCClientParameters.t) (client : pocketid.OIDCClient.t) :
  Z.of_nat (length (v1alpha1.OIDCClientParameters.CallbackURLs spec)) ≤ MaxInt →
  Z.of_nat (length (pocketid.OIDCClient.RedirectURIs client)) ≤ MaxInt →
  Z.of_nat (length (v1alpha1.OIDCClientParameters.LogoutCallbackURLs spec))
  ≤ MaxInt →
  Z.of_nat (length (pocketid.OIDCClient.PostLogoutURIs client)) ≤ MaxInt →
  oidcclient.isOIDCClientUpToDate spec client = true ↔
  v1alpha1.OIDCClientParameters.Name spec = pocketid.OIDCClient.ClientName client ∧
  v1alpha1.OIDCClientParameters.LaunchURL spec
  = pocketid.OIDCClient.LaunchURL client ∧
  v1alpha1.OIDCClientParameters.IsPublic spec
  = pocketid.OIDCClient.IsPublic client ∧
  v1alpha1.OIDCClientParameters.PkceEnabled spec
  = pocketid.OIDCClient.RequirePKCE client ∧
  v1alpha1.OIDCClientParameters.CallbackURLs spec
  ≡ₚ pocketid.OIDCClient.RedirectURIs client ∧
  v1alpha1.OIDCClientParameters.LogoutCallbackURLs spec
  ≡ₚ pocketid.OIDCClient.PostLogoutURIs client.
Proof.
  intros H1 H2 H3 H4. unfold oidcclient.isOIDCClientUpToDate.
  destruct (String.eqb_spec (v1alpha1.OIDCClientParameters.Name spec)
              (pocketid.OIDCClient.ClientName client)); cbn [negb]; [|differ].
  destruct (String.eqb_spec (v1alpha1.OIDCClientParameters.LaunchURL spec)
              (pocketid.OIDCClient.LaunchURL client)); cbn [negb]; [|differ].
  destruct (Bool.eqb_spec (v1alpha1.OIDCClientParameters.IsPublic spec)
              (pocketid.OIDCClient.IsPublic client)); cbn [negb]; [|differ].
  destruct (Bool.eqb_spec (v1alpha1.OIDCClientParameters.PkceEnabled spec)
              (pocketid.OIDCClient.RequirePKCE client)); cbn [negb]; [|differ].
  pose proof (equalStringSlices_permutation _ _ H1 H2) as Hcb.
  pose proof (equalStringSlices_permutation _ _ H3 H4) as Hlo.
  destruct (oidcclient.equalStringSlices
              (v1alpha1.OIDCClientParameters.CallbackURLs spec)
              (pocketid.OIDCClient.RedirectURIs client)); cbn [negb].
  - destruct (oidcclient.equalStringSlices
                (v1alpha1.OIDCClientParameters.LogoutCallbackURLs spec)
                (pocketid.OIDCClient.PostLogoutURIs client)); cbn [negb].
    + split; [|done]. intros _. split_and!; try done.
      * by apply Hcb.
      * by apply Hlo.
    + split; [done|]. intros (_ & _ & _ & _ & _ & Hp). by apply Hlo in Hp.
  - split; [done|]. intros (_ & _ & _ & _ & Hp & _). by apply Hcb in Hp.
Qed.

Lemma isOIDCClientUpToDate_iff_witness :
  oidcclient.isOIDCClientUpToDate Examples.specAB
    (withRedirectURIs Examples.clientAB Examples.urlsBA) = true.
Proof.
  apply (isOIDCClientUpToDate_iff Examples.specAB
           (withRedirectURIs Examples.clientAB Examples.urlsBA));
    try (vm_compute; discriminate).
  split_and!; try reflexivity. apply perm_swap.
Defined.

(** ** The client: absence, lookup by name, membership *)

(** The shape shared by the three lookups by ID. *)
Lemma get_by_id_absent {T} (decode : pocketid.Body.t → error + T)
    (path msg1 msg2 : string) (E : Env) (w : World E) :
  outcome E
    (let* r := call (makeRequest "GET" path pocketid.NoBody) in
     match r with
     | inl err => Ret (inl (wrapError msg1 err))
     | inr resp =>
         if Z.eqb (pocketid.Response.StatusCode resp) pocketid.StatusNotFound
         then Ret (inr None)
         else
           match Client.checkResponse resp with
           | inl err => Ret (inl err)
           | inr body =>
               match decode body with
               | inl err => Ret (inl (wrapError msg2 err))
               | inr x => Ret (inr (Some x))
               end
           end
     end) w
  = Returned (inr None) ↔
  repliesNotFound E w "GET" path.
Proof.
  unfold repliesNotFound, outcome. cbn [run bind call].
  destruct (respond E _ w) as [[err|resp] w1]; cbn [run fst].
  { split; [done|]. by intros (? & ? & ?). }
  destruct (Z.eqb_spec (pocketid.Response.StatusCode resp)
              pocketid.StatusNotFound) as [Hc|Hc]; cbn [run fst].
  { split; [|done]. intros _. by exists resp. }
  split.
  - destruct (Client.checkResponse resp) as [?|body]; cbn [run fst]; [done|].
    by destruct (decode body).
  - intros (? & ? & ?). by simplify_eq.
Qed.

(** X4. A lookup by ID returns (nil, nil), absence without an error,
    exactly when the remote system answers the GET request with 404. *)
Theorem get_absent_iff_not_found (E : Env) (w : World E) :
  (∀ userID,
     outcome E (Client.GetUser userID) w = Returned (inr None) ↔
     repliesNotFound E w "GET" ("/api/users/" +:+ userID)) ∧
  (∀ groupID,
     outcome E (Client.GetGroup groupID) w = Returned (inr None) ↔
     repliesNotFound E w "GET" ("/api/groups/" +:+ groupID)) ∧
  (∀ clientID,
     outcome E (Client.GetOIDCClient clientID) w = Returned (inr None) ↔
     repliesNotFound E w "GET" ("/api/oidc/clients/" +:+ clientID)).
Proof.
  split_and!.
  - intros id. apply (get_by_id_absent pocketid.Body.asUser).
  - intros id. apply (get_by_id_absent pocketid.Body.asGroup).
  - intros id. apply (get_by_id_absent pocketid.Body.asOIDCClient).
Qed.

Lemma get_absent_iff_not_found_witness :
  outcome Examples.emptyRemote (Client.GetUser "u-1") () = Returned (inr None) ∧
  outcome Examples.emptyRemote (Client.GetGroup "g-1") () = Returned (inr None) ∧
  outcome Examples.emptyRemote (Client.GetOIDCClient "c-1") ()
  = Returned (inr None).
Proof.
  destruct (get_absent_iff_not_found Examples.emptyRemote ())
    as (Hu & Hg & Hc).
  exact (conj (proj2 (Hu _) (emptyRemote_not_found _ _))
           (conj (proj2 (Hg _) (emptyRemote_not_found _ _))
              (proj2 (Hc _) (emptyRemote_not_found _ _)))).
Defined.

Lemma find_first {A} (f : A → bool) (l : list A) :
  match List.find f l with
  | Some x => ∃ l1 l2, l = l1 ++ x :: l2 ∧ f x = true ∧ ∀ y, y ∈ l1 → f y = false
  | None => ∀ y, y ∈ l → f y = false
  end.
Proof.
  induction l as [|a l IH]; cbn.
  - intros y Hy. by apply elem_of_nil in Hy.
  - destruct (f a) eqn:Hfa.
    + exists [], l. split_and!; try done. intros y Hy.
      by apply elem_of_nil in Hy.
    + destruct (List.find f l) as [x|].
      * destruct IH as (l1 & l2 & -> & Hfx & Hl1).
        exists (a :: l1), l2. split_and!; try done.
        intros y [->|Hy]%elem_of_cons; auto.
      * intros y [->|Hy]%elem_of_cons; auto.
Qed.

(** The shape shared by the three lookups by name. *)
Lemma get_by_name_first {T} (list_all : Prog (error + list T))
    (name : T → string) (n : string) (E : Env) (w w1 : World E)
    (t : list Call) (r : error + list T) :
  run E list_all w = (Returned r, w1, t) →
  ∃ res,
    run E
      (let* r := list_all in
       match r with
       | inl err => Ret (inl err)
       | inr xs => Ret (inr (List.find (λ x, String.eqb (name x) n) xs))
       end) w
    = (Returned res, w1, t) ∧
    match r, res with
    | inl err, inl err' => err' = err
    | inr xs, inr (Some x) =>
        ∃ l1 l2, xs = l1 ++ x :: l2 ∧ name x = n ∧ ∀ y, y ∈ l1 → name y ≠ n
    | inr xs, inr None => ∀ y, y ∈ xs → name y ≠ n
    | _, _ => False
    end.
Proof.
  intros Hrun. rewrite run_bind, Hrun.
  destruct r as [err|xs]; cbn [run]; rewrite app_nil_r.
  - by exists (inl err).
  - eexists; split; [done|]. cbn.
    pose proof (find_first (λ x, String.eqb (name x) n) xs) as H.
    destruct (List.find _ xs) as [x|].
    + destruct H as (l1 & l2 & -> & Hx & Hl1). exists l1, l2.
      split_and!; try done; [by apply String.eqb_eq|].
      intros y Hy. by apply String.eqb_neq, Hl1.
    + intros y Hy. by apply String.eqb_neq, H.
Qed.

(** X5. A lookup by name lists all objects and returns the first one of
    that name in the listing; it returns nil exactly when no listed object
    has the name, and it returns an error of the listing as it is. *)
Theorem get_by_external_name_is_first_match
    (n : string) (E : Env) (w w1 : World E) (t : list Call) :
  (∀ r, run E Client.ListUsers w = (Returned r, w1, t) →
     ∃ res,
       run E (Client.GetUserByExternalName n) w = (Returned res, w1, t) ∧
       match r, res with
       | inl err, inl err' => err' = err
       | inr xs, inr (Some x) =>
           ∃ l1 l2, xs = l1 ++ x :: l2 ∧ pocketid.User.Username x = n ∧
             ∀ y, y ∈ l1 → pocketid.User.Username y ≠ n
       | inr xs, inr None => ∀ y, y ∈ xs → pocketid.User.Username y ≠ n
       | _, _ => False
       end) ∧
  (∀ r, run E Client.ListGroups w = (Returned r, w1, t) →
     ∃ res,
       run E (Client.GetGroupByExternalName n) w = (Returned res, w1, t) ∧
       match r, res with
       | inl err, inl err' => err' = err
       | inr xs, inr (Some x) =>
           ∃ l1 l2, xs = l1 ++ x :: l2 ∧ pocketid.Group.GroupName x = n ∧
             ∀ y, y ∈ l1 → pocketid.Group.GroupName y ≠ n
       | inr xs, inr None => ∀ y, y ∈ xs → pocketid.Group.GroupName y ≠ n
       | _, _ => False
       end) ∧
  (∀ r, run E Client.ListOIDCClients w = (Returned r, w1, t) →
     ∃ res,
       run E (Client.GetOIDCClientByExternalName n) w = (Returned res, w1, t) ∧
       match r, res with
       | inl err, inl err' => err' = err
       | inr xs, inr (Some x) =>
           ∃ l1 l2, xs = l1 ++ x :: l2 ∧ pocketid.OIDCClient.ClientName x = n ∧
             ∀ y, y ∈ l1 → pocketid.OIDCClient.ClientName y ≠ n
       | inr xs, inr None => ∀ y, y ∈ xs → pocketid.OIDCClient.ClientName y ≠ n
       | _, _ => False
       end).
Proof.
  split_and!; intros r Hrun.
  - by apply (get_by_name_first Client.ListUsers pocketid.User.Username).
  - by apply (get_by_name_first Client.ListGroups pocketid.Group.GroupName).
  - by apply (get_by_name_first Client.ListOIDCClients
                pocketid.OIDCClient.ClientName).
Qed.

Lemma get_by_external_name_is_first_match_witness :
  let users := [Examples.plainRoot; Examples.rootUser] in
  let E := Examples.fixedRemote 200 (Examples.usersBody users) in
  ∃ res,
    run E (Client.GetUserByExternalName "root") ()
    = (Returned res, (), [makeRequest "GET" "/api/users" pocketid.NoBody]) ∧
    match res with
    | inl _ => False
    | inr (Some x) =>
        ∃ l1 l2, users = l1 ++ x :: l2 ∧ pocketid.User.Username x = "root" ∧
          ∀ y, y ∈ l1 → pocketid.User.Username y ≠ "root"
    | inr None => ∀ y, y ∈ users → pocketid.User.Username y ≠ "root"
    end.
Proof.
  intros users E.
  apply (proj1 (get_by_external_name_is_first_match "root" E () ()
                  [makeRequest "GET" "/api/users" pocketid.NoBody])
           (inr users)).
  reflexivity.
Defined.

(** With two users of the same name listed, the first is returned. *)
Lemma lookup_returns_first_of_duplicates :
  outcome
    (Examples.fixedRemote 200
       (Examples.usersBody [Examples.plainRoot; Examples.rootUser]))
    (Client.GetUserByExternalName "root") ()
  = Returned (inr (Some Examples.plainRoot)).
Proof. reflexivity. Qed.

Lemma Contains_elem_of (s : list string) (v : string) :
  Client.Contains s v = bool_decide (v ∈ s).
Proof.
  unfold Client.Contains. induction s as [|x s IH]; cbn.
  - by rewrite bool_decide_eq_false_2 by apply not_elem_of_nil.
  - rewrite IH. destruct (String.eqb_spec v x) as [->|Hne]; cbn.
    + symmetry. apply bool_decide_eq_true_2. by left.
    + apply bool_decide_ext. rewrite elem_of_cons.
      split; [by right|]. by intros [?|?].
Qed.

(** X6. Membership is decided by name: a client (a user) is in a group when
    the group's name is among the group names the remote system lists for
    the client (the user). When the client (the user) does not exist the
    answer is false, without an error and without a request for the group;
    when the group does not exist the answer is false as well. *)
Theorem membership_by_group_name
    (E : Env) (w w1 w2 : World E) (t1 t2 : list Call) (memberID groupID : string) :
  (run E (Client.GetOIDCClient memberID) w = (Returned (inr None), w1, t1) →
   run E (Client.IsClientInGroup memberID groupID) w
   = (Returned (inr false), w1, t1)) ∧
  (∀ client og,
     run E (Client.GetOIDCClient memberID) w
     = (Returned (inr (Some client)), w1, t1) →
     run E (Client.GetGroup groupID) w1 = (Returned (inr og), w2, t2) →
     run E (Client.IsClientInGroup memberID groupID) w
     = (Returned (inr
          match og with
          | Some group =>
              bool_decide (pocketid.Group.GroupName group
                           ∈ pocketid.OIDCClient.GroupNames client)
          | None => false
          end), w2, t1 ++ t2)) ∧
  (run E (Client.GetUser memberID) w = (Returned (inr None), w1, t1) →
   run E (Client.IsUserInGroup memberID groupID) w
   = (Returned (inr false), w1, t1)) ∧
  (∀ user og,
     run E (Client.GetUser memberID) w = (Returned (inr (Some user)), w1, t1) →
     run E (Client.GetGroup groupID) w1 = (Returned (inr og), w2, t2) →
     run E (Client.IsUserInGroup memberID groupID) w
     = (Returned (inr
          match og with
          | Some group =>
              bool_decide (pocketid.Group.GroupName group
                           ∈ pocketid.User.UserGroups user)
          | None => false
          end), w2, t1 ++ t2)).
Proof.
  unfold Client.IsClientInGroup, Client.IsUserInGroup. split_and!.
  - intros H. rewrite run_bind, H. cbn. by rewrite app_nil_r.
  - intros client og H1 H2. rewrite run_bind, H1, run_bind, H2.
    destruct og as [group|]; cbn; rewrite ?app_nil_r; [|done].
    by rewrite Contains_elem_of.
  - intros H. rewrite run_bind, H. cbn. by rewrite app_nil_r.
  - intros user og H1 H2. rewrite run_bind, H1, run_bind, H2.
    destruct og as [group|]; cbn; rewrite ?app_nil_r; [|done].
    by rewrite Contains_elem_of.
Qed.

Lemma membership_by_group_name_witness :
  run Examples.emptyRemote (Client.IsClientInGroup "c-1" "g-123") ()
  = (Returned (inr false), (),
     [makeRequest "GET" "/api/oidc/clients/c-1" pocketid.NoBody]) ∧
  run (Examples.fixedRemote 200 Examples.clientAndGroupBody)
    (Client.IsClientInGroup "c-1" "g-123") ()
  = (Returned (inr true), (),
     [makeRequest "GET" "/api/oidc/clients/c-1" pocketid.NoBody;
      makeRequest "GET" "/api/groups/g-123" pocketid.NoBody]).
Proof.
  split.
  - exact (proj1 (membership_by_group_name Examples.emptyRemote () () ()
                    [makeRequest "GET" "/api/oidc/clients/c-1" pocketid.NoBody]
                    [] "c-1" "g-123") eq_refl).
  - exact (proj1 (proj2 (membership_by_group_name
                    (Examples.fixedRemote 200 Examples.clientAndGroupBody)
                    () () ()
                    [makeRequest "GET" "/api/oidc/clients/c-1" pocketid.NoBody]
                    [makeRequest "GET" "/api/groups/g-123" pocketid.NoBody]
                    "c-1" "g-123"))
             Examples.appClient (Some Examples.engGroup) eq_refl eq_refl).
Defined.

(** The shape shared by the two association methods. *)
Lemma add_to_group_ok (path msg : string) (E : Env) (w : World E) :
  outcome E
    (let* r := call (makeRequest "POST" path pocketid.NoBody) in
     match r with
     | inl err => Ret (Some (wrapError msg err))
     | inr resp => Ret (Client.checkResponse_err resp)
     end) w
  = Returned None ↔
  ∃ resp body,
    (respond E (makeRequest "POST" path pocketid.NoBody) w).1 = inr resp ∧
    pocketid.Response.StatusCode resp < 400 ∧
    pocketid.Response.Body resp = inr body.
Proof.
  unfold outcome. cbn [run bind call].
  destruct (respond E _ w) as [[err|resp] w1]; cbn [run fst].
  { split; [done|]. by intros (? & ? & ? & _). }
  unfold Client.checkResponse_err, Client.checkResponse.
  destruct (pocketid.Response.Body resp) as [err|body] eqn:Hb.
  { split; [done|]. intros (? & ? & ? & _ & ?). simplify_eq. congruence. }
  destruct (Z.geb_spec (pocketid.Response.StatusCode resp) 400).
  - split; [done|]. intros (? & ? & ? & ? & _). simplify_eq. lia.
  - split; [|done]. intros _. exists resp, body. split_and!; [done|lia|done].
Qed.

(** X7. Adding a member to a group succeeds exactly when the remote system
    answers the POST request with a status below 400 and a readable body.
    Unlike the removal, a 404 answer is an error. *)
Theorem add_to_group_success_iff
    (E : Env) (w : World E) (memberID groupID : string) :
  let userPath := "/api/users/" +:+ memberID +:+ "/groups/" +:+ groupID in
  let clientPath :=
    "/api/oidc/clients/" +:+ memberID +:+ "/groups/" +:+ groupID in
  (outcome E (Client.AddUserToGroup memberID groupID) w = Returned None ↔
   ∃ resp body,
     (respond E (makeRequest "POST" userPath pocketid.NoBody) w).1 = inr resp ∧
     pocketid.Response.StatusCode resp < 400 ∧
     pocketid.Response.Body resp = inr body) ∧
  (outcome E (Client.AddClientToGroup memberID groupID) w = Returned None ↔
   ∃ resp body,
     (respond E (makeRequest "POST" clientPath pocketid.NoBody) w).1 = inr resp ∧
     pocketid.Response.StatusCode resp < 400 ∧
     pocketid.Response.Body resp = inr body) ∧
  (repliesNotFound E w "POST" userPath →
   outcome E (Client.AddUserToGroup memberID groupID) w ≠ Returned None) ∧
  (repliesNotFound E w "POST" clientPath →
   outcome E (Client.AddClientToGroup memberID groupID) w ≠ Returned None).
Proof.
  intros userPath clientPath.
  pose proof (add_to_group_ok userPath "failed to add user to group" E w)
    as Hu.
  pose proof (add_to_group_ok clientPath "failed to add client to group" E w)
    as Hc.
  split_and!; [exact Hu|exact Hc|..].
  - intros (resp & Hr & Hcode) Hok.
    destruct (proj1 Hu Hok) as (resp' & body & Hr' & Hlt & _).
    rewrite Hr in Hr'. simplify_eq. rewrite Hcode in Hlt. done.
  - intros (resp & Hr & Hcode) Hok.
    destruct (proj1 Hc Hok) as (resp' & body & Hr' & Hlt & _).
    rewrite Hr in Hr'. simplify_eq. rewrite Hcode in Hlt. done.
Qed.

Lemma add_to_group_success_iff_witness :
  outcome Examples.emptyRemote (Client.AddUserToGroup "u-1" "g-123") ()
  ≠ Returned None ∧
  outcome Examples.emptyRemote (Client.AddClientToGroup "c-1" "g-123") ()
  ≠ Returned None.
Proof.
  destruct (add_to_group_success_iff Examples.emptyRemote () "u-1" "g-123")
    as (_ & _ & Hu & _).
  destruct (add_to_group_success_iff Examples.emptyRemote () "c-1" "g-123")
    as (_ & _ & _ & Hc).
  exact (conj (Hu (emptyRemote_not_found _ _)) (Hc (emptyRemote_not_found _ _))).
Defined.

(** The error of an association answered with 404. *)
Lemma add_to_group_not_found_error :
  outcome Examples.emptyRemote (Client.AddClientToGroup "c-1" "g-123") ()
  = Returned (Some (errorString "API error: HTTP 404 - ")).
Proof. vm_compute. reflexivity. Qed.

(** ** The upload of a logo *)

(** X8. The upload of a logo does nothing and succeeds for an empty URL.
    For any other URL it downloads the logo first and sends it on only when
    the download succeeded, the data is at most 2 MiB long and the URL has
    one of the image extensions; the file sent is the one downloaded. When
    it does not send the file it returns an error. *)
Theorem upload_logo_guards
    (ToLower : string → string) (clientID logoURL : string)
    (E : Env) (w : World E) :
  let p := Client.UploadOIDCClientLogo ToLower clientID logoURL in
  (logoURL = "" → run E p w = (Returned None, w, [])) ∧
  (logoURL ≠ "" →
   (calls E p w = [downloadFile logoURL] ∧
    ∃ err, outcome E p w = Returned (Some err)) ∨
   (∃ data filename,
      (respond E (downloadFile logoURL) w).1 = inr (data, filename) ∧
      Z.of_nat (length data) ≤ 2 * 1024 * 1024 ∧
      Client.isValidImageExtension ToLower logoURL = true ∧
      calls E p w
      = [downloadFile logoURL;
         uploadFile ("/api/oidc/clients/" +:+ clientID +:+ "/logo")
           data filename])).
Proof.
  intros p. subst p. unfold Client.UploadOIDCClientLogo, calls, outcome. split.
  - intros ->. done.
  - intros Hne. apply String.eqb_neq in Hne. rewrite Hne.
    cbn [run bind call].
    destruct (respond E (downloadFile logoURL) w) as [[err|[data filename]] w1];
      cbn [run bind fst snd].
    { left. eauto. }
    destruct (Z.gtb_spec (Z.of_nat (length data)) (2 * 1024 * 1024));
      cbn [run bind fst snd].
    { left. eauto. }
    destruct (Client.isValidImageExtension ToLower logoURL) eqn:Hext;
      cbn [negb run bind fst snd].
    2: { left. eauto. }
    right. exists data, filename. split_and!; try done.
    destruct (respond E (uploadFile _ data filename) w1) as [[err|resp] w2];
      done.
Qed.

Lemma upload_logo_guards_witness :
  let p := Client.UploadOIDCClientLogo id "c-1" "https://app.example/logo.png" in
  (calls Examples.emptyRemote p ()
   = [downloadFile "https://app.example/logo.png"] ∧
   ∃ err, outcome Examples.emptyRemote p () = Returned (Some err)) ∨
  (∃ data filename,
     (respond Examples.emptyRemote
        (downloadFile "https://app.example/logo.png") ()).1
     = inr (data, filename) ∧
     Z.of_nat (length data) ≤ 2 * 1024 * 1024 ∧
     Client.isValidImageExtension id "https://app.example/logo.png" = true ∧
     calls Examples.emptyRemote p ()
     = [downloadFile "https://app.example/logo.png";
        uploadFile ("/api/oidc/clients/" +:+ "c-1" +:+ "/logo") data filename]).
Proof.
  intros p.
  apply (proj2 (upload_logo_guards id "c-1" "https://app.example/logo.png"
                  Examples.emptyRemote ())).
  discriminate.
Defined.

(** ** Observe *)

Ltac unfold_observe :=
  unfold adminuser.Observe, group.Observe, oidcclient.Observe,
    clientgroupbinding.Observe, clientgroupbinding.resolveClientID,
    clientgroupbinding.resolveGroupID,
    Client.GetUserByExternalName, Client.ListUsers,
    Client.GetGroupByExternalName, Client.ListGroups,
    Client.GetOIDCClientByExternalName, Client.ListOIDCClients,
    Client.IsClientInGroup, Client.GetOIDCClient, Client.GetGroup.

(** X9. Observe only reads: every call it makes, for every kind of
    resource and whatever the replies, is a GET request without a body or a
    read of the cluster. *)
Theorem observe_only_reads (mg : Managed) (E : Env) (w : World E) :
  Forall (λ c, isRead c = true) (calls E (adminuser.Observe mg) w) ∧
  Forall (λ c, isRead c = true) (calls E (group.Observe mg) w) ∧
  Forall (λ c, isRead c = true) (calls E (oidcclient.Observe mg) w) ∧
  Forall (λ c, isRead c = true) (calls E (clientgroupbinding.Observe mg) w).
Proof.
  split_and!;
    apply (wp_run _ (λ t _, Forall (λ c, isRead c = true) t));
    destruct mg; unfold_observe; wp_cases; by repeat constructor.
Qed.

(** X10. Observe writes to the resource only when it reports that the
    remote object exists: when it fails, or reports absence, the resource it
    leaves is the resource it was given. *)
Theorem observe_writes_only_on_existence
    (mg mg1 : Managed) (E : Env) (w : World E)
    (r : error + managed.ExternalObservation.t) :
  (∀ obs, r = inr obs → managed.ExternalObservation.ResourceExists obs = false) →
  (outcome E (adminuser.Observe mg) w = Returned (mg1, r) → mg1 = mg) ∧
  (outcome E (group.Observe mg) w = Returned (mg1, r) → mg1 = mg) ∧
  (outcome E (oidcclient.Observe mg) w = Returned (mg1, r) → mg1 = mg) ∧
  (outcome E (clientgroupbinding.Observe mg) w = Returned (mg1, r) → mg1 = mg).
Proof.
  intros Habs.
  split_and!;
    apply (wp_run _ (λ _ o, o = Returned (mg1, r) → mg1 = mg));
    destruct mg; unfold_observe; wp_cases; simplify_eq; try done;
    by specialize (Habs _ eq_refl).
Qed.

Lemma observe_writes_only_on_existence_witness :
  let E := Examples.fixedRemote 200 (Examples.usersBody []) in
  let absent := inr (managed.ExternalObservation.mk false false) in
  ∃ mg1,
    outcome E (adminuser.Observe (AdminUserMR Examples.rootCR)) ()
    = Returned (mg1, absent) ∧
    mg1 = AdminUserMR Examples.rootCR.
Proof.
  intros E absent. eexists. split; [reflexivity|].
  refine (proj1 (observe_writes_only_on_existence
                   (AdminUserMR Examples.rootCR) _ E () absent _) eq_refl).
  intros obs [= <-]. reflexivity.
Defined.

Lemma GetExternalName_SetExternalName (om : metav1.ObjectMeta.t) (n : string) :
  meta.GetExternalName (meta.SetExternalName om n) = n.
Proof.
  unfold meta.GetExternalName, meta.SetExternalName. cbn.
  by rewrite lookup_insert_eq.
Qed.

Lemma SetConditions_elem (cs : list xpv1.Condition.t) (c : xpv1.Condition.t) :
  c ∈ xpv1.SetConditions cs c.
Proof.
  unfold xpv1.SetConditions. cbv zeta.
  destruct (existsb _ cs) eqn:Hex.
  - apply existsb_exists in Hex as (c0 & Hin & Hty).
    apply list_elem_of_In in Hin.
    apply list_elem_of_fmap. exists c0. by rewrite Hty.
  - apply elem_of_app. right. by apply list_elem_of_singleton.
Qed.

(** X11. First observation. When the resource has no external name yet,
    Observe looks the remote object up under the name declared in the spec;
    when it finds it (for an admin user: with the admin flag), it records
    the remote object's name as external name, copies the observed fields
    into the status, sets the Available condition, leaves the spec as it
    was, and reports the answer of the drift detector. *)
Theorem first_observation_adopts (E : Env) (w w1 : World E) (t : list Call) :
  (∀ cr user,
     meta.GetExternalName (v1alpha1.AdminUser.ObjectMeta cr) = "" →
     run E (Client.GetUserByExternalName
              (v1alpha1.AdminUserParameters.Username
                 (v1alpha1.AdminUser.ForProvider cr))) w
     = (Returned (inr (Some user)), w1, t) →
     pocketid.User.IsAdmin user = true →
     ∃ cr1,
       run E (adminuser.Observe (AdminUserMR cr)) w
       = (Returned (AdminUserMR cr1,
                    inr (managed.ExternalObservation.mk true
                           (adminuser.isAdminUserUpToDate
                              (v1alpha1.AdminUser.ForProvider cr) user))),
          w1, t) ∧
       meta.GetExternalName (v1alpha1.AdminUser.ObjectMeta cr1)
       = pocketid.User.Username user ∧
       v1alpha1.AdminUser.ForProvider cr1 = v1alpha1.AdminUser.ForProvider cr ∧
       v1alpha1.AdminUser.AtProvider cr1
       = v1alpha1.AdminUserObservation.mk
           (pocketid.User.ID user) (pocketid.User.Username user)
           (pocketid.User.Email user) (pocketid.User.FirstName user)
           (pocketid.User.LastName user) (pocketid.User.Locale user)
           (pocketid.User.Disabled user) true
           (pocketid.User.UserGroups user) (pocketid.User.CustomClaims user) ∧
       xpv1.Available ∈ v1alpha1.AdminUser.Conditions cr1) ∧
  (∀ cr group,
     meta.GetExternalName (v1alpha1.Group.ObjectMeta cr) = "" →
     run E (Client.GetGroupByExternalName
              (v1alpha1.GroupParameters.Name (v1alpha1.Group.ForProvider cr))) w
     = (Returned (inr (Some group)), w1, t) →
     ∃ cr1,
       run E (group.Observe (GroupMR cr)) w
       = (Returned (GroupMR cr1,
                    inr (managed.ExternalObservation.mk true
                           (group.isGroupUpToDate
                              (v1alpha1.Group.ForProvider cr) group))),
          w1, t) ∧
       meta.GetExternalName (v1alpha1.Group.ObjectMeta cr1)
       = pocketid.Group.GroupName group ∧
       v1alpha1.Group.ForProvider cr1 = v1alpha1.Group.ForProvider cr ∧
       v1alpha1.Group.AtProvider cr1
       = v1alpha1.GroupObservation.mk
           (pocketid.Group.ID group) (pocketid.Group.GroupName group)
           (pocketid.Group.FriendlyName group) ""
           (pocketid.Group.CustomClaims group) ∧
       xpv1.Available ∈ v1alpha1.Group.Conditions cr1) ∧
  (∀ cr client,
     meta.GetExternalName (v1alpha1.OIDCClient.ObjectMeta cr) = "" →
     run E (Client.GetOIDCClientByExternalName
              (v1alpha1.OIDCClientParameters.Name
                 (v1alpha1.OIDCClient.ForProvider cr))) w
     = (Returned (inr (Some client)), w1, t) →
     ∃ cr1,
       run E (oidcclient.Observe (OIDCClientMR cr)) w
       = (Returned (OIDCClientMR cr1,
                    inr (managed.ExternalObservation.mk true
                           (oidcclient.isOIDCClientUpToDate
                              (v1alpha1.OIDCClient.ForProvider cr) client))),
          w1, t) ∧
       meta.GetExternalName (v1alpha1.OIDCClient.ObjectMeta cr1)
       = pocketid.OIDCClient.ClientName client ∧
       v1alpha1.OIDCClient.ForProvider cr1
       = v1alpha1.OIDCClient.ForProvider cr ∧
       v1alpha1.OIDCClient.AtProvider cr1
       = v1alpha1.OIDCClientObservation.mk
           (pocketid.OIDCClient.ID client) (pocketid.OIDCClient.ClientName client)
           (pocketid.OIDCClient.RedirectURIs client)
           (pocketid.OIDCClient.PostLogoutURIs client)
           (pocketid.OIDCClient.LaunchURL client)
           (pocketid.OIDCClient.IsPublic client)
           (pocketid.OIDCClient.RequirePKCE client) false ""
           (pocketid.OIDCClient.HasLogo client)
           (v1alpha1.OIDCClientCredentials.mk []) ∧
       xpv1.Available ∈ v1alpha1.OIDCClient.Conditions cr1).
Proof.
  split_and!.
  - intros cr user Hext Hrun Hadmin. eexists.
    unfold adminuser.Observe. cbv zeta.
    rewrite Hext. cbn [String.eqb]. rewrite run_bind, Hrun, Hadmin.
    cbn [negb run app]. rewrite app_nil_r. split; [reflexivity|]. cbn.
    split_and!; try done.
    + apply GetExternalName_SetExternalName.
    + apply SetConditions_elem.
  - intros cr g Hext Hrun. eexists.
    unfold group.Observe. cbv zeta.
    rewrite Hext. cbn [String.eqb]. rewrite run_bind, Hrun.
    cbn [run app]. rewrite app_nil_r. split; [reflexivity|]. cbn.
    split_and!; try done.
    + apply GetExternalName_SetExternalName.
    + apply SetConditions_elem.
  - intros cr c Hext Hrun. eexists.
    unfold oidcclient.Observe. cbv zeta.
    rewrite Hext. cbn [String.eqb]. rewrite run_bind, Hrun.
    cbn [run app]. rewrite app_nil_r. split; [reflexivity|]. cbn.
    split_and!; try done.
    + apply GetExternalName_SetExternalName.
    + apply SetConditions_elem.
Qed.

Lemma first_observation_adopts_witness :
  let E := Examples.fixedRemote 200 (Examples.usersBody [Examples.rootUser]) in
  ∃ cr1,
    run E (adminuser.Observe (AdminUserMR Examples.rootCR)) ()
    = (Returned (AdminUserMR cr1,
                 inr (managed.ExternalObservation.mk true
                        (adminuser.isAdminUserUpToDate
                           (v1alpha1.AdminUser.ForProvider Examples.rootCR)
                           Examples.rootUser))),
       (), [makeRequest "GET" "/api/users" pocketid.NoBody]) ∧
    meta.GetExternalName (v1alpha1.AdminUser.ObjectMeta cr1) = "root" ∧
    v1alpha1.AdminUser.ForProvider cr1
    = v1alpha1.AdminUser.ForProvider Examples.rootCR ∧
    v1alpha1.AdminUser.AtProvider cr1
    = v1alpha1.AdminUserObservation.mk "u-1" "root" "root@example.org" "Root"
        "" "" false true [] ∅ ∧
    xpv1.Available ∈ v1alpha1.AdminUser.Conditions cr1.
Proof.
  intros E.
  exact (proj1 (first_observation_adopts E () ()
                  [makeRequest "GET" "/api/users" pocketid.NoBody])
           Examples.rootCR Examples.rootUser eq_refl eq_refl eq_refl).
Defined.

(** ** Update and Delete *)

(** X12. Update, for a resource with a status ID, sends the declared
    fields in a PUT request to the object of that ID (not of the external
    name); for an admin user and a group that is its only call, for an OIDC
    client its first. Whatever the outcome, Update returns the resource as
    it was given: nothing of the reply is written to it. *)
Theorem update_sends_spec_to_status_id
    (ToLower : string → string) (E : Env) (w : World E) :
  (∀ cr,
     let id := v1alpha1.AdminUserObservation.ID
                 (v1alpha1.AdminUser.AtProvider cr) in
     id ≠ "" →
     calls E (adminuser.Update (AdminUserMR cr)) w
     = [makeRequest "PUT" ("/api/users/" +:+ id)
          (pocketid.UpdateUserBody
             (adminUserUpdateRequest (v1alpha1.AdminUser.ForProvider cr)))] ∧
     ∃ r, outcome E (adminuser.Update (AdminUserMR cr)) w
          = Returned (AdminUserMR cr, r)) ∧
  (∀ cr,
     let id := v1alpha1.GroupObservation.ID (v1alpha1.Group.AtProvider cr) in
     id ≠ "" →
     calls E (group.Update (GroupMR cr)) w
     = [makeRequest "PUT" ("/api/groups/" +:+ id)
          (pocketid.UpdateGroupBody
             (groupUpdateRequest (v1alpha1.Group.ForProvider cr)))] ∧
     ∃ r, outcome E (group.Update (GroupMR cr)) w = Returned (GroupMR cr, r)) ∧
  (∀ cr,
     let id := v1alpha1.OIDCClientObservation.ID
                 (v1alpha1.OIDCClient.AtProvider cr) in
     id ≠ "" →
     (∃ rest,
        calls E (oidcclient.Update ToLower (OIDCClientMR cr)) w
        = makeRequest "PUT" ("/api/oidc/clients/" +:+ id)
            (pocketid.UpdateOIDCClientBody
               (oidcClientUpdateRequest (v1alpha1.OIDCClient.ForProvider cr)))
          :: rest) ∧
     ∃ r, outcome E (oidcclient.Update ToLower (OIDCClientMR cr)) w
          = Returned (OIDCClientMR cr, r)).
Proof.
  split_and!.
  - intros cr id Hid. apply String.eqb_neq in Hid.
    apply (wp_run (adminuser.Update (AdminUserMR cr)) (λ t o,
      t = [makeRequest "PUT" ("/api/users/" +:+ id)
             (pocketid.UpdateUserBody
                (adminUserUpdateRequest (v1alpha1.AdminUser.ForProvider cr)))] ∧
      ∃ r, o = Returned (AdminUserMR cr, r))).
    unfold adminuser.Update, Client.UpdateUser. cbv zeta. fold id.
    rewrite Hid. wp_cases; eauto.
  - intros cr id Hid. apply String.eqb_neq in Hid.
    apply (wp_run (group.Update (GroupMR cr)) (λ t o,
      t = [makeRequest "PUT" ("/api/groups/" +:+ id)
             (pocketid.UpdateGroupBody
                (groupUpdateRequest (v1alpha1.Group.ForProvider cr)))] ∧
      ∃ r, o = Returned (GroupMR cr, r))).
    unfold group.Update, Client.UpdateGroup. cbv zeta. fold id.
    rewrite Hid. wp_cases; eauto.
  - intros cr id Hid. apply String.eqb_neq in Hid.
    apply (wp_run (oidcclient.Update ToLower (OIDCClientMR cr)) (λ t o,
      (∃ rest,
         t = makeRequest "PUT" ("/api/oidc/clients/" +:+ id)
               (pocketid.UpdateOIDCClientBody
                  (oidcClientUpdateRequest (v1alpha1.OIDCClient.ForProvider cr)))
             :: rest) ∧
      ∃ r, o = Returned (OIDCClientMR cr, r))).
    unfold oidcclient.Update, Client.UpdateOIDCClient,
      Client.UploadOIDCClientLogo. cbv zeta. fold id.
    rewrite Hid. wp_cases; eauto.
Qed.

Lemma update_sends_spec_to_status_id_witness :
  calls Examples.emptyRemote
    (adminuser.Update (AdminUserMR Examples.renamedCR)) ()
  = [makeRequest "PUT" "/api/users/u-1"
       (pocketid.UpdateUserBody
          (adminUserUpdateRequest
             (v1alpha1.AdminUser.ForProvider Examples.renamedCR)))] ∧
  ∃ r, outcome Examples.emptyRemote
         (adminuser.Update (AdminUserMR Examples.renamedCR)) ()
       = Returned (AdminUserMR Examples.renamedCR, r).
Proof.
  apply (proj1 (update_sends_spec_to_status_id id Examples.emptyRemote ())
           Examples.renamedCR).
  discriminate.
Defined.

(** X13. Delete, for a resource with a status ID (for a binding: with both
    IDs given literally), makes exactly one call, the DELETE request for
    that ID, and returns the resource as it was given; when the remote
    system answers 404 it returns success. *)
Theorem delete_sends_one_request (E : Env) (w : World E) :
  (∀ cr,
     let id := v1alpha1.AdminUserObservation.ID
                 (v1alpha1.AdminUser.AtProvider cr) in
     let p := adminuser.Delete (AdminUserMR cr) in
     id ≠ "" →
     calls E p w = [makeRequest "DELETE" ("/api/users/" +:+ id) pocketid.NoBody] ∧
     (∃ r, outcome E p w = Returned (AdminUserMR cr, r)) ∧
     (repliesNotFound E w "DELETE" ("/api/users/" +:+ id) →
      outcome E p w = Returned (AdminUserMR cr, inr managed.ExternalDelete.mk))) ∧
  (∀ cr,
     let id := v1alpha1.GroupObservation.ID (v1alpha1.Group.AtProvider cr) in
     let p := group.Delete (GroupMR cr) in
     id ≠ "" →
     calls E p w = [makeRequest "DELETE" ("/api/groups/" +:+ id) pocketid.NoBody] ∧
     (∃ r, outcome E p w = Returned (GroupMR cr, r)) ∧
     (repliesNotFound E w "DELETE" ("/api/groups/" +:+ id) →
      outcome E p w = Returned (GroupMR cr, inr managed.ExternalDelete.mk))) ∧
  (∀ cr,
     let id := v1alpha1.OIDCClientObservation.ID
                 (v1alpha1.OIDCClient.AtProvider cr) in
     let p := oidcclient.Delete (OIDCClientMR cr) in
     id ≠ "" →
     calls E p w
     = [makeRequest "DELETE" ("/api/oidc/clients/" +:+ id) pocketid.NoBody] ∧
     (∃ r, outcome E p w = Returned (OIDCClientMR cr, r)) ∧
     (repliesNotFound E w "DELETE" ("/api/oidc/clients/" +:+ id) →
      outcome E p w = Returned (OIDCClientMR cr, inr managed.ExternalDelete.mk))) ∧
  (∀ cr,
     let spec := v1alpha1.OIDCClientGroupBinding.ForProvider cr in
     let clientID := v1alpha1.OIDCClientGroupBindingParameters.ClientID spec in
     let groupID := v1alpha1.OIDCClientGroupBindingParameters.GroupID spec in
     let path := "/api/oidc/clients/" +:+ clientID +:+ "/groups/" +:+ groupID in
     let p := clientgroupbinding.Delete (OIDCClientGroupBindingMR cr) in
     clientID ≠ "" → groupID ≠ "" →
     calls E p w = [makeRequest "DELETE" path pocketid.NoBody] ∧
     (∃ r, outcome E p w = Returned (OIDCClientGroupBindingMR cr, r)) ∧
     (repliesNotFound E w "DELETE" path →
      outcome E p w
      = Returned (OIDCClientGroupBindingMR cr, inr managed.ExternalDelete.mk))).
Proof.
  pose proof (controllers_delete_what_is_gone E w) as (Hu & Hg & Hc & Hb).
  split_and!.
  - intros cr id p Hid. split_and!; [| |by apply Hu].
    all: apply String.eqb_neq in Hid; subst p.
    + apply (wp_run _ (λ t _,
        t = [makeRequest "DELETE" ("/api/users/" +:+ id) pocketid.NoBody])).
      unfold adminuser.Delete, Client.DeleteUser. cbv zeta. fold id.
      rewrite Hid. cbn [negb]. wp_cases; eauto.
    + apply (wp_run _ (λ _ o, ∃ r, o = Returned (AdminUserMR cr, r))).
      unfold adminuser.Delete, Client.DeleteUser. cbv zeta. fold id.
      rewrite Hid. cbn [negb]. wp_cases; eauto.
  - intros cr id p Hid. split_and!; [| |by apply Hg].
    all: apply String.eqb_neq in Hid; subst p.
    + apply (wp_run _ (λ t _,
        t = [makeRequest "DELETE" ("/api/groups/" +:+ id) pocketid.NoBody])).
      unfold group.Delete, Client.DeleteGroup. cbv zeta. fold id.
      rewrite Hid. cbn [negb]. wp_cases; eauto.
    + apply (wp_run _ (λ _ o, ∃ r, o = Returned (GroupMR cr, r))).
      unfold group.Delete, Client.DeleteGroup. cbv zeta. fold id.
      rewrite Hid. cbn [negb]. wp_cases; eauto.
  - intros cr id p Hid. split_and!; [| |by apply Hc].
    all: apply String.eqb_neq in Hid; subst p.
    + apply (wp_run _ (λ t _,
        t = [makeRequest "DELETE" ("/api/oidc/clients/" +:+ id)
               pocketid.NoBody])).
      unfold oidcclient.Delete, Client.DeleteOIDCClient. cbv zeta. fold id.
      rewrite Hid. cbn [negb]. wp_cases; eauto.
    + apply (wp_run _ (λ _ o, ∃ r, o = Returned (OIDCClientMR cr, r))).
      unfold oidcclient.Delete, Client.DeleteOIDCClient. cbv zeta. fold id.
      rewrite Hid. cbn [negb]. wp_cases; eauto.
  - intros cr spec clientID groupID path p Hcid Hgid.
    split_and!; [| |by apply Hb].
    all: apply String.eqb_neq in Hcid, Hgid; subst p.
    + apply (wp_run _ (λ t _, t = [makeRequest "DELETE" path pocketid.NoBody])).
      unfold clientgroupbinding.Delete, clientgroupbinding.resolveClientID,
        clientgroupbinding.resolveGroupID, Client.RemoveClientFromGroup.
      cbv zeta. fold spec. fold clientID. fold groupID.
      rewrite Hcid, Hgid. cbn [negb]. wp_cases; eauto.
    + apply (wp_run _ (λ _ o, ∃ r, o = Returned (OIDCClientGroupBindingMR cr, r))).
      unfold clientgroupbinding.Delete, clientgroupbinding.resolveClientID,
        clientgroupbinding.resolveGroupID, Client.RemoveClientFromGroup.
      cbv zeta. fold spec. fold clientID. fold groupID.
      rewrite Hcid, Hgid. cbn [negb]. wp_cases; eauto.
Qed.

Lemma delete_sends_one_request_witness :
  let p := adminuser.Delete (AdminUserMR Examples.renamedCR) in
  calls Examples.emptyRemote p ()
  = [makeRequest "DELETE" "/api/users/u-1" pocketid.NoBody] ∧
  outcome Examples.emptyRemote p ()
  = Returned (AdminUserMR Examples.renamedCR, inr managed.ExternalDelete.mk).
Proof.
  intros p.
  destruct (proj1 (delete_sends_one_request Examples.emptyRemote ())
              Examples.renamedCR ltac:(discriminate)) as (Hcalls & _ & Hok).
  exact (conj Hcalls (Hok (emptyRemote_not_found _ _))).
Defined.

(** ** Create *)

(** X14. When the remote system has created the OIDC client, Create
    succeeds whatever the upload of the logo does. The resource it leaves is
    the given one with the client name the remote system returned set as
    external name: the rest of the metadata, the spec, the status and the
    conditions are as they were. The upload is run exactly when LogoURL is
    set. The client secret is published as connection detail [clientSecret]
    exactly when the client is not public and the secret is not empty; a
    public client publishes nothing. *)
Theorem create_oidc_client_details
    (ToLower : string → string) (cr : v1alpha1.OIDCClient.t)
    (client : pocketid.OIDCClient.t)
    (E : Env) (w w1 : World E) (t1 : list Call) :
  run E (Client.CreateOIDCClient
           (oidcClientCreateRequest (v1alpha1.OIDCClient.ForProvider cr))) w
  = (Returned (inr (Some client)), w1, t1) →
  let logoURL :=
    v1alpha1.OIDCClientParameters.LogoURL (v1alpha1.OIDCClient.ForProvider cr) in
  ∃ cr1 w2 t2,
    run E (oidcclient.Create ToLower (OIDCClientMR cr)) w
    = (Returned (OIDCClientMR cr1,
                 inr (managed.ExternalCreation.mk
                        (if negb (pocketid.OIDCClient.IsPublic client)
                            && negb (String.eqb
                                       (pocketid.OIDCClient.ClientSecret client) "")
                         then {["clientSecret"
                                := pocketid.OIDCClient.ClientSecret client]}
                         else ∅))),
       w2, t1 ++ t2) ∧
    cr1 = v1alpha1.OIDCClient.mk
            (meta.SetExternalName (v1alpha1.OIDCClient.ObjectMeta cr)
               (pocketid.OIDCClient.ClientName client))
            (v1alpha1.OIDCClient.ForProvider cr)
            (v1alpha1.OIDCClient.AtProvider cr)
            (v1alpha1.OIDCClient.Conditions cr) ∧
    (logoURL = "" → w2 = w1 ∧ t2 = []) ∧
    (logoURL ≠ "" →
     ∃ o, run E (Client.UploadOIDCClientLogo ToLower
                   (pocketid.OIDCClient.ID client) logoURL) w1
          = (o, w2, t2)) ∧
    meta.GetExternalName (v1alpha1.OIDCClient.ObjectMeta cr1)
    = pocketid.OIDCClient.ClientName client ∧
    v1alpha1.OIDCClient.ForProvider cr1 = v1alpha1.OIDCClient.ForProvider cr ∧
    v1alpha1.OIDCClient.AtProvider cr1 = v1alpha1.OIDCClient.AtProvider cr ∧
    v1alpha1.OIDCClient.Conditions cr1 = v1alpha1.OIDCClient.Conditions cr.
Proof.
  intros Hrun logoURL. unfold oidcclient.Create. cbv zeta.
  change (pocketid.CreateOIDCClientRequest.mk _ _ _ _ _ _ _ _ _ _ _ _)
    with (oidcClientCreateRequest (v1alpha1.OIDCClient.ForProvider cr)).
  rewrite run_bind, Hrun. fold logoURL.
  destruct (String.eqb_spec logoURL "") as [Hlogo|Hlogo]; cbn [negb].
  - eexists _, w1, []. split; [reflexivity|]. split; [reflexivity|]. cbn.
    split_and!; try done. apply GetExternalName_SetExternalName.
  - rewrite run_bind.
    destruct (run E (Client.UploadOIDCClientLogo _ _ _) w1)
      as [[[e|] w2] t2] eqn:Hup.
    + eexists _, w2, (t2 ++ []). split; [reflexivity|].
      split; [reflexivity|]. rewrite app_nil_r. cbn.
      split_and!; try done; [by eexists|].
      apply GetExternalName_SetExternalName.
    + exfalso.
      pose proof (wp_run (Client.UploadOIDCClientLogo ToLower
                            (pocketid.OIDCClient.ID client) logoURL)
                    (λ _ o, o ≠ Panicked)) as Hnp.
      assert (wp (Client.UploadOIDCClientLogo ToLower
                    (pocketid.OIDCClient.ID client) logoURL)
                (λ _ o, o ≠ Panicked)) as Hwp.
      { unfold Client.UploadOIDCClientLogo. wp_cases; done. }
      specialize (Hnp Hwp E w1). unfold outcome in Hnp.
      rewrite Hup in Hnp. by apply Hnp.
Qed.

Lemma create_oidc_client_details_witness :
  let E := Examples.fixedRemote 200 MoreExamples.secretClientBody in
  let cr := Examples.logoCR in
  let logoURL :=
    v1alpha1.OIDCClientParameters.LogoURL (v1alpha1.OIDCClient.ForProvider cr) in
  ∃ cr1 w2 t2,
    run E (oidcclient.Create id (OIDCClientMR cr)) ()
    = (Returned (OIDCClientMR cr1,
                 inr (managed.ExternalCreation.mk
                        {["clientSecret" := "s3cr3t"]})),
       w2,
       [makeRequest "POST" "/api/oidc/clients"
          (pocketid.CreateOIDCClientBody
             (oidcClientCreateRequest (v1alpha1.OIDCClient.ForProvider cr)))]
       ++ t2) ∧
    cr1 = v1alpha1.OIDCClient.mk
            (meta.SetExternalName (v1alpha1.OIDCClient.ObjectMeta cr) "app")
            (v1alpha1.OIDCClient.ForProvider cr)
            (v1alpha1.OIDCClient.AtProvider cr)
            (v1alpha1.OIDCClient.Conditions cr) ∧
    (logoURL = "" → w2 = () ∧ t2 = []) ∧
    (logoURL ≠ "" →
     ∃ o, run E (Client.UploadOIDCClientLogo id "c-9" logoURL) ()
          = (o, w2, t2)) ∧
    meta.GetExternalName (v1alpha1.OIDCClient.ObjectMeta cr1) = "app" ∧
    v1alpha1.OIDCClient.ForProvider cr1 = v1alpha1.OIDCClient.ForProvider cr ∧
    v1alpha1.OIDCClient.AtProvider cr1 = v1alpha1.OIDCClient.AtProvider cr ∧
    v1alpha1.OIDCClient.Conditions cr1 = v1alpha1.OIDCClient.Conditions cr.
Proof.
  intros E cr logoURL.
  exact (create_oidc_client_details id cr MoreExamples.secretClient E () () _
           eq_refl).
Defined.

(** X15. When the remote system has created the user (the group), Create
    leaves the given resource with the name the remote system returned, not
    the declared one, set as external name: the rest of the metadata, the
    spec, the status and the conditions are as they were. When that returned
    name is not empty, a later Observe looks the object up under it, and
    reports absence, leaving the resource as it is, when no listed object
    has it. *)
Theorem create_records_remote_name (E : Env) (w w1 : World E) (t1 : list Call) :
  (∀ cr user,
     run E (Client.CreateUser
              (adminUserCreateRequest (v1alpha1.AdminUser.ForProvider cr))) w
     = (Returned (inr (Some user)), w1, t1) →
     ∃ cr1,
       run E (adminuser.Create (AdminUserMR cr)) w
       = (Returned (AdminUserMR cr1, inr (managed.ExternalCreation.mk ∅)),
          w1, t1) ∧
       cr1 = v1alpha1.AdminUser.mk
               (meta.SetExternalName (v1alpha1.AdminUser.ObjectMeta cr)
                  (pocketid.User.Username user))
               (v1alpha1.AdminUser.ForProvider cr)
               (v1alpha1.AdminUser.AtProvider cr)
               (v1alpha1.AdminUser.Conditions cr) ∧
       meta.GetExternalName (v1alpha1.AdminUser.ObjectMeta cr1)
       = pocketid.User.Username user ∧
       v1alpha1.AdminUser.ForProvider cr1 = v1alpha1.AdminUser.ForProvider cr ∧
       v1alpha1.AdminUser.AtProvider cr1 = v1alpha1.AdminUser.AtProvider cr ∧
       v1alpha1.AdminUser.Conditions cr1 = v1alpha1.AdminUser.Conditions cr ∧
       (pocketid.User.Username user ≠ "" →
        ∀ (E' : Env) (w' w1' : World E') (t' : list Call),
          run E' (Client.GetUserByExternalName (pocketid.User.Username user)) w'
          = (Returned (inr None), w1', t') →
          run E' (adminuser.Observe (AdminUserMR cr1)) w'
          = (Returned (AdminUserMR cr1,
                       inr (managed.ExternalObservation.mk false false)),
             w1', t'))) ∧
  (∀ cr group,
     run E (Client.CreateGroup
              (groupCreateRequest (v1alpha1.Group.ForProvider cr))) w
     = (Returned (inr (Some group)), w1, t1) →
     ∃ cr1,
       run E (group.Create (GroupMR cr)) w
       = (Returned (GroupMR cr1, inr (managed.ExternalCreation.mk ∅)), w1, t1) ∧
       cr1 = v1alpha1.Group.mk
               (meta.SetExternalName (v1alpha1.Group.ObjectMeta cr)
                  (pocketid.Group.GroupName group))
               (v1alpha1.Group.ForProvider cr)
               (v1alpha1.Group.AtProvider cr)
               (v1alpha1.Group.Conditions cr) ∧
       meta.GetExternalName (v1alpha1.Group.ObjectMeta cr1)
       = pocketid.Group.GroupName group ∧
       v1alpha1.Group.ForProvider cr1 = v1alpha1.Group.ForProvider cr ∧
       v1alpha1.Group.AtProvider cr1 = v1alpha1.Group.AtProvider cr ∧
       v1alpha1.Group.Conditions cr1 = v1alpha1.Group.Conditions cr ∧
       (pocketid.Group.GroupName group ≠ "" →
        ∀ (E' : Env) (w' w1' : World E') (t' : list Call),
          run E' (Client.GetGroupByExternalName
                    (pocketid.Group.GroupName group)) w'
          = (Returned (inr None), w1', t') →
          run E' (group.Observe (GroupMR cr1)) w'
          = (Returned (GroupMR cr1,
                       inr (managed.ExternalObservation.mk false false)),
             w1', t'))).
Proof.
  split.
  - intros cr user Hrun. eexists. split.
    { unfold adminuser.Create. cbv zeta.
      change (pocketid.CreateUserRequest.mk _ _ _ _ _ _ _ _)
        with (adminUserCreateRequest (v1alpha1.AdminUser.ForProvider cr)).
      rewrite run_bind, Hrun. cbn [run]. by rewrite app_nil_r. }
    split; [reflexivity|].
    cbn [v1alpha1.AdminUser.ObjectMeta v1alpha1.AdminUser.ForProvider
           v1alpha1.AdminUser.AtProvider v1alpha1.AdminUser.Conditions].
    split_and!; try done; [apply GetExternalName_SetExternalName|].
    intros Hne E' w' w1' t' Hlookup. apply String.eqb_neq in Hne.
    unfold adminuser.Observe. cbv zeta. cbn [v1alpha1.AdminUser.ObjectMeta].
    rewrite GetExternalName_SetExternalName, Hne, run_bind, Hlookup.
    cbn [run]. by rewrite app_nil_r.
  - intros cr g Hrun. eexists. split.
    { unfold group.Create. cbv zeta.
      change (pocketid.CreateGroupRequest.mk _ _ _)
        with (groupCreateRequest (v1alpha1.Group.ForProvider cr)).
      rewrite run_bind, Hrun. cbn [run]. by rewrite app_nil_r. }
    split; [reflexivity|].
    cbn [v1alpha1.Group.ObjectMeta v1alpha1.Group.ForProvider
           v1alpha1.Group.AtProvider v1alpha1.Group.Conditions].
    split_and!; try done; [apply GetExternalName_SetExternalName|].
    intros Hne E' w' w1' t' Hlookup. apply String.eqb_neq in Hne.
    unfold group.Observe. cbv zeta. cbn [v1alpha1.Group.ObjectMeta].
    rewrite GetExternalName_SetExternalName, Hne, run_bind, Hlookup.
    cbn [run]. by rewrite app_nil_r.
Qed.

Lemma create_records_remote_name_witness :
  let E := Examples.fixedRemote 200
             (MoreExamples.userBody MoreExamples.upperRoot) in
  let cr := Examples.rootCR in
  ∃ cr1,
    run E (adminuser.Create (AdminUserMR cr)) ()
    = (Returned (AdminUserMR cr1, inr (managed.ExternalCreation.mk ∅)), (),
       [makeRequest "POST" "/api/users"
          (pocketid.CreateUserBody
             (adminUserCreateRequest (v1alpha1.AdminUser.ForProvider cr)))]) ∧
    cr1 = v1alpha1.AdminUser.mk
            (meta.SetExternalName (v1alpha1.AdminUser.ObjectMeta cr) "ROOT")
            (v1alpha1.AdminUser.ForProvider cr)
            (v1alpha1.AdminUser.AtProvider cr)
            (v1alpha1.AdminUser.Conditions cr) ∧
    meta.GetExternalName (v1alpha1.AdminUser.ObjectMeta cr1) = "ROOT" ∧
    v1alpha1.AdminUser.ForProvider cr1 = v1alpha1.AdminUser.ForProvider cr ∧
    v1alpha1.AdminUser.AtProvider cr1 = v1alpha1.AdminUser.AtProvider cr ∧
    v1alpha1.AdminUser.Conditions cr1 = v1alpha1.AdminUser.Conditions cr ∧
    ("ROOT" ≠ "" →
     ∀ (E' : Env) (w' w1' : World E') (t' : list Call),
       run E' (Client.GetUserByExternalName "ROOT") w'
       = (Returned (inr None), w1', t') →
       run E' (adminuser.Observe (AdminUserMR cr1)) w'
       = (Returned (AdminUserMR cr1,
                    inr (managed.ExternalObservation.mk false false)),
          w1', t')).
Proof.
  intros E cr.
  exact (proj1 (create_records_remote_name E () () _) cr MoreExamples.upperRoot
           eq_refl).
Defined.

(** ** Bindings: resolution of the references *)

(** X16. Resolution of the client and of the group of a binding. A literal
    ID is returned as it is, without a call, whatever the reference says.
    Without a literal, a reference is resolved by one read of the referenced
    resource, to its status ID when that is not empty, and a failed read is
    an error. Without a literal and a reference the resolution fails without
    a call, whatever the selector says. An ID that is returned is never
    empty. *)
Theorem binding_reference_resolution
    (cr : v1alpha1.OIDCClientGroupBinding.t) (E : Env) (w : World E) :
  let spec := v1alpha1.OIDCClientGroupBinding.ForProvider cr in
  let clientID := v1alpha1.OIDCClientGroupBindingParameters.ClientID spec in
  let clientRef := v1alpha1.OIDCClientGroupBindingParameters.ClientIDRef spec in
  let groupID := v1alpha1.OIDCClientGroupBindingParameters.GroupID spec in
  let groupRef := v1alpha1.OIDCClientGroupBindingParameters.GroupIDRef spec in
  (clientID ≠ "" →
   run E (clientgroupbinding.resolveClientID cr) w
   = (Returned (inr clientID), w, [])) ∧
  (groupID ≠ "" →
   run E (clientgroupbinding.resolveGroupID cr) w
   = (Returned (inr groupID), w, [])) ∧
  (clientID = "" → clientRef = None →
   run E (clientgroupbinding.resolveClientID cr) w
   = (Returned (inl (errorString
        "client ID, clientIdRef, or clientIdSelector must be specified")),
      w, [])) ∧
  (groupID = "" → groupRef = None →
   run E (clientgroupbinding.resolveGroupID cr) w
   = (Returned (inl (errorString
        "group ID, groupIdRef, or groupIdSelector must be specified")),
      w, [])) ∧
  (∀ ref w1 r,
     clientID = "" → clientRef = Some ref →
     respond E (kubeGetOIDCClient (xpv1.Reference.Name ref)) w = (r, w1) →
     ∃ res,
       run E (clientgroupbinding.resolveClientID cr) w
       = (Returned res, w1, [kubeGetOIDCClient (xpv1.Reference.Name ref)]) ∧
       match r with
       | inl err =>
           res = inl (wrapError "failed to get referenced OIDC client" err)
       | inr oc =>
           v1alpha1.OIDCClientObservation.ID (v1alpha1.OIDCClient.AtProvider oc)
           ≠ "" →
           res = inr (v1alpha1.OIDCClientObservation.ID
                        (v1alpha1.OIDCClient.AtProvider oc))
       end) ∧
  (∀ ref w1 r,
     groupID = "" → groupRef = Some ref →
     respond E (kubeGetGroup (xpv1.Reference.Name ref)) w = (r, w1) →
     ∃ res,
       run E (clientgroupbinding.resolveGroupID cr) w
       = (Returned res, w1, [kubeGetGroup (xpv1.Reference.Name ref)]) ∧
       match r with
       | inl err => res = inl (wrapError "failed to get referenced group" err)
       | inr g =>
           v1alpha1.GroupObservation.ID (v1alpha1.Group.AtProvider g) ≠ "" →
           res = inr (v1alpha1.GroupObservation.ID (v1alpha1.Group.AtProvider g))
       end) ∧
  (∀ id, outcome E (clientgroupbinding.resolveClientID cr) w = Returned (inr id) →
         id ≠ "") ∧
  (∀ id, outcome E (clientgroupbinding.resolveGroupID cr) w = Returned (inr id) →
         id ≠ "").
Proof.
  intros spec clientID clientRef groupID groupRef.
  unfold clientgroupbinding.resolveClientID, clientgroupbinding.resolveGroupID.
  cbv zeta. fold spec. fold clientID. fold clientRef. fold groupID.
  fold groupRef. split_and!.
  - intros Hne. apply String.eqb_neq in Hne. by rewrite Hne.
  - intros Hne. apply String.eqb_neq in Hne. by rewrite Hne.
  - intros -> ->. done.
  - intros -> ->. done.
  - intros ref w1 r -> -> Hget. cbn [String.eqb negb bind call run].
    rewrite Hget. destruct r as [err|oc]; cbn [run bind].
    + eexists; split; done.
    + destruct (String.eqb_spec
                  (v1alpha1.OIDCClientObservation.ID
                     (v1alpha1.OIDCClient.AtProvider oc)) "");
        eexists; split; done.
  - intros ref w1 r -> -> Hget. cbn [String.eqb negb bind call run].
    rewrite Hget. destruct r as [err|g]; cbn [run bind].
    + eexists; split; done.
    + destruct (String.eqb_spec
                  (v1alpha1.GroupObservation.ID (v1alpha1.Group.AtProvider g))
                  "");
        eexists; split; done.
  - apply (wp_run _ (λ _ o, ∀ id, o = Returned (inr id) → id ≠ "")).
    destruct (String.eqb_spec clientID ""); cbn [negb];
      wp_cases; simplify_eq; try done.
    by apply String.eqb_neq.
  - apply (wp_run _ (λ _ o, ∀ id, o = Returned (inr id) → id ≠ "")).
    destruct (String.eqb_spec groupID ""); cbn [negb];
      wp_cases; simplify_eq; try done.
    by apply String.eqb_neq.
Qed.

Lemma binding_reference_resolution_witness :
  run Examples.emptyRemote
    (clientgroupbinding.resolveClientID Examples.literalBinding) ()
  = (Returned (inr "c-1"), (), []) ∧
  run Examples.emptyRemote
    (clientgroupbinding.resolveGroupID Examples.literalBinding) ()
  = (Returned (inr "g-123"), (), []).
Proof.
  destruct (binding_reference_resolution Examples.literalBinding
              Examples.emptyRemote ()) as (Hc & Hg & _).
  exact (conj (Hc ltac:(discriminate)) (Hg ltac:(discriminate))).
Defined.

(** X17. Create of a binding, once both IDs are resolved, sends the one
    association request for the resolved IDs. When it succeeds the external
    name of the binding becomes the resolved client ID, a colon, and the
    resolved group ID: the resource left is the given one with that external
    name set, the rest of the metadata, the spec, the status and the
    conditions being as they were; when it fails the resource is left as it
    was and the error is wrapped. *)
Theorem binding_create_names_by_resolved_ids
    (cr : v1alpha1.OIDCClientGroupBinding.t) (clientID groupID : string)
    (E : Env) (w w1 w2 w3 : World E) (t1 t2 t3 : list Call)
    (e : option error) :
  run E (clientgroupbinding.resolveClientID cr) w
  = (Returned (inr clientID), w1, t1) →
  run E (clientgroupbinding.resolveGroupID cr) w1
  = (Returned (inr groupID), w2, t2) →
  run E (Client.AddClientToGroup clientID groupID) w2 = (Returned e, w3, t3) →
  t3 = [makeRequest "POST"
          ("/api/oidc/clients/" +:+ clientID +:+ "/groups/" +:+ groupID)
          pocketid.NoBody] ∧
  match e with
  | None =>
      ∃ cr1,
        run E (clientgroupbinding.Create (OIDCClientGroupBindingMR cr)) w
        = (Returned (OIDCClientGroupBindingMR cr1,
                     inr (managed.ExternalCreation.mk ∅)),
           w3, t1 ++ t2 ++ t3) ∧
        cr1 = v1alpha1.OIDCClientGroupBinding.mk
                (meta.SetExternalName
                   (v1alpha1.OIDCClientGroupBinding.ObjectMeta cr)
                   (clientID +:+ ":" +:+ groupID))
                (v1alpha1.OIDCClientGroupBinding.ForProvider cr)
                (v1alpha1.OIDCClientGroupBinding.AtProvider cr)
                (v1alpha1.OIDCClientGroupBinding.Conditions cr) ∧
        meta.GetExternalName (v1alpha1.OIDCClientGroupBinding.ObjectMeta cr1)
        = clientID +:+ ":" +:+ groupID ∧
        v1alpha1.OIDCClientGroupBinding.ForProvider cr1
        = v1alpha1.OIDCClientGroupBinding.ForProvider cr ∧
        v1alpha1.OIDCClientGroupBinding.AtProvider cr1
        = v1alpha1.OIDCClientGroupBinding.AtProvider cr ∧
        v1alpha1.OIDCClientGroupBinding.Conditions cr1
        = v1alpha1.OIDCClientGroupBinding.Conditions cr
  | Some err =>
      run E (clientgroupbinding.Create (OIDCClientGroupBindingMR cr)) w
      = (Returned (OIDCClientGroupBindingMR cr,
                   inl (wrapError "failed to create client group binding" err)),
         w3, t1 ++ t2 ++ t3)
  end.
Proof.
  intros Hc Hg Ha. split.
  - revert Ha. unfold Client.AddClientToGroup. cbn [run bind call].
    destruct (respond E _ w2) as [[err|resp] w']; cbn [run]; by intros [= ].
  - unfold clientgroupbinding.Create.
    rewrite run_bind, Hc, run_bind, Hg, run_bind, Ha.
    destruct e as [err|]; cbn [run]; rewrite app_nil_r.
    + done.
    + eexists. split; [reflexivity|]. split; [reflexivity|]. cbn.
      split_and!; try done. apply GetExternalName_SetExternalName.
Qed.

Lemma binding_create_names_by_resolved_ids_witness :
  let E := Examples.fixedRemote 200 Examples.clientAndGroupBody in
  let cr := Examples.literalBinding in
  ∃ cr1,
    run E (clientgroupbinding.Create (OIDCClientGroupBindingMR cr)) ()
    = (Returned (OIDCClientGroupBindingMR cr1,
                 inr (managed.ExternalCreation.mk ∅)),
       (), [] ++ [] ++
           [makeRequest "POST" "/api/oidc/clients/c-1/groups/g-123"
              pocketid.NoBody]) ∧
    cr1 = v1alpha1.OIDCClientGroupBinding.mk
            (meta.SetExternalName
               (v1alpha1.OIDCClientGroupBinding.ObjectMeta cr) "c-1:g-123")
            (v1alpha1.OIDCClientGroupBinding.ForProvider cr)
            (v1alpha1.OIDCClientGroupBinding.AtProvider cr)
            (v1alpha1.OIDCClientGroupBinding.Conditions cr) ∧
    meta.GetExternalName (v1alpha1.OIDCClientGroupBinding.ObjectMeta cr1)
    = "c-1:g-123" ∧
    v1alpha1.OIDCClientGroupBinding.ForProvider cr1
    = v1alpha1.OIDCClientGroupBinding.ForProvider cr ∧
    v1alpha1.OIDCClientGroupBinding.AtProvider cr1
    = v1alpha1.OIDCClientGroupBinding.AtProvider cr ∧
    v1alpha1.OIDCClientGroupBinding.Conditions cr1
    = v1alpha1.OIDCClientGroupBinding.Conditions cr.
Proof.
  intros E cr.
  exact (proj2 (binding_create_names_by_resolved_ids cr "c-1" "g-123" E
                  () () () () [] [] _ None eq_refl eq_refl eq_refl)).
Defined.

(** ** Construction of the client *)

Lemma substring_all (s : string) : String.substring 0 (String.length s) s = s.
Proof. induction s as [|a s IH]; cbn; [done|]. by rewrite IH. Qed.

Lemma substring_split (s : string) (k : nat) :
  (k ≤ String.length s)%nat →
  String.substring 0 k s +:+ String.substring k (String.length s - k) s = s.
Proof.
  revert k; induction s as [|a s IH]; intros k Hk; cbn in Hk.
  - by replace k with 0%nat by lia.
  - destruct k as [|k]; cbn.
    + by rewrite substring_all.
    + change (String a (String.substring 0 k s
                        +:+ String.substring k (String.length s - k) s)
              = String a s).
      f_equal. apply IH. lia.
Qed.

(** A trimmed suffix can be put back. *)
Lemma TrimSuffix_append (s suffix : string) :
  Client.HasSuffix s suffix = true →
  pocketid_client.TrimSuffix s suffix +:+ suffix = s.
Proof.
  unfold pocketid_client.TrimSuffix. intros H. rewrite H.
  unfold Client.HasSuffix in H. cbv zeta in H.
  destruct (Nat.leb_spec (String.length suffix) (String.length s)) as [Hle|];
    [|done].
  apply String.eqb_eq in H.
  pose proof (substring_split s (String.length s - String.length suffix)) as Hsp.
  replace (String.length s - (String.length s - String.length suffix))%nat
    with (String.length suffix) in Hsp by lia.
  rewrite H in Hsp. apply Hsp. lia.
Qed.

(** X18. Construction of the client from credentials fails exactly when the
    endpoint or the API key is empty. Otherwise the client keeps the API
    key, has the default timeout of 30 seconds (for its configuration and
    for its HTTP client), and its endpoint is the given endpoint without one
    trailing slash: with a trailing slash put back it is the given endpoint
    when that ends with a slash, and it is the given endpoint otherwise. *)
Theorem NewClientFromCredentials_spec (endpoint apiKey : string) :
  ((∃ err, pocketid_client.NewClientFromCredentials endpoint apiKey = inl err) ↔
   endpoint = "" ∨ apiKey = "") ∧
  (∀ c, pocketid_client.NewClientFromCredentials endpoint apiKey = inr c →
     let config := pocketid_client.ClientT.config c in
     pocketid_client.Config.APIKey config = apiKey ∧
     pocketid_client.Config.Timeout config = 30000000000 ∧
     pocketid_client.ClientT.httpClientTimeout c = 30000000000 ∧
     (if Client.HasSuffix endpoint "/"
      then pocketid_client.Config.Endpoint config +:+ "/" = endpoint
      else pocketid_client.Config.Endpoint config = endpoint)).
Proof.
  unfold pocketid_client.NewClientFromCredentials.
  destruct (String.eqb_spec endpoint "") as [->|He].
  { split; [split; eauto|done]. }
  destruct (String.eqb_spec apiKey "") as [->|Hk].
  { split; [split; eauto|done]. }
  split.
  - split; [by intros [? ?]|]. by intros [?|?].
  - intros c [= <-]. cbn. split_and!; try done.
    destruct (Client.HasSuffix endpoint "/") eqn:Hs.
    + by apply TrimSuffix_append.
    + unfold pocketid_client.TrimSuffix. by rewrite Hs.
Qed.

Lemma NewClientFromCredentials_spec_witness :
  ∃ c,
    pocketid_client.NewClientFromCredentials "https://id.example/" "key"
    = inr c ∧
    pocketid_client.Config.APIKey (pocketid_client.ClientT.config c) = "key" ∧
    pocketid_client.Config.Timeout (pocketid_client.ClientT.config c)
    = 30000000000 ∧
    pocketid_client.ClientT.httpClientTimeout c = 30000000000 ∧
    pocketid_client.Config.Endpoint (pocketid_client.ClientT.config c) +:+ "/"
    = "https://id.example/".
Proof.
  eexists. split; [reflexivity|].
  exact (proj2 (NewClientFromCredentials_spec "https://id.example/" "key")
           _ eq_refl).
Defined.

(** X19. A client never has the zero timeout (which would mean no timeout
    for its HTTP client): a configuration without a timeout gets the default
    of 30 seconds, any other timeout is kept, and the HTTP client has the
    timeout of the configuration. *)
Theorem NewClient_timeout (config : pocketid_client.Config.t) :
  let c := pocketid_client.NewClient config in
  let timeout := pocketid_client.Config.Timeout (pocketid_client.ClientT.config c) in
  timeout ≠ 0 ∧
  pocketid_client.ClientT.httpClientTimeout c = timeout ∧
  timeout = (if Z.eqb (pocketid_client.Config.Timeout config) 0
             then pocketid_client.DefaultTimeout
             else pocketid_client.Config.Timeout config) ∧
  pocketid_client.Config.Endpoint (pocketid_client.ClientT.config c)
  = pocketid_client.Config.Endpoint config ∧
  pocketid_client.Config.APIKey (pocketid_client.ClientT.config c)
  = pocketid_client.Config.APIKey config.
Proof.
  unfold pocketid_client.NewClient. cbv zeta.
  destruct (Z.eqb_spec (pocketid_client.Config.Timeout config) 0); cbn; done.
Qed.

(** ** Update of an object that is gone *)

Lemma checkResponse_not_found (resp : pocketid.Response.t) (body : pocketid.Body.t) :
  pocketid.Response.StatusCode resp = 404 →
  pocketid.Response.Body resp = inr body →
  Client.checkResponse resp
  = inl (errorString ("API error: HTTP 404 - " +:+ pocketid.Body.raw body)).
Proof.
  intros Hc Hb. unfold Client.checkResponse. rewrite Hb, Hc. reflexivity.
Qed.

(** X20. Update does not treat 404 as absence: when the remote system
    answers the PUT request with 404, Update fails with the API error,
    wrapped with the name of the operation, makes no further call (for an
    OIDC client: no upload of the logo) and leaves the resource as it
    was. *)
Theorem update_of_missing_object_fails
    (ToLower : string → string) (E : Env) (w w1 : World E)
    (resp : pocketid.Response.t) (body : pocketid.Body.t) :
  pocketid.Response.StatusCode resp = 404 →
  pocketid.Response.Body resp = inr body →
  let apiError :=
    errorString ("API error: HTTP 404 - " +:+ pocketid.Body.raw body) in
  (∀ cr,
     let id := v1alpha1.AdminUserObservation.ID
                 (v1alpha1.AdminUser.AtProvider cr) in
     let c := makeRequest "PUT" ("/api/users/" +:+ id)
                (pocketid.UpdateUserBody
                   (adminUserUpdateRequest (v1alpha1.AdminUser.ForProvider cr))) in
     id ≠ "" → respond E c w = (inr resp, w1) →
     run E (adminuser.Update (AdminUserMR cr)) w
     = (Returned (AdminUserMR cr,
                  inl (wrapError "failed to update admin user" apiError)),
        w1, [c])) ∧
  (∀ cr,
     let id := v1alpha1.GroupObservation.ID (v1alpha1.Group.AtProvider cr) in
     let c := makeRequest "PUT" ("/api/groups/" +:+ id)
                (pocketid.UpdateGroupBody
                   (groupUpdateRequest (v1alpha1.Group.ForProvider cr))) in
     id ≠ "" → respond E c w = (inr resp, w1) →
     run E (group.Update (GroupMR cr)) w
     = (Returned (GroupMR cr, inl (wrapError "failed to update group" apiError)),
        w1, [c])) ∧
  (∀ cr,
     let id := v1alpha1.OIDCClientObservation.ID
                 (v1alpha1.OIDCClient.AtProvider cr) in
     let c := makeRequest "PUT" ("/api/oidc/clients/" +:+ id)
                (pocketid.UpdateOIDCClientBody
                   (oidcClientUpdateRequest
                      (v1alpha1.OIDCClient.ForProvider cr))) in
     id ≠ "" → respond E c w = (inr resp, w1) →
     run E (oidcclient.Update ToLower (OIDCClientMR cr)) w
     = (Returned (OIDCClientMR cr,
                  inl (wrapError "failed to update OIDC client" apiError)),
        w1, [c])).
Proof.
  intros Hcode Hbody apiError.
  pose proof (checkResponse_not_found resp body Hcode Hbody) as Hcheck.
  split_and!.
  - intros cr id c Hid Hreply. apply String.eqb_neq in Hid.
    unfold adminuser.Update, Client.UpdateUser. cbv zeta. fold id.
    rewrite Hid. cbn [run bind call]. subst c.
    unfold adminUserUpdateRequest, groupUpdateRequest, oidcClientUpdateRequest
      in Hreply.
    rewrite Hreply.
    cbn [run bind]. rewrite Hcheck. done.
  - intros cr id c Hid Hreply. apply String.eqb_neq in Hid.
    unfold group.Update, Client.UpdateGroup. cbv zeta. fold id.
    rewrite Hid. cbn [run bind call]. subst c.
    unfold adminUserUpdateRequest, groupUpdateRequest, oidcClientUpdateRequest
      in Hreply.
    rewrite Hreply.
    cbn [run bind]. rewrite Hcheck. done.
  - intros cr id c Hid Hreply. apply String.eqb_neq in Hid.
    unfold oidcclient.Update, Client.UpdateOIDCClient. cbv zeta. fold id.
    rewrite Hid. cbn [run bind call]. subst c.
    unfold adminUserUpdateRequest, groupUpdateRequest, oidcClientUpdateRequest
      in Hreply.
    rewrite Hreply.
    cbn [run bind]. rewrite Hcheck. done.
Qed.

Lemma update_of_missing_object_fails_witness :
  run Examples.emptyRemote
    (adminuser.Update (AdminUserMR Examples.renamedCR)) ()
  = (Returned (AdminUserMR Examples.renamedCR,
               inl (wrapError "failed to update admin user"
                      (errorString "API error: HTTP 404 - "))),
     (),
     [makeRequest "PUT" "/api/users/u-1"
        (pocketid.UpdateUserBody
           (adminUserUpdateRequest
              (v1alpha1.AdminUser.ForProvider Examples.renamedCR)))]).
Proof.
  exact (proj1 (update_of_missing_object_fails id Examples.emptyRemote () ()
                  (pocketid.Response.mk 404 (inr Examples.noBody))
                  Examples.noBody eq_refl eq_refl)
           Examples.renamedCR ltac:(discriminate) eq_refl).
Defined.
